(** * Code generation for Puck content trees

    The repository carries three generators that turn a content tree (the
    [data.content] of a page) into React source text:

    - [Jsx]        : [generateJSX] / [generateComponent], string based, with
                     the per-component [codegen] config (skip, mapProps, slots);
    - [ReactCode]  : [generateReactCode] of generate-react-code.ts, string
                     based, driven by a [componentMap];
    - [ReactAst]   : [generateReactComponent] of generate-react.ts, which
                     builds a Babel syntax tree.

    Each is embedded below as a function over JavaScript values, with the
    import registry threaded as explicit state and exceptions as an error
    result.  The properties of the generators are stated and proved after
    the definitions. *)

From Stdlib Require Import String Ascii List ZArith Bool Lia PeanoNat.
From Stdlib Require Import DecimalString Sorted Permutation OrderedTypeEx.
Import ListNotations.

Set Warnings "-register-all".
Local Open Scope list_scope.
Local Open Scope string_scope.

(** ** JavaScript values and the built-ins the generators use *)

Module Js.

(** A value as the generators see it: the JSON-like data of a content tree.
    Numbers are the integer-valued ones; an object is the list of its own
    enumerable entries in enumeration order.  Functions, symbols and
    bigints, which such data does not hold, are outside: the branches of
    the generators that only they reach (the last [return] of
    [formatAttribute] and of [formatPropValue]) have no counterpart
    below. *)
Inductive value : Type :=
| VUndefined
| VNull
| VBool (b : bool)
| VNum (n : Z)
| VStr (s : string)
| VArr (items : list value)
| VObj (entries : list (string * value)).

Definition object : Type := list (string * value).

(** Strings are sequences of code units below 256. *)
Definition LF : ascii := ascii_of_nat 10.
Definition nl : string := String LF EmptyString.
Definition dq : string := String (ascii_of_nat 34) EmptyString.
Definition bs : string := String (ascii_of_nat 92) EmptyString.

(** White space and line terminators, as [String.prototype.trim] and the
    regular expression class [\s] take them. *)
Definition isWhiteSpace (c : ascii) : bool :=
  let n := nat_of_ascii c in
  existsb (Nat.eqb n) [9; 10; 11; 12; 13; 32; 160].

Fixpoint trimStart (s : string) : string :=
  match s with
  | EmptyString => EmptyString
  | String c r => if isWhiteSpace c then trimStart r else s
  end.

(** [s.replace(/\s+$/g, "")], which is also [trimEnd]. *)
Fixpoint trimEnd (s : string) : string :=
  match s with
  | EmptyString => EmptyString
  | String c r =>
      match trimEnd r with
      | EmptyString => if isWhiteSpace c then EmptyString else String c EmptyString
      | r' => String c r'
      end
  end.

Definition trim (s : string) : string := trimStart (trimEnd s).

Definition isEmpty (s : string) : bool :=
  match s with EmptyString => true | _ => false end.

(** [s.includes("\n")]. *)
Fixpoint includesLF (s : string) : bool :=
  match s with
  | EmptyString => false
  | String c r => Ascii.eqb c LF || includesLF r
  end.


(** [s.split("\n")]. *)
Fixpoint splitLF (s : string) : list string :=
  match s with
  | EmptyString => [EmptyString]
  | String c r =>
      if Ascii.eqb c LF then EmptyString :: splitLF r
      else match splitLF r with
           | [] => [String c EmptyString]
           | l :: ls => String c l :: ls
           end
  end.

(** [xs.join(sep)]. *)
Definition join (sep : string) (xs : list string) : string :=
  String.concat sep xs.

(** [s.repeat(n)]. *)
Fixpoint repeat (s : string) (n : nat) : string :=
  match n with
  | O => EmptyString
  | S k => s ++ repeat s k
  end.

(** [String(n)] of an integer-valued number below 1e21 in magnitude, from
    where on JavaScript prints an exponent. *)
Definition numberToString (n : Z) : string :=
  NilZero.string_of_int (Z.to_int n).

Definition hexDigit (n : nat) : ascii :=
  if Nat.ltb n 10 then ascii_of_nat (48 + n) else ascii_of_nat (87 + n).

(** One code unit inside a JSON string literal. *)
Definition escapeUnit (c : ascii) : string :=
  let n := nat_of_ascii c in
  if Nat.eqb n 34 then bs ++ dq
  else if Nat.eqb n 92 then bs ++ bs
  else if Nat.eqb n 8 then bs ++ "b"
  else if Nat.eqb n 12 then bs ++ "f"
  else if Nat.eqb n 10 then bs ++ "n"
  else if Nat.eqb n 13 then bs ++ "r"
  else if Nat.eqb n 9 then bs ++ "t"
  else if Nat.ltb n 32 then
    bs ++ "u00" ++ String (hexDigit (n / 16)) (String (hexDigit (n mod 16)) EmptyString)
  else String c EmptyString.

Fixpoint escapeUnits (s : string) : string :=
  match s with
  | EmptyString => EmptyString
  | String c r => escapeUnit c ++ escapeUnits r
  end.

(** [JSON.stringify(s)] of a string. *)
Definition quote (s : string) : string := dq ++ escapeUnits s ++ dq.

(** [JSON.stringify(v)]; [None] is the [undefined] it returns for
    [undefined]. *)
Fixpoint stringify (v : value) : option string :=
  match v with
  | VUndefined => None
  | VNull => Some "null"
  | VBool b => Some (if b then "true" else "false")
  | VNum n => Some (numberToString n)
  | VStr s => Some (quote s)
  | VArr xs =>
      Some ("[" ++ join ","
                    (map (fun x => match stringify x with
                                   | Some s => s
                                   | None => "null"
                                   end) xs) ++ "]")
  | VObj es =>
      Some ("{" ++ join ","
                    (flat_map (fun '(k, x) => match stringify x with
                                              | Some s => [quote k ++ ":" ++ s]
                                              | None => []
                                              end) es) ++ "}")
  end.

(** [String(v)], also the conversion of template literals and of property
    keys. *)
Fixpoint toStr (v : value) : string :=
  match v with
  | VUndefined => "undefined"
  | VNull => "null"
  | VBool b => if b then "true" else "false"
  | VNum n => numberToString n
  | VStr s => s
  | VArr xs =>
      join "," (map (fun x => match x with
                              | VUndefined | VNull => EmptyString
                              | _ => toStr x
                              end) xs)
  | VObj _ => "[object Object]"
  end.

(** [Boolean(v)]. *)
Definition truthy (v : value) : bool :=
  match v with
  | VUndefined | VNull => false
  | VBool b => b
  | VNum n => negb (n =? 0)%Z
  | VStr s => negb (isEmpty s)
  | VArr _ | VObj _ => true
  end.

Definition isUndefined (v : value) : bool :=
  match v with VUndefined => true | _ => false end.

(** Own-property operations on an object. *)
Fixpoint lookup {A : Type} (k : string) (es : list (string * A)) : option A :=
  match es with
  | [] => None
  | (k', x) :: r => if String.eqb k k' then Some x else lookup k r
  end.

(** [o[k]] on the own entries of a data object. *)
Definition get (k : string) (es : object) : value :=
  match lookup k es with Some x => x | None => VUndefined end.

(** The names of the members that every object inherits from
    [Object.prototype].  A read [o[k]] of a name that is not an own key of
    [o] finds the inherited member, which is a function (for [__proto__]
    the prototype itself): it is truthy and has none of the members that
    the generators read from it.  Where a generator goes on with such a
    member as it does with nothing (the fields of a component, the
    component map, the transforms), the read is written as a [lookup] of
    the own entries; where it does not (the component table, the slot
    names of a transform), as the read that finds the member. *)
Definition prototypeKeys : list string :=
  ["constructor"; "__defineGetter__"; "__defineSetter__"; "hasOwnProperty";
   "__lookupGetter__"; "__lookupSetter__"; "isPrototypeOf";
   "propertyIsEnumerable"; "toString"; "valueOf"; "__proto__";
   "toLocaleString"].

Definition inherited (k : string) : bool :=
  existsb (String.eqb k) prototypeKeys.

(** [k in o]. *)
Definition has {A : Type} (k : string) (es : list (string * A)) : bool :=
  match lookup k es with Some _ => true | None => false end.

(** [delete o[k]]. *)
Fixpoint delete {A : Type} (k : string) (es : list (string * A)) : list (string * A) :=
  match es with
  | [] => []
  | (k', x) :: r => if String.eqb k k' then delete k r else (k', x) :: delete k r
  end.

(** [o[k] = x] and [Map.prototype.set]: an existing key keeps its place,
    a new key goes last. *)
Fixpoint set {A : Type} (k : string) (x : A) (es : list (string * A)) : list (string * A) :=
  match es with
  | [] => [(k, x)]
  | (k', y) :: r => if String.eqb k k' then (k, x) :: r else (k', y) :: set k x r
  end.

(** [v.k] on an arbitrary value: [None] is the TypeError of reading a
    property of [null] or [undefined]. *)
Definition prop (k : string) (v : value) : option value :=
  match v with
  | VUndefined | VNull => None
  | VObj es => Some (get k es)
  | _ => Some VUndefined
  end.

(** The index entries of an array or of a string, from index [i] on. *)
Fixpoint indexed {A : Type} (f : A -> value) (i : nat) (xs : list A) : object :=
  match xs with
  | [] => []
  | x :: r => (numberToString (Z.of_nat i), f x) :: indexed f (S i) r
  end.

(** [Object.entries(v)]: the own enumerable entries of a value. *)
Definition entries (v : value) : object :=
  match v with
  | VObj es => es
  | VArr xs => indexed (fun x => x) 0 xs
  | VStr s => indexed (fun c => VStr (String c EmptyString)) 0 (list_ascii_of_string s)
  | _ => []
  end.

(** [{...v}], a fresh object with the own enumerable entries of [v]. *)
Definition spread (v : value) : object := entries v.

(** The height of a value, an upper bound on how deep a traversal of it
    can go. *)
Fixpoint height (v : value) : nat :=
  match v with
  | VArr xs => S (fold_right (fun x h => Nat.max (height x) h) 0 xs)
  | VObj es => S (fold_right (fun '(_, x) h => Nat.max (height x) h) 0 es)
  | _ => 0
  end.

(** The sign test of a comparator call [a.localeCompare(b)]: [a] does not
    go after [b]. *)
Definition notAfter (localeCompare : string -> string -> comparison)
  (a b : string) : bool :=
  match localeCompare a b with Gt => false | _ => true end.

(** [xs.sort(cmp)] for a consistent comparator: the stable sort.  [le a b]
    says that the comparator does not put [b] strictly before [a]. *)
Section Sort.
Context {A : Type} (le : A -> A -> bool).

Fixpoint insert (x : A) (xs : list A) : list A :=
  match xs with
  | [] => [x]
  | y :: r => if le x y then x :: xs else y :: insert x r
  end.

Definition sort (xs : list A) : list A :=
  fold_right insert [] xs.
End Sort.

End Js.

(** ** Exceptions and threaded state *)

Module Run.

(** What a run can raise: an [Error] thrown by the generator with its
    message, the TypeError of the engine for a property read on [null] or
    [undefined] (or a call of a missing method) and of a Babel builder for
    an argument of the wrong type, what a hook of the configuration threw,
    and the exhaustion of the recursion budget that the embedding gives to
    the traversals. *)
Inductive error : Type :=
| Error (message : string)
| TypeError
| Thrown (thrown : Js.value)
| OutOfFuel.

Inductive result (A : Type) : Type :=
| Ok (a : A)
| Err (e : error).
Arguments Ok {A} a.
Arguments Err {A} e.

(** What the call of a hook of the configuration does: it returns, or it
    throws a value.  The generators call their hooks outside any [try].
    A hook is taken to leave the objects that it is given as they are. *)
Inductive outcome (A : Type) : Type :=
| Returns (a : A)
| Throws (thrown : Js.value).
Arguments Returns {A} a.
Arguments Throws {A} thrown.

Definition call {A : Type} (o : outcome A) : result A :=
  match o with
  | Returns a => Ok a
  | Throws thrown => Err (Thrown thrown)
  end.

(** A computation over a state [S] (an import registry) that may throw. *)
Definition M (S A : Type) : Type := S -> result (A * S).

Definition ret {S A : Type} (a : A) : M S A := fun s => Ok (a, s).

Definition throw {S A : Type} (e : error) : M S A := fun _ => Err e.

Definition bind {S A B : Type} (m : M S A) (k : A -> M S B) : M S B :=
  fun s => match m s with
           | Ok (a, s') => k a s'
           | Err e => Err e
           end.

(** Lifts a step that only throws. *)
Definition lift {S A : Type} (r : result A) : M S A :=
  fun s => match r with Ok a => Ok (a, s) | Err e => Err e end.

(** Lifts a step that only updates the state. *)
Definition modify {S : Type} (f : S -> S) : M S unit := fun s => Ok (tt, f s).

Declare Scope run_scope.
Delimit Scope run_scope with run.
Notation "x <- m ;; k" := (bind m (fun x => k))
  (at level 61, m at next level, right associativity) : run_scope.
Notation "m ;;; k" := (bind m (fun _ => k))
  (at level 61, right associativity) : run_scope.

(** [xs.map(f)] and [xs.forEach(f)] for an [f] with effects, left to right. *)
Fixpoint mapM {S A B : Type} (f : A -> M S B) (xs : list A) : M S (list B) :=
  match xs with
  | [] => ret []
  | x :: r => bind (f x) (fun y => bind (mapM f r) (fun ys => ret (y :: ys)))
  end.

(** [xs.forEach(f)] for an [f] that also updates local accumulators. *)
Fixpoint foldM {S A B : Type} (f : B -> A -> M S B) (xs : list A) (b : B) : M S B :=
  match xs with
  | [] => ret b
  | x :: r => bind (f b x) (fun b' => foldM f r b')
  end.

End Run.

(** ** The schema types shared by the generators *)

Module Types.

(** A field descriptor of a component: its [type] and, for composite
    fields, the descriptors of its items or members. *)
Inductive Field : Type :=
| MkField (type : string)
          (arrayFields : option (list (string * Field)))
          (objectFields : option (list (string * Field))).

Definition Fields : Type := list (string * Field).

Definition fieldType (f : Field) : string :=
  match f with MkField t _ _ => t end.

Definition arrayFields (f : Field) : option Fields :=
  match f with MkField _ a _ => a end.

Definition objectFields (f : Field) : option Fields :=
  match f with MkField _ _ o => o end.

Definition isSlot (f : option Field) : bool :=
  match f with
  | Some fd => String.eqb (fieldType fd) "slot"
  | None => false
  end.

(** [data.content]: absent, or a sequence of component data. *)
Record Data : Type := {
  content : option (list Js.value)
}.

End Types.

(** ** [generateJSX] and [generateComponent]: the string generator with
       per-component [codegen] configuration *)

Module Jsx.
Import Js Run Types.
Local Open Scope run_scope.

Inductive ComponentCodegenImport : Type :=
| NamedImport (path name : string) (alias : option string)
| DefaultImport (path default : string).

Definition specPath (spec : ComponentCodegenImport) : string :=
  match spec with
  | NamedImport p _ _ => p
  | DefaultImport p _ => p
  end.

(** The [import] member of a codegen config: absent, one spec, or an
    array of specs. *)
Inductive ImportConfig : Type :=
| NoImport
| OneImport (spec : ComponentCodegenImport)
| ManyImports (specs : list ComponentCodegenImport).

(** [mapProps] receives the cleaned props and the slot expressions and
    returns the props to print, or nothing; it may also throw. *)
Record ComponentCodegenConfig : Type := {
  component : option string;
  import : ImportConfig;
  mapProps : option (object -> object -> outcome (option object));
  skip : bool
}.

Record ComponentConfig : Type := {
  fields : option Fields;
  codegen : option ComponentCodegenConfig
}.

Record Config : Type := {
  components : list (string * ComponentConfig)
}.

Record GeneratedImport : Type := {
  path : string;
  default : option string;
  named : list (string * option string)
}.

Record GenerateJSXOptions : Type := {
  config : Config;
  data : Data;
  baseDepth : option Z;
  indentSize : option nat
}.

Record GeneratedTree : Type := {
  jsx : string;
  imports : list GeneratedImport
}.


(** An entry of the registry: [{ default?, named: Map }]. *)
Record ImportEntry : Type := {
  entryDefault : option string;
  entryNamed : list (string * option string)
}.

Definition ImportRegistry : Type := list (string * ImportEntry).

(** The render context without its registry, which is the threaded state. *)
Record RenderContext : Type := {
  ctxConfig : Config;
  ctxIndentSize : nat
}.


(** Truth of an optional string: absent and empty are false. *)
Definition given (s : option string) : bool :=
  match s with
  | Some x => negb (isEmpty x)
  | None => false
  end.

Definition indent (depth : Z) (indentSize : nat) : string :=
  if (depth <=? 0)%Z then EmptyString
  else Js.repeat " " (Z.to_nat depth * indentSize).

Definition indentLines (code : string) (depth : Z) (indentSize : nat) : string :=
  if isEmpty code then code
  else
    let padding := indent depth indentSize in
    join nl (map (fun line => if isEmpty line then line else padding ++ line)
                 (splitLF code)).

Definition shiftIndent (code : string) (fromDepth toDepth : Z) (indentSize : nat)
  : string :=
  if isEmpty code || isEmpty (trim code) then EmptyString
  else if (toDepth <=? fromDepth)%Z then code
  else
    let addition := indent (toDepth - fromDepth) indentSize in
    join nl (map (fun line => if isEmpty line then line else addition ++ line)
                 (splitLF code)).

Definition buildElement (name : string) (attributes : list string)
  (children : string) (depth : Z) (indentSize : nat) : string :=
  let indentBase := indent depth indentSize in
  let attrBlock :=
    match attributes with
    | [] => EmptyString
    | _ => nl ++ join nl (map (fun attribute =>
                                 indent (depth + 1) indentSize ++ attribute)
                              attributes)
              ++ nl ++ indentBase
    end in
  if isEmpty (trim children)
  then indentBase ++ "<" ++ name ++ attrBlock ++ " />"
  else indentBase ++ "<" ++ name ++ attrBlock ++ ">" ++ nl ++ children ++ nl
         ++ indentBase ++ "</" ++ name ++ ">".

Definition getSlotFieldNames (fields : option Fields) : list string :=
  match fields with
  | None => []
  | Some fs =>
      map fst (filter (fun '(_, field) => String.eqb (fieldType field) "slot") fs)
  end.

Definition codegenExpression (code : string) : value :=
  let trimmed := if includesLF code then trimEnd code else trim code in
  VObj [("__codegen", VStr trimmed)].

Definition wrapInFragment (code : string) : string :=
  let trimmed := trim code in
  if isEmpty trimmed then EmptyString
  else if negb (includesLF trimmed) then "<>" ++ trimmed ++ "</>"
  else "<>" ++ nl ++ code ++ nl ++ "</>".

(** The slots handed to [mapProps]: per slot name a codegen expression,
    or [null] for a slot that rendered to nothing. *)
Definition createSlotExpressions (slotStrings : list (string * string)) : object :=
  fold_left (fun acc '(key, code) =>
               let trimmed := trim code in
               set key (if negb (isEmpty trimmed)
                        then codegenExpression (wrapInFragment code)
                        else VNull) acc)
            slotStrings [].

Definition isCodegenExpression (v : value) : bool :=
  match v with
  | VObj es => has "__codegen" es
  | _ => false
  end.

Definition isLFString (v : value) : bool :=
  match v with
  | VStr s => String.eqb s nl
  | _ => false
  end.

(** The [code.includes] and [indentLines] steps of [formatAttribute] on the
    [__codegen] member, which is a string by the type of CodegenExpression;
    an array also answers [includes], and any other value has no such
    method. *)
Definition formatCodegen (key : string) (code : value) (depth : Z)
  (indentSize : nat) : result (option string) :=
  match code with
  | VStr c =>
      if negb (includesLF c) then Ok (Some (key ++ "={" ++ c ++ "}"))
      else Ok (Some (key ++ "={" ++ nl ++ indentLines c (depth + 1) indentSize
                         ++ nl ++ indent depth indentSize ++ "}"))
  | VArr xs =>
      if negb (existsb isLFString xs)
      then Ok (Some (key ++ "={" ++ toStr code ++ "}"))
      else Err TypeError
  | _ => Err TypeError
  end.

(** [formatAttribute] on the values of the data; each of them meets one of
    the tests of the source before its last [return null]. *)
Definition formatAttribute (key : string) (v : value) (depth : Z)
  (indentSize : nat) : result (option string) :=
  match v with
  | VUndefined => Ok None
  | VNull => Ok (Some (key ++ "={null}"))
  | VStr s => Ok (Some (key ++ "=" ++ quote s))
  | VNum _ | VBool _ => Ok (Some (key ++ "={" ++ toStr v ++ "}"))
  | VArr _ =>
      Ok (Some (key ++ "={" ++ match stringify v with Some s => s | None => "undefined" end
                    ++ "}"))
  | VObj es =>
      if isCodegenExpression v
      then formatCodegen key (get "__codegen" es) depth indentSize
      else Ok (Some (key ++ "={"
                         ++ match stringify v with Some s => s | None => "undefined" end
                         ++ "}"))
  end.

(** One spec of [registerImport]'s [forEach]. *)
Definition registerSpec (registry : ImportRegistry) (spec : ComponentCodegenImport)
  : ImportRegistry :=
  let next := match lookup (specPath spec) registry with
              | Some e => e
              | None => {| entryDefault := None; entryNamed := [] |}
              end in
  let next' :=
    match spec with
    | DefaultImport _ d =>
        if negb (given (entryDefault next))
        then {| entryDefault := Some d; entryNamed := entryNamed next |}
        else next
    | NamedImport _ name alias =>
        {| entryDefault := entryDefault next;
           entryNamed := set name alias (entryNamed next) |}
    end in
  set (specPath spec) next' registry.

Definition registerImport (registry : ImportRegistry) (importConfig : ImportConfig)
  : ImportRegistry :=
  match importConfig with
  | NoImport => registry
  | OneImport spec => fold_left registerSpec [spec] registry
  | ManyImports specs => fold_left registerSpec specs registry
  end.

Section Finalize.
(** [a.localeCompare(b)] is the host's collation; only its sign is used. *)
Variable localeCompare : string -> string -> comparison.

Definition formatImports (registry : ImportRegistry) : list GeneratedImport :=
  let entries :=
    map (fun '(p, spec) =>
           {| path := p; default := entryDefault spec; named := entryNamed spec |})
        registry in
  let kept :=
    filter (fun entry => given (default entry)
                         || negb (Nat.eqb (length (named entry)) 0))
           entries in
  let sortedNames :=
    map (fun entry =>
           {| path := path entry;
              default := default entry;
              named := sort (fun a b => notAfter localeCompare (fst a) (fst b)) (named entry) |})
        kept in
  sort (fun a b => notAfter localeCompare (path a) (path b)) sortedNames.
End Finalize.

(** [xs.filter(Boolean)] on strings and nulls. *)
Definition filterBoolean (xs : list (option string)) : list string :=
  flat_map (fun x => match x with
                     | Some s => if isEmpty s then [] else [s]
                     | None => []
                     end) xs.

(** The text of one named specifier in [formatImportStatements]. *)
Definition specifierText (specifier : string * option string) : string :=
  let '(name, alias) := specifier in
  match alias with
  | Some a => if isEmpty a then name else name ++ " as " ++ a
  | None => name
  end.

Definition formatImportStatements (imports : list GeneratedImport) : list string :=
  filterBoolean
    (map (fun entry =>
            let names := join ", " (map specifierText (named entry)) in
            let parts :=
              filterBoolean
                [default entry;
                 if isEmpty names then None else Some ("{ " ++ names ++ " }")] in
            match parts with
            | [] => None
            | _ => Some ("import " ++ join ", " parts ++ " from " ++ dq
                           ++ path entry ++ dq ++ ";")
            end) imports).

Definition unknownComponent (type : string) : error :=
  Error ("No component config found for " ++ dq ++ type ++ dq ++ ".").

(** [components?.[type]]: the own entry of the component table or, for a
    name that every object inherits ([toString], [constructor], ...), the
    inherited member, which is truthy and has neither [fields] nor
    [codegen]. *)
Definition componentConfigOf (config : Config) (type : string)
  : option ComponentConfig :=
  match lookup type (components config) with
  | Some componentConfig => Some componentConfig
  | None =>
      if inherited type then Some {| fields := None; codegen := None |}
      else None
  end.

Definition skipped (componentConfig : ComponentConfig) : bool :=
  match codegen componentConfig with
  | Some c => skip c
  | None => false
  end.

Definition mapPropsOf (componentConfig : ComponentConfig)
  : option (object -> object -> outcome (option object)) :=
  match codegen componentConfig with
  | Some c => mapProps c
  | None => None
  end.

Definition importOf (componentConfig : ComponentConfig) : ImportConfig :=
  match codegen componentConfig with
  | Some c => import c
  | None => NoImport
  end.

Definition componentOf (componentConfig : ComponentConfig) : option string :=
  match codegen componentConfig with
  | Some c => component c
  | None => None
  end.

(** The [reduce] of [renderNode] that moves the slot fields out of
    [props]: a slot value that is not an array counts as empty. *)
Definition splitSlots (slotNames : list string) (props : object)
  : list (string * list value) * object :=
  fold_left (fun '(acc, props) slotName =>
               let v := get slotName props in
               (set slotName (match v with VArr xs => xs | _ => [] end) acc,
                delete slotName props))
            slotNames ([], props).

(** [renderContent] over a given node renderer. *)
Definition renderContentWith
  (render : value -> M ImportRegistry (option string))
  (content : list value) : M ImportRegistry string :=
  match content with
  | [] => ret EmptyString
  | _ => nodes <- mapM render content ;;
         ret (join nl (filterBoolean nodes))
  end.

(** [renderNode]; [fuel] bounds the depth of the recursion through slots
    ([renderNode_funded] shows that a budget above the height of the item
    is enough). *)
Fixpoint renderNode (fuel : nat) (context : RenderContext) (item : value)
  (depth : Z) {struct fuel} : M ImportRegistry (option string) :=
  match fuel with
  | O => throw OutOfFuel
  | S fuel' =>
    match prop "type" item with
    | None => throw TypeError
    | Some type =>
      match componentConfigOf (ctxConfig context) (toStr type) with
      | None => throw (unknownComponent (toStr type))
      | Some componentConfig =>
        if skipped componentConfig then ret None
        else
          let itemProps :=
            match prop "props" item with Some p => p | None => VUndefined end in
          let props := spread (if truthy itemProps then itemProps else VObj []) in
          let slotNames := getSlotFieldNames (fields componentConfig) in
          let '(slotContent, props) := splitSlots slotNames props in
          let props := delete "puck" (delete "id" props) in
          slotStrings <-
            mapM (fun '(key, content) =>
                    code <- renderContentWith
                              (fun child => renderNode fuel' context child 1)
                              content ;;
                    ret (key, code))
                 slotContent ;;
          let slotExpressions := createSlotExpressions slotStrings in
          mappedProps <-
            match mapPropsOf componentConfig with
            | Some hook =>
                mapped <- lift (call (hook props slotExpressions)) ;;
                ret (match mapped with
                     | Some mapped => mapped
                     | None => props
                     end)
            | None => ret props
            end ;;
          attributes <-
            mapM (fun '(key, v) =>
                    lift (formatAttribute key v (depth + 1) (ctxIndentSize context)))
                 mappedProps ;;
          slotAttributes <-
            match mapPropsOf componentConfig with
            | Some _ => ret []
            | None =>
                mapM (fun '(slotName, expression) =>
                        if String.eqb slotName "children" || negb (truthy expression)
                        then ret None
                        else lift (formatAttribute slotName expression (depth + 1)
                                     (ctxIndentSize context)))
                     slotExpressions
            end ;;
          let attributes := (filterBoolean attributes ++ filterBoolean slotAttributes)%list in
          let componentName :=
            if given (componentOf componentConfig)
            then match componentOf componentConfig with
                 | Some n => n
                 | None => toStr type
                 end
            else toStr type in
          modify (fun registry => registerImport registry (importOf componentConfig)) ;;;
          let children :=
            match mapPropsOf componentConfig, lookup "children" slotStrings with
            | None, Some s =>
                if negb (isEmpty s)
                then shiftIndent s 1 (depth + 1) (ctxIndentSize context)
                else EmptyString
            | _, _ => EmptyString
            end in
          ret (Some (buildElement componentName attributes children depth
                       (ctxIndentSize context)))
      end
    end
  end.

Definition renderContent (fuel : nat) (context : RenderContext)
  (content : list value) (depth : Z) : M ImportRegistry string :=
  renderContentWith (fun item => renderNode fuel context item depth) content.

Section Generate.
Variable localeCompare : string -> string -> comparison.

Definition generateJSX (options : GenerateJSXOptions) : result GeneratedTree :=
  let baseDepth := match baseDepth options with Some d => d | None => 0%Z end in
  let indentSize := match indentSize options with Some n => n | None => 2 end in
  let content := match content (data options) with Some c => c | None => [] end in
  let context := {| ctxConfig := config options; ctxIndentSize := indentSize |} in
  match renderContent (S (height (VArr content))) context content (baseDepth + 1) [] with
  | Err e => Err e
  | Ok (body, registry) =>
      let baseIndent := indent baseDepth indentSize in
      let hasBody := negb (isEmpty (trim body)) in
      let jsx :=
        if hasBody
        then baseIndent ++ "<>" ++ nl ++ body ++ nl ++ baseIndent ++ "</>"
        else baseIndent ++ "<></>" in
      Ok {| jsx := jsx; imports := formatImports localeCompare registry |}
  end.

End Generate.

End Jsx.

(** ** [generateReactCode]: the string generator driven by a component map *)

Module ReactCode.
Import Js Run Types.
Local Open Scope run_scope.

Definition indent (level : nat) : string := Js.repeat "  " level.

Definition isComponentData (v : value) : bool :=
  match v with
  | VObj es => has "type" es && has "props" es
  | _ => false
  end.

Record CodegenImport : Type := {
  path : string;
  name : option string;
  default : option bool
}.

(** [transformProps] receives the component and its cleaned props and
    returns the props to print; it may also throw, or return something
    that is no object. *)
Record CodegenComponentConfig : Type := {
  as_ : option string;
  import : option CodegenImport;
  omitProps : option (list string);
  preserveId : option bool;
  transformProps : option (value -> object -> outcome value)
}.

(** The schema, which is among the options by their type; the generator
    never reads it. *)
Record Config : Type := {
  components : list (string * option Fields)
}.

Record GenerateReactCodeOptions : Type := {
  config : Config;
  data : Data;
  componentMap : option (list (string * CodegenComponentConfig));
  componentName : option string;
  exportDefault : option bool;
  includeImports : option bool;
  includeReactImport : option bool;
  omitIds : option bool;
  wrapper : option (string * string)
}.

Record GenerateReactCodeResult : Type := {
  code : string;
  imports : list string
}.

Record ImportRecord : Type := {
  defaultImport : option string;
  named : list (string * option string)
}.

Definition ImportMap : Type := list (string * ImportRecord).

(** The internal context without its import map, which is the threaded
    state. *)
Record InternalContext : Type := {
  ctxComponentMap : option (list (string * CodegenComponentConfig));
  ctxOmitIds : bool
}.

Definition isTrue (b : option bool) : bool :=
  match b with Some true => true | _ => false end.

Definition optionStringEqb (a b : option string) : bool :=
  match a, b with
  | Some x, Some y => String.eqb x y
  | None, None => true
  | _, _ => false
  end.

Definition registerImport (localName : string) (importConfig : CodegenImport)
  (imports : ImportMap) : ImportMap :=
  let record := match lookup (path importConfig) imports with
                | Some r => r
                | None => {| defaultImport := None; named := [] |}
                end in
  if isTrue (default importConfig)
  then set (path importConfig)
           {| defaultImport := Some localName; named := named record |} imports
  else
    let importName := match name importConfig with
                      | Some n => n
                      | None => localName
                      end in
    let named' :=
      if negb (existsb (fun '(entryName, entryAlias) =>
                          String.eqb entryName importName
                          && optionStringEqb entryAlias (Some localName))
                       (named record))
      then (named record ++
              [if String.eqb localName importName
               then (importName, None)
               else (importName, Some localName)])%list
      else named record in
    set (path importConfig)
        {| defaultImport := defaultImport record; named := named' |} imports.

Definition nonEmpty (s : option string) : bool :=
  match s with
  | Some x => negb (isEmpty x)
  | None => false
  end.

Section Finalize.
Variable localeCompare : string -> string -> comparison.

Definition reactImportLine : string :=
  "import React from " ++ dq ++ "react" ++ dq ++ ";".

(** The text of one named entry in [buildImports]. *)
Definition entryText (entry : string * option string) : string :=
  let '(entryName, entryAlias) := entry in
  match entryAlias with
  | Some a =>
      if negb (isEmpty a) && negb (String.eqb a entryName)
      then entryName ++ " as " ++ a
      else entryName
  | None => entryName
  end.

(** The lines that [buildImports] emits for one path. *)
Definition importLinesOf (p : string) (record : ImportRecord) : list string :=
  let names := join ", " (map entryText (named record)) in
  let hasDefault := nonEmpty (defaultImport record) in
  let hasNamed := negb (isEmpty names) in
  let defaultName := match defaultImport record with
                     | Some d => d
                     | None => EmptyString
                     end in
  let defaultLine := "import " ++ defaultName ++ " from " ++ dq ++ p ++ dq ++ ";" in
  let namedLine := "import { " ++ names ++ " } from " ++ dq ++ p ++ dq ++ ";" in
  if negb hasDefault && negb hasNamed then []
  else if hasDefault && hasNamed then [defaultLine; namedLine]
  else if hasDefault then [defaultLine]
  else [namedLine].

Definition buildImports (imports : ImportMap) (includeReact : bool) : list string :=
  ((if includeReact then [reactImportLine] else [])
     ++ flat_map (fun '(p, record) => importLinesOf p record)
          (sort (fun a b => notAfter localeCompare (fst a) (fst b)) imports))%list.
End Finalize.

Inductive PropKind : Type := KString | KExpression.

Definition definedEntries (es : object) : object :=
  filter (fun '(_, v) => negb (isUndefined v)) es.

(** [renderComponent], [formatPropValue] and [formatChildren]; [fuel]
    bounds the depth of their mutual recursion, which runs over what
    [transformProps] returns and so has no bound in the data. *)
Fixpoint renderComponent (fuel : nat) (ctx : InternalContext) (component : value)
  (depth : nat) {struct fuel} : M ImportMap string :=
  match fuel with
  | O => throw OutOfFuel
  | S fuel' =>
    match prop "type" component with
    | None => throw TypeError
    | Some type =>
      let mapEntry :=
        match ctxComponentMap ctx with
        | Some m => lookup (toStr type) m
        | None => None
        end in
      let componentName :=
        match mapEntry with
        | Some {| as_ := Some n |} => n
        | _ => toStr type
        end in
      match mapEntry with
      | Some {| import := Some importConfig |} =>
          modify (registerImport componentName importConfig)
      | _ => ret tt
      end ;;;
      let omitId :=
        ctxOmitIds ctx
        && negb (match mapEntry with
                 | Some e => isTrue (preserveId e)
                 | None => false
                 end) in
      let cleanedProps :=
        spread (match prop "props" component with Some p => p | None => VUndefined end) in
      let cleanedProps := delete "editMode" (delete "puck" cleanedProps) in
      let cleanedProps := if omitId then delete "id" cleanedProps else cleanedProps in
      let cleanedProps :=
        match mapEntry with
        | Some {| omitProps := Some names |} =>
            fold_left (fun acc k => delete k acc) names cleanedProps
        | _ => cleanedProps
        end in
      transformedProps <-
        match mapEntry with
        | Some {| transformProps := Some hook |} =>
            lift (call (hook component cleanedProps))
        | _ => ret (VObj cleanedProps)
        end ;;
      match prop "children" transformedProps with
      | None => throw TypeError
      | Some children =>
      let props := delete "children" (spread transformedProps) in
      let propEntries := definedEntries props in
      propLines <-
        mapM (fun '(key, v) =>
                formatted <- formatPropValue fuel' ctx v depth ;;
                let propIndent := indent depth in
                match fst formatted with
                | KString => ret (propIndent ++ key ++ "=" ++ snd formatted)
                | KExpression => ret (propIndent ++ key ++ "={" ++ snd formatted ++ "}")
                end)
             propEntries ;;
      childrenContent <- formatChildren fuel' ctx children (depth + 1) ;;
      let hasChildren := nonEmpty childrenContent in
      match propLines, hasChildren with
      | [], false => ret (indent depth ++ "<" ++ componentName ++ " />")
      | _, false =>
          ret (indent depth ++ "<" ++ componentName ++ nl ++ join nl propLines
                 ++ nl ++ indent depth ++ " />")
      | _, true =>
          let propsString :=
            match propLines with
            | [] => EmptyString
            | _ => nl ++ join nl propLines ++ nl ++ indent depth
            end in
          let childrenString :=
            match childrenContent with
            | Some c => nl ++ c ++ nl ++ indent depth
            | None => EmptyString
            end in
          ret (indent depth ++ "<" ++ componentName ++ propsString ++ ">"
                 ++ childrenString ++ "</" ++ componentName ++ ">")
      end
      end
    end
  end

with formatPropValue (fuel : nat) (ctx : InternalContext) (v : value)
  (depth : nat) {struct fuel} : M ImportMap (PropKind * string) :=
  match fuel with
  | O => throw OutOfFuel
  | S fuel' =>
    match v with
    | VUndefined => ret (KExpression, "undefined")
    | VStr s => ret (KString, quote s)
    | VNum _ | VBool _ => ret (KExpression, toStr v)
    | VNull => ret (KExpression, "null")
    | VArr [] => ret (KExpression, "[]")
    | VArr items =>
        inner <-
          mapM (fun item =>
                  if isComponentData item
                  then renderComponent fuel' ctx item (depth + 1)
                  else formatted <- formatPropValue fuel' ctx item (depth + 1) ;;
                       ret (indent (depth + 1) ++ snd formatted))
               items ;;
        ret (KExpression, "[" ++ nl ++ join ("," ++ nl) inner ++ nl ++ indent depth ++ "]")
    | VObj es =>
        if isComponentData v
        then rendered <- renderComponent fuel' ctx v (depth + 2) ;;
             ret (KExpression, "(" ++ nl ++ rendered ++ nl ++ indent (depth + 1) ++ ")")
        else
          match definedEntries es with
          | [] => ret (KExpression, "{}")
          | entries =>
              lines <-
                mapM (fun '(key, val) =>
                        formatted <- formatPropValue fuel' ctx val (depth + 1) ;;
                        ret (indent (depth + 1) ++ key ++ ": " ++ snd formatted))
                     entries ;;
              ret (KExpression,
                   "{" ++ nl ++ join ("," ++ nl) lines ++ nl ++ indent depth ++ "}")
          end
    end
  end

with formatChildren (fuel : nat) (ctx : InternalContext) (v : value)
  (depth : nat) {struct fuel} : M ImportMap (option string) :=
  match fuel with
  | O => throw OutOfFuel
  | S fuel' =>
    match v with
    | VUndefined | VNull => ret None
    | VArr [] => ret None
    | VArr items =>
        parts <-
          mapM (fun child =>
                  if isComponentData child
                  then renderComponent fuel' ctx child depth
                  else formatted <- formatPropValue fuel' ctx child depth ;;
                       ret (indent depth ++ "{" ++ snd formatted ++ "}"))
               items ;;
        ret (Some (join nl parts))
    | _ =>
        if isComponentData v
        then rendered <- renderComponent fuel' ctx v depth ;; ret (Some rendered)
        else formatted <- formatPropValue fuel' ctx v depth ;;
             ret (Some (indent depth ++ "{" ++ snd formatted ++ "}"))
    end
  end.

Section Generate.
Variable localeCompare : string -> string -> comparison.

Definition generateReactCode (fuel : nat) (options : GenerateReactCodeOptions)
  : result GenerateReactCodeResult :=
  let componentName :=
    match componentName options with Some n => n | None => "GeneratedPage" end in
  let exportDefault := isTrue (exportDefault options) in
  let includeImports :=
    match includeImports options with Some b => b | None => true end in
  let includeReactImport := isTrue (includeReactImport options) in
  let omitIds := match omitIds options with Some b => b | None => true end in
  let wrapper :=
    match wrapper options with Some w => w | None => ("<>", "</>") end in
  let ctx := {| ctxComponentMap := componentMap options; ctxOmitIds := omitIds |} in
  let content := match content (data options) with Some c => c | None => [] end in
  match mapM (fun component => renderComponent fuel ctx component 2) content [] with
  | Err e => Err e
  | Ok (rendered, imports) =>
      let bodyContent :=
        match rendered with
        | [] => indent 3 ++ "{/* No components in data */}"
        | _ => join (nl ++ nl) rendered
        end in
      let componentBody :=
        ["export " ++ (if exportDefault then "default " else EmptyString)
           ++ "function " ++ componentName ++ "() {";
         "  return (";
         "    " ++ fst wrapper;
         bodyContent;
         "    " ++ snd wrapper;
         "  );";
         "}"] in
      let importLines :=
        if includeImports then buildImports localeCompare imports includeReactImport
        else if includeReactImport then [reactImportLine]
        else [] in
      let code :=
        match importLines with
        | [] => join nl componentBody
        | _ => join nl importLines ++ nl ++ nl ++ join nl componentBody
        end in
      Ok {| code := code; imports := importLines |}
  end.
End Generate.

End ReactCode.

(** ** [generateReactComponent]: the generator that builds a Babel tree *)

Module ReactAst.
Import Js Run Types.
Local Open Scope run_scope.

(** The Babel nodes that the generator builds, with the members that the
    builders of [@babel/types] take. *)
Inductive Node : Type :=
| NullLiteral
| StringLiteral (value : string)
| BooleanLiteral (value : bool)
| NumericLiteral (value : Z)
| Identifier (name : string)
| UnaryExpression (operator : string) (argument : Node)
| ArrayExpression (elements : list Node)
| ObjectProperty (key value : Node)
| ObjectExpression (properties : list Node)
| JSXIdentifier (name : string)
| JSXText (value : string)
| JSXExpressionContainer (expression : Node)
| JSXAttribute (name value : Node)
| JSXOpeningElement (name : Node) (attributes : list Node) (selfClosing : bool)
| JSXClosingElement (name : Node)
| JSXElement (opening : Node) (closing : option Node) (children : list Node)
             (selfClosing : bool)
| JSXOpeningFragment
| JSXClosingFragment
| JSXFragment (opening closing : Node) (children : list Node)
| ImportDefaultSpecifier (local : Node)
| ImportSpecifier (local imported : Node)
| ImportDeclaration (specifiers : list Node) (source : Node)
| ParenthesizedExpression (expression : Node)
| ReturnStatement (argument : Node)
| BlockStatement (body : list Node)
| FunctionDeclaration (id : Node) (params : list Node) (body : Node)
| ExportNamedDeclaration (declaration : Node)
| Program (body : list Node)
| File (program : Node).

Definition isNullLiteral (n : Node) : bool :=
  match n with NullLiteral => true | _ => false end.

Definition isStringLiteral (n : Node) : bool :=
  match n with StringLiteral _ => true | _ => false end.

Definition isJSXElement (n : Node) : bool :=
  match n with JSXElement _ _ _ _ => true | _ => false end.

Definition isJSXFragment (n : Node) : bool :=
  match n with JSXFragment _ _ _ => true | _ => false end.

Inductive CodegenImport : Type :=
| NamedImportSpec (path import : string) (alias : option string)
| DefaultImportSpec (path default : string).

Inductive ImportConfig : Type :=
| NoImport
| OneImport (spec : CodegenImport)
| ManyImports (specs : list CodegenImport).

(** [mapProps] receives the props of the component and returns the props
    to print; it may also throw. *)
Record CodegenComponentTransform : Type := {
  as_ : option string;
  import : ImportConfig;
  mapProps : option (value -> outcome value);
  slotProps : option (list (string * string))
}.

Record ComponentConfig : Type := {
  fields : option Fields
}.

Record Config : Type := {
  components : list (string * ComponentConfig)
}.

Record GenerateReactComponentOptions : Type := {
  config : Config;
  data : Data;
  componentName : option string;
  transforms : option (list (string * CodegenComponentTransform));
  includeIds : option bool;
  reactImport : option bool
}.

Record GenerateReactComponentResult : Type := {
  code : string
}.

Record ImportBucket : Type := {
  named : list (string * option string);
  defaultName : option string
}.

Definition ImportBuckets : Type := list (string * ImportBucket).

Definition given (s : option string) : bool :=
  match s with
  | Some x => negb (isEmpty x)
  | None => false
  end.

Definition optionStringEqb (a b : option string) : bool :=
  match a, b with
  | Some x, Some y => String.eqb x y
  | None, None => true
  | _, _ => false
  end.

Definition multipleDefaults (p existing received : string) : error :=
  Error ("Multiple default imports declared for " ++ dq ++ p ++ dq ++ ". Received "
           ++ dq ++ existing ++ dq ++ " and " ++ dq ++ received ++ dq ++ ".").

Definition conflictingAliases (imported p : string) : error :=
  Error ("Conflicting aliases declared for " ++ dq ++ imported ++ dq ++ " from "
           ++ dq ++ p ++ dq ++ ".").

Definition notDefined (type : string) : error :=
  Error ("Component " ++ dq ++ type ++ dq
           ++ " is not defined in the provided config.").

Definition emptyBucket : ImportBucket := {| named := []; defaultName := None |}.

(** One entry of [registerImport]'s [forEach]. *)
Definition registerEntry (entry : CodegenImport) : M ImportBuckets unit :=
  fun importBuckets =>
    match entry with
    | DefaultImportSpec p d =>
        let bucket := match lookup p importBuckets with
                      | Some b => b
                      | None => emptyBucket
                      end in
        if given (defaultName bucket)
           && negb (optionStringEqb (defaultName bucket) (Some d))
        then Err (multipleDefaults p
                    (match defaultName bucket with Some x => x | None => EmptyString end)
                    d)
        else Ok (tt, set p {| named := named bucket; defaultName := Some d |}
                       importBuckets)
    | NamedImportSpec p imported alias =>
        let bucket := match lookup p importBuckets with
                      | Some b => b
                      | None => emptyBucket
                      end in
        let existingAlias := match lookup imported (named bucket) with
                             | Some a => a
                             | None => None
                             end in
        if given existingAlias && negb (optionStringEqb existingAlias alias)
        then Err (conflictingAliases imported p)
        else Ok (tt, set p {| named := set imported alias (named bucket);
                              defaultName := defaultName bucket |}
                       importBuckets)
    end.

Definition registerImport (spec : ImportConfig) : M ImportBuckets unit :=
  match spec with
  | NoImport => ret tt
  | OneImport entry => mapM registerEntry [entry] ;;; ret tt
  | ManyImports entries => mapM registerEntry entries ;;; ret tt
  end.

Section Babel.
(** [t.valueToNode], [t.isValidIdentifier] and the printer [generate]
    come from Babel; [a.localeCompare(b)] is the host's collation, of
    which only the sign is used. *)
Variable valueToNode : value -> Node.
Variable isValidIdentifier : string -> bool.
Variable generate : Node -> string.
Variable localeCompare : string -> string -> comparison.

Section Closures.
(** The options that the closures of [generateReactComponent] read. *)
Variable config : Config.
Variable components : list (string * CodegenComponentTransform).
Variable includeIds : bool.

Definition createObjectKey (key : string) : Node :=
  if isValidIdentifier key then Identifier key else StringLiteral key.

Definition getComponentTransform (componentName : string)
  : option CodegenComponentTransform :=
  lookup componentName components.

(** [transform?.slotProps?.[name]]: the name that the transform gives the
    slot, the member that [slotProps] inherits under [name], or nothing. *)
Inductive SlotProp : Type :=
| Renamed (mapped : string)
| InheritedMember
| NotRenamed.

Definition slotPropOf (transform : option CodegenComponentTransform)
  (name : string) : SlotProp :=
  match transform with
  | Some {| slotProps := Some names |} =>
      match lookup name names with
      | Some mapped => Renamed mapped
      | None => if inherited name then InheritedMember else NotRenamed
      end
  | _ => NotRenamed
  end.

(** [config.components?.[type]]: the own entry of the component table or,
    for a name that every object inherits, the inherited member, which is
    truthy and has no [fields]. *)
Definition componentConfigOf (type : string) : option ComponentConfig :=
  match lookup type (ReactAst.components config) with
  | Some componentConfig => Some componentConfig
  | None => if inherited type then Some {| fields := None |} else None
  end.

(** [t.jsxIdentifier(name)]: the builder checks that the name is a string;
    [None] stands for a name that is none. *)
Definition jsxIdentifier (name : option string) : result Node :=
  match name with
  | Some n => Ok (JSXIdentifier n)
  | None => Err TypeError
  end.

Definition isChildren (name : option string) : bool :=
  match name with
  | Some n => String.eqb n "children"
  | None => false
  end.

Definition pushChild (node : Node) (children : list Node) : list Node :=
  if isNullLiteral node then children
  else match node with
       | StringLiteral s => (children ++ [JSXText s])%list
       | _ =>
           if isJSXElement node || isJSXFragment node
           then (children ++ [node])%list
           else (children ++ [JSXExpressionContainer node])%list
       end.

Definition isPlainObject (v : value) : bool :=
  match v with VObj _ => true | _ => false end.

Definition hasKey (attributes : list Node) : bool :=
  existsb (fun attr => match attr with
                       | JSXAttribute (JSXIdentifier n) _ => String.eqb n "key"
                       | _ => false
                       end) attributes.

(** The closures of [generateReactComponent] that walk the data; [fuel]
    bounds the depth of their mutual recursion, which runs over what
    [mapProps] returns and so has no bound in the data. *)
Fixpoint createComponent (fuel : nat) (component : value) (addKey : bool)
  {struct fuel} : M ImportBuckets Node :=
  match fuel with
  | O => throw OutOfFuel
  | S fuel' =>
    match prop "type" component with
    | None => throw TypeError
    | Some type =>
      match componentConfigOf (toStr type) with
      | None => throw (notDefined (toStr type))
      | Some componentConfig =>
        let transform := getComponentTransform (toStr type) in
        let typeName := match type with VStr s => Some s | _ => None end in
        let componentIdentifier :=
          match transform with
          | Some {| as_ := Some n |} => if isEmpty n then typeName else Some n
          | _ => typeName
          end in
        registerImport (match transform with
                        | Some t => import t
                        | None => NoImport
                        end) ;;;
        let ownProps :=
          match prop "props" component with Some p => p | None => VUndefined end in
        let ownProps := if truthy ownProps then ownProps else VObj [] in
        props <-
          match transform with
          | Some {| mapProps := Some hook |} => lift (call (hook ownProps))
          | _ => ret ownProps
          end ;;
        result <- createAttributes fuel'
                    (entries (if truthy props then props else VObj []))
                    (fields componentConfig) transform ;;
        let '(attributes, children) := result in
        attributes <-
          (let id := get "id" (entries ownProps) in
           if addKey && truthy id
           then if negb (hasKey attributes)
                then match id with
                     | VStr s =>
                         ret (JSXAttribute (JSXIdentifier "key") (StringLiteral s)
                                :: attributes)
                     | _ => throw TypeError
                     end
                else ret attributes
           else ret attributes) ;;
        let noChildren := Nat.eqb (length children) 0 in
        name <- lift (jsxIdentifier componentIdentifier) ;;
        let opening := JSXOpeningElement name attributes noChildren in
        let closing :=
          if noChildren then None
          else Some (JSXClosingElement name) in
        ret (JSXElement opening closing children noChildren)
      end
    end
  end

with createSlotChildren (fuel : nat) (content : value) {struct fuel}
  : M ImportBuckets (list Node) :=
  match fuel with
  | O => throw OutOfFuel
  | S fuel' =>
    match content with
    | VArr items => mapM (fun child => createComponent fuel' child true) items
    | _ => ret []
    end
  end

with createArrayExpression (fuel : nat) (values : value) (fields : option Fields)
  {struct fuel} : M ImportBuckets Node :=
  match fuel with
  | O => throw OutOfFuel
  | S fuel' =>
    match values with
    | VArr items =>
        elements <-
          mapM (fun item =>
                  if isUndefined item then ret NullLiteral
                  else if isPlainObject item
                  then createObjectExpression fuel' item fields
                  else ret (valueToNode item))
               items ;;
        ret (ArrayExpression elements)
    | _ => if truthy values then throw TypeError else ret (ArrayExpression [])
    end
  end

with createObjectExpression (fuel : nat) (v : value) (fields : option Fields)
  {struct fuel} : M ImportBuckets Node :=
  match fuel with
  | O => throw OutOfFuel
  | S fuel' =>
    properties <-
      mapM (fun '(key, propValue) =>
              let field := match fields with
                           | Some fs => lookup key fs
                           | None => None
                           end in
              node <- createFieldValueNode fuel' propValue field ;;
              match node with
              | None => ret []
              | Some n => ret [ObjectProperty (createObjectKey key) n]
              end)
           (filter (fun '(_, propValue) => negb (isUndefined propValue))
                   (entries (if truthy v then v else VObj []))) ;;
    ret (ObjectExpression (concat properties))
  end

with createFieldValueNode (fuel : nat) (v : value) (field : option Field)
  {struct fuel} : M ImportBuckets (option Node) :=
  match fuel with
  | O => throw OutOfFuel
  | S fuel' =>
    if isUndefined v then ret None
    else
      match field with
      | None => ret (Some (valueToNode v))
      | Some fd =>
          if String.eqb (fieldType fd) "slot" then
            slotChildren <- createSlotChildren fuel' v ;;
            match slotChildren with
            | [] => ret (Some NullLiteral)
            | [only] => ret (Some only)
            | _ => ret (Some (JSXFragment JSXOpeningFragment JSXClosingFragment
                                slotChildren))
            end
          else if String.eqb (fieldType fd) "array" then
            node <- createArrayExpression fuel'
                      (match v with VNull => VArr [] | _ => v end)
                      (arrayFields fd) ;;
            ret (Some node)
          else if String.eqb (fieldType fd) "object" then
            node <- createObjectExpression fuel'
                      (match v with VNull => VObj [] | _ => v end)
                      (objectFields fd) ;;
            ret (Some node)
          else ret (Some (valueToNode v))
      end
  end

with createAttributes (fuel : nat) (props : object)
  (componentFields : option Fields) (transform : option CodegenComponentTransform)
  {struct fuel} : M ImportBuckets (list Node * list Node) :=
  match fuel with
  | O => throw OutOfFuel
  | S fuel' =>
    foldM (fun '(attributes, children) '(name, v) =>
             if negb includeIds && String.eqb name "id"
             then ret (attributes, children)
             else
               let field := match componentFields with
                            | Some fs => lookup name fs
                            | None => None
                            end in
               let mappedName :=
                 if isSlot field
                 then match slotPropOf transform name with
                      | Renamed mapped => if isEmpty mapped then Some name
                                          else Some mapped
                      | InheritedMember => None
                      | NotRenamed => Some name
                      end
                 else Some name in
               if isChildren mappedName then
                 if isSlot field then
                   slotChildren <- createSlotChildren fuel' v ;;
                   ret (attributes, (children ++ slotChildren)%list)
                 else
                   node <- createFieldValueNode fuel' v field ;;
                   match node with
                   | None => ret (attributes, children)
                   | Some n => ret (attributes, pushChild n children)
                   end
               else if isSlot field then
                 slotChildren <- createSlotChildren fuel' v ;;
                 if (isChildren mappedName || String.eqb name "children")
                    && negb (Nat.eqb (length slotChildren) 0)
                 then ret (attributes, (children ++ slotChildren)%list)
                 else
                   slotExpression <- createFieldValueNode fuel' v field ;;
                   match slotExpression with
                   | None => ret (attributes, children)
                   | Some e =>
                       attribute <- lift (jsxIdentifier mappedName) ;;
                       ret ((attributes ++ [JSXAttribute attribute
                                              (JSXExpressionContainer e)])%list,
                            children)
                   end
               else
                 node <- createFieldValueNode fuel' v field ;;
                 match node with
                 | None => ret (attributes, children)
                 | Some n =>
                     attribute <- lift (jsxIdentifier mappedName) ;;
                     if isStringLiteral n
                     then ret ((attributes ++ [JSXAttribute attribute n])%list,
                               children)
                     else ret ((attributes ++ [JSXAttribute attribute
                                                 (JSXExpressionContainer n)])%list,
                               children)
                 end)
          props ([], [])
  end.
End Closures.

(** The import declarations that [generateReactComponent] emits from the
    buckets once the tree is built. *)
Definition importDeclarations (importBuckets : ImportBuckets) : list Node :=
  map (fun '(p, bucket) =>
         let namedImports :=
           sort (fun a b => notAfter localeCompare (fst a) (fst b)) (named bucket) in
         let defaultSpecifier :=
           match defaultName bucket with
           | Some d => if isEmpty d then []
                       else [ImportDefaultSpecifier (Identifier d)]
           | None => []
           end in
         let namedSpecifiers :=
           map (fun '(importName, alias) =>
                  let localName := if given alias
                                   then match alias with
                                        | Some a => a
                                        | None => importName
                                        end
                                   else importName in
                  (ImportSpecifier (Identifier localName) (Identifier importName)))
               namedImports in
         (ImportDeclaration (defaultSpecifier ++ namedSpecifiers)%list
            (StringLiteral p)))
      (sort (fun a b => notAfter localeCompare (fst a) (fst b)) importBuckets).

(** The syntax tree of the module, before it is printed. *)
Definition generateFile (fuel : nat) (options : GenerateReactComponentOptions)
  : result Node :=
  let componentName :=
    match componentName options with Some n => n | None => "GeneratedPage" end in
  let components := match transforms options with Some m => m | None => [] end in
  let includeIds := match includeIds options with Some b => b | None => false end in
  let reactImport := match reactImport options with Some b => b | None => true end in
  let content := match content (data options) with Some c => c | None => [] end in
  match mapM (fun component =>
                createComponent (config options) components includeIds fuel
                  component false)
             content [] with
  | Err e => Err e
  | Ok (rootChildren, importBuckets) =>
      let fragment := JSXFragment JSXOpeningFragment JSXClosingFragment rootChildren in
      let reactStatements :=
        if reactImport
        then [ImportDeclaration [ImportDefaultSpecifier (Identifier "React")]
                (StringLiteral "react")]
        else [] in
      let returnStatement := ReturnStatement (ParenthesizedExpression fragment) in
      let componentDeclaration :=
        ExportNamedDeclaration
          (FunctionDeclaration (Identifier componentName) []
             (BlockStatement [returnStatement])) in
      Ok (File (Program (reactStatements ++ importDeclarations importBuckets
                           ++ [componentDeclaration])%list))
  end.

Definition generateReactComponent (fuel : nat)
  (options : GenerateReactComponentOptions) : result GenerateReactComponentResult :=
  match generateFile fuel options with
  | Err e => Err e
  | Ok file => Ok {| code := generate file |}
  end.
End Babel.

(** A reference [valueToNode] for plain data, after the documentation of
    [@babel/types]; the examples are evaluated with it. *)
Fixpoint plainValueToNode (isValidIdentifier : string -> bool) (v : value) : Node :=
  match v with
  | VUndefined => Identifier "undefined"
  | VNull => NullLiteral
  | VBool b => BooleanLiteral b
  | VNum n => if (n <? 0)%Z then UnaryExpression "-" (NumericLiteral (Z.abs n))
              else NumericLiteral n
  | VStr s => StringLiteral s
  | VArr xs => ArrayExpression (map (plainValueToNode isValidIdentifier) xs)
  | VObj es =>
      ObjectExpression
        (map (fun '(k, x) =>
                ObjectProperty
                  (if isValidIdentifier k then Identifier k else StringLiteral k)
                  (plainValueToNode isValidIdentifier x)) es)
  end.

End ReactAst.

(** * Inputs and vocabulary of the statements *)

(** ** Reference instances used to evaluate the generators *)

(** The comparison of strings by code units, as a stand-in for the host's
    [localeCompare] where an example needs one. *)
Definition codeUnitCompare (a b : string) : comparison := String_as_OT.cmp a b.

Definition anyIdentifier (key : string) : bool := true.


(** A content node [{ type, props }]. *)
Definition node (type : string) (props : Js.object) : Js.value :=
  Js.VObj [("type", Js.VStr type); ("props", Js.VObj props)].

(** ** Example inputs *)

Definition textField : Types.Field := Types.MkField "text" None None.
Definition slotField : Types.Field := Types.MkField "slot" None None.
Definition arrayField : Types.Field := Types.MkField "array" (Some []) None.

(** Options of [generateReactCode] with the defaults of the generator. *)
Definition codeOptions (content : list Js.value)
  (componentMap : option (list (string * ReactCode.CodegenComponentConfig)))
  : ReactCode.GenerateReactCodeOptions :=
  {| ReactCode.config :=
       {| ReactCode.components := [("Button", Some [("label", textField)])] |};
     ReactCode.data := {| Types.content := Some content |};
     ReactCode.componentMap := componentMap;
     ReactCode.componentName := None;
     ReactCode.exportDefault := None;
     ReactCode.includeImports := None;
     ReactCode.includeReactImport := None;
     ReactCode.omitIds := None;
     ReactCode.wrapper := None |}.

(** A page with a node of the unregistered type Ghost next to a Button. *)
Definition ghostOptions : ReactCode.GenerateReactCodeOptions :=
  codeOptions [node "Ghost" []; node "Button" [("label", Js.VStr "Go")]] None.


(** The named import of Row from antd, for a component printed as Row. *)
Definition rowImport : ReactCode.CodegenImport :=
  {| ReactCode.path := "antd"; ReactCode.name := Some "Row"; ReactCode.default := None |}.

Definition mapTo (name : string) (importConfig : ReactCode.CodegenImport)
  : ReactCode.CodegenComponentConfig :=
  {| ReactCode.as_ := Some name;
     ReactCode.import := Some importConfig;
     ReactCode.omitProps := None;
     ReactCode.preserveId := None;
     ReactCode.transformProps := None |}.

Definition colImport : ReactCode.CodegenImport :=
  {| ReactCode.path := "antd"; ReactCode.name := Some "Col"; ReactCode.default := None |}.

(** A page with a Row before a Col, both imported from antd. *)
Definition rowThenColOptions : ReactCode.GenerateReactCodeOptions :=
  codeOptions [node "Row" []; node "Col" []]
    (Some [("Row", mapTo "Row" rowImport); ("Col", mapTo "Col" colImport)]).

(** A page with two Stack nodes, both printed as the Row of antd. *)
Definition twoRowsOptions : ReactCode.GenerateReactCodeOptions :=
  codeOptions [node "Stack" []; node "Stack" []]
    (Some [("Stack", mapTo "Row" rowImport)]).

(** A Card with the slot field [actions], and a Button. *)
Definition cardConfig : Jsx.Config :=
  {| Jsx.components :=
       [("Card", {| Jsx.fields := Some [("actions", slotField)]; Jsx.codegen := None |});
        ("Button", {| Jsx.fields := None; Jsx.codegen := None |})] |}.


(** A List with the array field [items], and a Button. *)
Definition listConfig : ReactAst.Config :=
  {| ReactAst.components :=
       [("List", {| ReactAst.fields := Some [("items", arrayField)] |});
        ("Button", {| ReactAst.fields := Some [("label", textField)] |})] |}.






(** The same schema and pages for [generateReactComponent]. *)
Definition astCardConfig : ReactAst.Config :=
  {| ReactAst.components :=
       [("Card", {| ReactAst.fields := Some [("actions", slotField)] |});
        ("Button", {| ReactAst.fields := None |})] |}.

Definition astOptions (content : option (list Js.value))
  (transforms : option (list (string * ReactAst.CodegenComponentTransform)))
  : ReactAst.GenerateReactComponentOptions :=
  {| ReactAst.config := astCardConfig;
     ReactAst.data := {| Types.content := content |};
     ReactAst.componentName := None;
     ReactAst.transforms := transforms;
     ReactAst.includeIds := None;
     ReactAst.reactImport := None |}.

(** Buckets that hold the default name A and the alias A of Button for the
    path ui, and a transform of Button that asks for the default name B. *)
Definition uiBuckets : ReactAst.ImportBuckets :=
  [("ui", {| ReactAst.named := [("Button", Some "A")];
             ReactAst.defaultName := Some "A" |})].


(** A registry of [generateJSX] with two paths, registered out of order. *)
Definition unsortedRegistry : Jsx.ImportRegistry :=
  [("ui", {| Jsx.entryDefault := Some "Ui";
             Jsx.entryNamed := [("Card", None); ("Button", Some "Btn")] |});
   ("antd", {| Jsx.entryDefault := None; Jsx.entryNamed := [("Row", None)] |})].

(** A schema in which Hidden is marked [skip]. *)
Definition hiddenConfig : Jsx.Config :=
  {| Jsx.components :=
       [("Hidden",
         {| Jsx.fields := Some [("children", slotField)];
            Jsx.codegen :=
              Some {| Jsx.component := None;
                      Jsx.import := Jsx.OneImport (Jsx.NamedImport "ui" "Hidden" None);
                      Jsx.mapProps := None;
                      Jsx.skip := true |} |});
        ("Button", {| Jsx.fields := None; Jsx.codegen := None |})] |}.

Definition hiddenNode : Js.value :=
  node "Hidden" [("children", Js.VArr [node "Button" []; node "Ghost" []])].

Definition hiddenContext : Jsx.RenderContext :=
  {| Jsx.ctxConfig := hiddenConfig; Jsx.ctxIndentSize := 2 |}.

Definition hiddenOptions (content : list Js.value) : Jsx.GenerateJSXOptions :=
  {| Jsx.config := hiddenConfig;
     Jsx.data := {| Types.content := Some content |};
     Jsx.baseDepth := None;
     Jsx.indentSize := None |}.



(** The text of a slot that rendered two Buttons. *)
Definition twoButtons : string := "  <Button />" ++ Js.nl ++ "  <Button />".

(** An import record of [generateReactCode] with a default and two names. *)
Definition uiRecord : ReactCode.ImportRecord :=
  {| ReactCode.defaultImport := Some "Ui";
     ReactCode.named := [("Card", None); ("Button", Some "Btn")] |}.

Definition defaultContext : ReactCode.InternalContext :=
  {| ReactCode.ctxComponentMap := None; ReactCode.ctxOmitIds := true |}.

Definition cardContext : Jsx.RenderContext :=
  {| Jsx.ctxConfig := cardConfig; Jsx.ctxIndentSize := 2 |}.

(** Props of a Card with the bookkeeping members that the editor adds. *)
Definition bookkeptProps : Js.object :=
  [("id", Js.VStr "Card-1"); ("title", Js.VStr "Hi"); ("puck", Js.VObj [])].

(** A schema whose Row and Col are imported from antd. *)
Definition antdConfig : Jsx.Config :=
  {| Jsx.components :=
       [("Row",
         {| Jsx.fields := Some [("children", slotField)];
            Jsx.codegen :=
              Some {| Jsx.component := None;
                      Jsx.import := Jsx.OneImport (Jsx.NamedImport "antd" "Row" None);
                      Jsx.mapProps := None;
                      Jsx.skip := false |} |});
        ("Col",
         {| Jsx.fields := None;
            Jsx.codegen :=
              Some {| Jsx.component := None;
                      Jsx.import :=
                        Jsx.ManyImports [Jsx.NamedImport "antd" "Col" None;
                                         Jsx.DefaultImport "ui" "Ui"];
                      Jsx.mapProps := None;
                      Jsx.skip := false |} |})] |}.

Definition antdContext : Jsx.RenderContext :=
  {| Jsx.ctxConfig := antdConfig; Jsx.ctxIndentSize := 2 |}.

(** A Row that holds two Cols. *)
Definition rowOfCols : Js.value :=
  node "Row" [("children", Js.VArr [node "Col" []; node "Col" []])].

Definition antdOptions : Jsx.GenerateJSXOptions :=
  {| Jsx.config := antdConfig;
     Jsx.data := {| Types.content := Some [rowOfCols] |};
     Jsx.baseDepth := None;
     Jsx.indentSize := None |}.

(** A registry that already holds the default name Antd for the path antd. *)
Definition antdRegistry : Jsx.ImportRegistry :=
  [("antd", {| Jsx.entryDefault := Some "Antd"; Jsx.entryNamed := [("Card", None)] |})].

(** The context of [generateReactCode] that prints Stack as the Row of antd. *)
Definition stackContext : ReactCode.InternalContext :=
  {| ReactCode.ctxComponentMap := Some [("Stack", mapTo "Row" rowImport)];
     ReactCode.ctxOmitIds := true |}.

Definition colImports : ReactCode.ImportMap :=
  [("antd", {| ReactCode.defaultImport := None; ReactCode.named := [("Col", None)] |})].

(** A transform of Button that imports Card from the path ui. *)
Definition buttonWithCard : ReactAst.CodegenComponentTransform :=
  {| ReactAst.as_ := None;
     ReactAst.import := ReactAst.OneImport (ReactAst.NamedImportSpec "ui" "Card" None);
     ReactAst.mapProps := None;
     ReactAst.slotProps := None |}.



(** An entry of the component map whose [transformProps] hook returns
    [null]. *)
Definition buttonToNull : ReactCode.CodegenComponentConfig :=
  {| ReactCode.as_ := None;
     ReactCode.import := None;
     ReactCode.omitProps := None;
     ReactCode.preserveId := None;
     ReactCode.transformProps := Some (fun _ _ => Run.Returns Js.VNull) |}.




(** A schema whose Panel has an object field with a slot among its
    members, and a page whose Panel holds a Button there. *)
Definition panelConfig : ReactAst.Config :=
  {| ReactAst.components :=
       [("Panel",
         {| ReactAst.fields :=
              Some [("header",
                     Types.MkField "object" None (Some [("icon", slotField)]))] |});
        ("Button", {| ReactAst.fields := None |})] |}.

Definition panelOptions : ReactAst.GenerateReactComponentOptions :=
  {| ReactAst.config := panelConfig;
     ReactAst.data :=
       {| Types.content :=
            Some [node "Panel"
                    [("header", Js.VObj [("icon", Js.VArr [node "Button" []])])]] |};
     ReactAst.componentName := None;
     ReactAst.transforms := None;
     ReactAst.includeIds := None;
     ReactAst.reactImport := None |}.

(** ** Vocabulary of the statements *)

(** A comparator that [Array.prototype.sort] can rely on: of two strings
    one is not after the other, and "not after" is transitive. *)
Definition consistent (localeCompare : string -> string -> comparison) : Prop :=
  (forall a b, localeCompare a b = Gt -> localeCompare b a <> Gt)
  /\ (forall a b c, localeCompare a b <> Gt -> localeCompare b c <> Gt ->
                    localeCompare a c <> Gt).

(** [xs] is in ascending order of the keys of its members. *)
Definition ascending {A : Type} (localeCompare : string -> string -> comparison)
  (key : A -> string) (xs : list A) : Prop :=
  StronglySorted (fun a b => localeCompare (key a) (key b) <> Gt) xs.

Definition declarationSource (n : ReactAst.Node) : string :=
  match n with
  | ReactAst.ImportDeclaration _ (ReactAst.StringLiteral p) => p
  | _ => EmptyString
  end.

Definition declarationSpecifiers (n : ReactAst.Node) : list ReactAst.Node :=
  match n with
  | ReactAst.ImportDeclaration specifiers _ => specifiers
  | _ => []
  end.

Definition importedName (n : ReactAst.Node) : string :=
  match n with
  | ReactAst.ImportSpecifier _ (ReactAst.Identifier i) => i
  | _ => EmptyString
  end.

Definition isImportDefaultSpecifier (n : ReactAst.Node) : bool :=
  match n with ReactAst.ImportDefaultSpecifier _ => true | _ => false end.

Definition isImportSpecifier (n : ReactAst.Node) : bool :=
  match n with ReactAst.ImportSpecifier _ _ => true | _ => false end.



(** A computation that never stops for lack of recursion budget. *)
Definition funded {S A : Type} (m : Run.M S A) : Prop :=
  forall s, m s <> Run.Err Run.OutOfFuel.

(** [refines m m']: [m'] does what [m] does, unless [m] stops for lack of
    recursion budget. *)
Definition refines {S A : Type} (m m' : Run.M S A) : Prop :=
  forall s, m s = Run.Err Run.OutOfFuel \/ m' s = m s.

(** A string of white space only. *)
Fixpoint blank (s : string) : bool :=
  match s with
  | EmptyString => true
  | String c r => Js.isWhiteSpace c && blank r
  end.

(** The keys of an object or a map are distinct. *)
Definition distinctKeys {A : Type} (es : list (string * A)) : Prop :=
  NoDup (map fst es).

(** The node is of a registered type whose config is marked [skip]. *)
Definition skippedNode (config : Jsx.Config) (item : Js.value) : Prop :=
  exists type componentConfig,
    Js.prop "type" item = Some type
    /\ Js.lookup (Js.toStr type) (Jsx.components config) = Some componentConfig
    /\ Jsx.skipped componentConfig = true.

(** The entry has something to import: a default name, or a first named
    specifier with a name. *)
Definition importsSomething (entry : Jsx.GeneratedImport) : Prop :=
  Jsx.given (Jsx.default entry) = true
  \/ exists name alias rest,
       Jsx.named entry = (name, alias) :: rest /\ name <> EmptyString.

(** A registry of [generateJSX] as a Map of Maps holds it: one entry per
    path and, in an entry, one alias per exported name. *)
Definition wellKeyed (registry : Jsx.ImportRegistry) : Prop :=
  distinctKeys registry
  /\ Forall (fun e => distinctKeys (Jsx.entryNamed (snd e))) registry.

(** [entryExtends e e']: [e'] keeps the non-empty default name and the
    exported names of [e]. *)
Definition entryExtends (e e' : Jsx.ImportEntry) : Prop :=
  (Jsx.given (Jsx.entryDefault e) = true -> Jsx.entryDefault e' = Jsx.entryDefault e)
  /\ (forall name, Js.has name (Jsx.entryNamed e) = true ->
                   Js.has name (Jsx.entryNamed e') = true).

Definition registryExtends (r r' : Jsx.ImportRegistry) : Prop :=
  forall p e, Js.lookup p r = Some e ->
              exists e', Js.lookup p r' = Some e' /\ entryExtends e e'.

(** The same for the import map of [generateReactCode], whose default
    name can be replaced but not removed. *)
Definition recordExtends (r r' : ReactCode.ImportRecord) : Prop :=
  (ReactCode.defaultImport r <> None -> ReactCode.defaultImport r' <> None)
  /\ incl (ReactCode.named r) (ReactCode.named r').

Definition importsExtend (m m' : ReactCode.ImportMap) : Prop :=
  forall p r, Js.lookup p m = Some r ->
              exists r', Js.lookup p m' = Some r' /\ recordExtends r r'.

(** The same for the buckets of [generateReactComponent], where a
    non-empty alias stays as well. *)
Definition bucketExtends (b b' : ReactAst.ImportBucket) : Prop :=
  (ReactAst.given (ReactAst.defaultName b) = true ->
   ReactAst.defaultName b' = ReactAst.defaultName b)
  /\ (forall imported alias,
         Js.lookup imported (ReactAst.named b) = Some alias ->
         exists alias',
           Js.lookup imported (ReactAst.named b') = Some alias'
           /\ (ReactAst.given alias = true -> alias' = alias)).

Definition bucketsExtend (bs bs' : ReactAst.ImportBuckets) : Prop :=
  forall p b, Js.lookup p bs = Some b ->
              exists b', Js.lookup p bs' = Some b' /\ bucketExtends b b'.

Definition bucketsWellKeyed (bs : ReactAst.ImportBuckets) : Prop :=
  distinctKeys bs /\ Forall (fun e => distinctKeys (ReactAst.named (snd e))) bs.

(** No entry of the component map has a [transformProps] hook. *)
Definition withoutTransformProps
  (componentMap : option (list (string * ReactCode.CodegenComponentConfig))) : Prop :=
  forall m key entry,
    componentMap = Some m -> Js.lookup key m = Some entry ->
    ReactCode.transformProps entry = None.







(** [preserves P m]: a run of [m] from a state in [P] ends in [P]. *)
Definition preserves {S A : Type} (P : S -> Prop) (m : Run.M S A) : Prop :=
  forall s a s', P s -> m s = Run.Ok (a, s') -> P s'.

(** [grows R m]: a run of [m] takes a state to one that [R] relates to
    it. *)
Definition grows {S A : Type} (R : S -> S -> Prop) (m : Run.M S A) : Prop :=
  forall s a s', m s = Run.Ok (a, s') -> R s s'.

(** [raisesOnly P m]: what [m] throws satisfies [P]. *)
Definition raisesOnly {S A : Type} (P : Run.error -> Prop) (m : Run.M S A) : Prop :=
  forall s e, m s = Run.Err e -> P e.

(** [yields Q m]: what [m] returns satisfies [Q]. *)
Definition yields {S A : Type} (Q : A -> Prop) (m : Run.M S A) : Prop :=
  forall s a s', m s = Run.Ok (a, s') -> Q a.


(** A [transformProps] hook of the component map ends in [outcome] at some
    arguments. *)
Definition transformPropsOutcome
  (componentMap : option (list (string * ReactCode.CodegenComponentConfig)))
  (outcome : Run.outcome Js.value) : Prop :=
  exists m key entry hook component props,
    componentMap = Some m
    /\ Js.lookup key m = Some entry
    /\ ReactCode.transformProps entry = Some hook
    /\ hook component props = outcome.



Definition codeError
  (componentMap : option (list (string * ReactCode.CodegenComponentConfig)))
  (e : Run.error) : Prop :=
  e = Run.OutOfFuel
  \/ (e = Run.TypeError
      /\ (transformPropsOutcome componentMap (Run.Returns Js.VNull)
          \/ transformPropsOutcome componentMap (Run.Returns Js.VUndefined)))
  \/ (exists thrown,
         e = Run.Thrown thrown
         /\ transformPropsOutcome componentMap (Run.Throws thrown)).


(** [wellFormed n]: the expression [n] is built as Babel expects it, and
    so is every JSX element and fragment in it, down through children,
    attribute values and the members of array and object literals: the
    self-closing flags agree with the children, the closing tag is there
    exactly when there are children and names the same identifier,
    attributes carry a string literal or an expression container, children
    are text, containers, elements or fragments, and the members of an
    object literal are properties.  A node that is no expression (a part
    of an element out of its place, a statement) is not well formed. *)
Fixpoint wellFormed (n : ReactAst.Node) : bool :=
  match n with
  | ReactAst.NullLiteral | ReactAst.StringLiteral _ | ReactAst.BooleanLiteral _
  | ReactAst.NumericLiteral _ | ReactAst.Identifier _ => true
  | ReactAst.UnaryExpression _ argument => wellFormed argument
  | ReactAst.ParenthesizedExpression expression => wellFormed expression
  | ReactAst.ArrayExpression elements => forallb wellFormed elements
  | ReactAst.ObjectExpression properties =>
      forallb (fun property =>
                 match property with
                 | ReactAst.ObjectProperty key value =>
                     wellFormed key && wellFormed value
                 | _ => false
                 end) properties
  | ReactAst.JSXElement
      (ReactAst.JSXOpeningElement (ReactAst.JSXIdentifier name) attributes selfClosing)
      closing children selfClosing' =>
      Bool.eqb selfClosing selfClosing'
      && Bool.eqb selfClosing (Nat.eqb (length children) 0)
      && match closing with
         | None => selfClosing
         | Some (ReactAst.JSXClosingElement (ReactAst.JSXIdentifier name')) =>
             negb selfClosing && String.eqb name name'
         | Some _ => false
         end
      && forallb (fun attribute =>
                    match attribute with
                    | ReactAst.JSXAttribute (ReactAst.JSXIdentifier _)
                        (ReactAst.StringLiteral _) => true
                    | ReactAst.JSXAttribute (ReactAst.JSXIdentifier _)
                        (ReactAst.JSXExpressionContainer e) => wellFormed e
                    | _ => false
                    end) attributes
      && forallb (fun child =>
                    match child with
                    | ReactAst.JSXText _ => true
                    | ReactAst.JSXExpressionContainer e => wellFormed e
                    | ReactAst.JSXElement _ _ _ _ => wellFormed child
                    | ReactAst.JSXFragment _ _ _ => wellFormed child
                    | _ => false
                    end) children
  | ReactAst.JSXFragment ReactAst.JSXOpeningFragment ReactAst.JSXClosingFragment
      children =>
      forallb (fun child =>
                 match child with
                 | ReactAst.JSXText _ => true
                 | ReactAst.JSXExpressionContainer e => wellFormed e
                 | ReactAst.JSXElement _ _ _ _ => wellFormed child
                 | ReactAst.JSXFragment _ _ _ => wellFormed child
                 | _ => false
                 end) children
  | _ => false
  end.

Definition propertyOk (property : ReactAst.Node) : bool :=
  match property with
  | ReactAst.ObjectProperty key value => wellFormed key && wellFormed value
  | _ => false
  end.

Definition attributeOk (attribute : ReactAst.Node) : bool :=
  match attribute with
  | ReactAst.JSXAttribute (ReactAst.JSXIdentifier _) (ReactAst.StringLiteral _) => true
  | ReactAst.JSXAttribute (ReactAst.JSXIdentifier _)
      (ReactAst.JSXExpressionContainer e) => wellFormed e
  | _ => false
  end.

Definition childOk (child : ReactAst.Node) : bool :=
  match child with
  | ReactAst.JSXText _ => true
  | ReactAst.JSXExpressionContainer e => wellFormed e
  | ReactAst.JSXElement _ _ _ _ => wellFormed child
  | ReactAst.JSXFragment _ _ _ => wellFormed child
  | _ => false
  end.

Definition elementOk (n : ReactAst.Node) : Prop :=
  wellFormed n = true /\ ReactAst.isJSXElement n = true.

Definition nodeOk (r : option ReactAst.Node) : Prop :=
  match r with Some n => wellFormed n = true | None => True end.

Definition partsOk (r : list ReactAst.Node * list ReactAst.Node) : Prop :=
  forallb attributeOk (fst r) = true /\ forallb childOk (snd r) = true.

(** The expression that the component of a generated file returns. *)
Definition returnedExpression (file : ReactAst.Node) : option ReactAst.Node :=
  match file with
  | ReactAst.File (ReactAst.Program body) =>
      match last body ReactAst.NullLiteral with
      | ReactAst.ExportNamedDeclaration
          (ReactAst.FunctionDeclaration _ _
             (ReactAst.BlockStatement
                [ReactAst.ReturnStatement (ReactAst.ParenthesizedExpression e)])) =>
          Some e
      | _ => None
      end
  | _ => None
  end.

Definition isImportDeclaration (n : ReactAst.Node) : bool :=
  match n with ReactAst.ImportDeclaration _ _ => true | _ => false end.

(** The import declarations of a generated file. *)
Definition fileImports (file : ReactAst.Node) : list ReactAst.Node :=
  match file with
  | ReactAst.File (ReactAst.Program body) => filter isImportDeclaration body
  | _ => []
  end.

Definition reactDeclaration : ReactAst.Node :=
  ReactAst.ImportDeclaration
    [ReactAst.ImportDefaultSpecifier (ReactAst.Identifier "React")]
    (ReactAst.StringLiteral "react").

Definition propertyKey (n : ReactAst.Node) : ReactAst.Node :=
  match n with
  | ReactAst.ObjectProperty key _ => key
  | _ => n
  end.

(** The name of a JSX attribute. *)
Definition attributeName (n : ReactAst.Node) : string :=
  match n with
  | ReactAst.JSXAttribute (ReactAst.JSXIdentifier name) _ => name
  | _ => EmptyString
  end.

(** * Lemmas *)

(** ** Threaded computations *)

Section RunFacts.
Import Run.
Context {S A B : Type}.

Lemma mapM_app (f : A -> M S B) (xs ys : list A) (s : S) :
  mapM f (xs ++ ys)%list s =
  match mapM f xs s with
  | Err e => Err e
  | Ok (bs, s') =>
      match mapM f ys s' with
      | Err e => Err e
      | Ok (cs, s'') => Ok ((bs ++ cs)%list, s'')
      end
  end.
Proof.
  revert s. induction xs as [|x xs IH]; intros s; simpl.
  - unfold ret. destruct (mapM f ys s) as [[cs s'']|e]; reflexivity.
  - unfold bind. destruct (f x s) as [[b s1]|e]; [|reflexivity].
    rewrite IH.
    destruct (mapM f xs s1) as [[bs s2]|e]; [|reflexivity].
    unfold ret. destruct (mapM f ys s2) as [[cs s3]|e]; reflexivity.
Qed.



Lemma mapM_length (f : A -> M S B) (xs : list A) (s s' : S) (bs : list B) :
  mapM f xs s = Ok (bs, s') -> length bs = length xs.
Proof.
  revert s bs. induction xs as [|x xs IH]; intros s bs; simpl.
  - unfold ret. intros H. inversion H. reflexivity.
  - unfold bind. destruct (f x s) as [[b s1]|e]; [|discriminate].
    destruct (mapM f xs s1) as [[cs s2]|e] eqn:E; [|discriminate].
    unfold ret. intros H. injection H as <- <-. simpl. f_equal.
    eapply IH. eassumption.
Qed.
End RunFacts.

(** ** The stable sort *)

Section SortFacts.
Context {A : Type} (le : A -> A -> bool).
Hypothesis le_total : forall a b, le a b = false -> le b a = true.
Hypothesis le_trans : forall a b c, le a b = true -> le b c = true -> le a c = true.

Lemma insert_In (x y : A) (xs : list A) :
  In y (Js.insert le x xs) <-> y = x \/ In y xs.
Proof.
  induction xs as [|z zs IH]; simpl.
  - intuition congruence.
  - destruct (le x z); simpl; rewrite ?IH; intuition congruence.
Qed.

Lemma sort_In (y : A) (xs : list A) : In y (Js.sort le xs) <-> In y xs.
Proof.
  induction xs as [|x xs IH]; simpl; [tauto|].
  rewrite insert_In, IH. intuition congruence.
Qed.

Lemma insert_sorted (x : A) (xs : list A) :
  StronglySorted (fun a b => le a b = true) xs ->
  StronglySorted (fun a b => le a b = true) (Js.insert le x xs).
Proof.
  induction 1 as [|y ys Hs IH Hy]; simpl.
  - constructor; constructor.
  - destruct (le x y) eqn:E.
    + constructor; [constructor; assumption|].
      constructor; [assumption|].
      rewrite Forall_forall in *. intros z Hz. eapply le_trans; eauto.
    + constructor; [assumption|].
      rewrite Forall_forall in *. intros z Hz.
      apply insert_In in Hz. destruct Hz as [->|Hz]; auto.
Qed.

Lemma sort_sorted (xs : list A) :
  StronglySorted (fun a b => le a b = true) (Js.sort le xs).
Proof.
  induction xs as [|x xs IH]; simpl; [constructor|].
  apply insert_sorted. assumption.
Qed.

Lemma insert_perm (x : A) (xs : list A) :
  Permutation (x :: xs) (Js.insert le x xs).
Proof.
  induction xs as [|y ys IH]; simpl; [reflexivity|].
  destruct (le x y); [reflexivity|].
  rewrite perm_swap. constructor. assumption.
Qed.

Lemma sort_perm (xs : list A) : Permutation xs (Js.sort le xs).
Proof.
  induction xs as [|x xs IH]; simpl; [constructor|].
  rewrite <- insert_perm. constructor. assumption.
Qed.
End SortFacts.

(** ** Order of the finalized imports *)

Lemma codeUnitCompare_consistent : consistent codeUnitCompare.
Proof.
  unfold consistent, codeUnitCompare. split.
  - intros a b H. rewrite String_as_OT.cmp_antisym, H. discriminate.
  - intros a b c Hab Hbc Hac.
    assert (Hca : String_as_OT.lt c a).
    { apply String_as_OT.cmp_lt. rewrite String_as_OT.cmp_antisym, Hac. reflexivity. }
    destruct (String_as_OT.cmp a b) eqn:Eab; [| |congruence].
    + apply String_as_OT.cmp_eq in Eab. subst b.
      destruct (String_as_OT.cmp a c) eqn:Eac; congruence.
    + apply String_as_OT.cmp_lt in Eab.
      destruct (String_as_OT.cmp b c) eqn:Ebc; [| |congruence].
      * apply String_as_OT.cmp_eq in Ebc. subst c.
        eapply String_as_OT.lt_not_eq; [|reflexivity].
        eapply String_as_OT.lt_trans; eassumption.
      * apply String_as_OT.cmp_lt in Ebc.
        eapply String_as_OT.lt_not_eq; [|reflexivity].
        eapply String_as_OT.lt_trans; [exact Eab|].
        eapply String_as_OT.lt_trans; eassumption.
Qed.

Lemma StronglySorted_weaken {A : Type} (R R' : A -> A -> Prop) (xs : list A) :
  (forall a b, R a b -> R' a b) -> StronglySorted R xs -> StronglySorted R' xs.
Proof.
  intros HR. induction 1 as [|x xs Hs IH Hx]; constructor; [assumption|].
  eapply Forall_impl; [|exact Hx]. intros b. apply HR.
Qed.

Section OrderFacts.
Variable localeCompare : string -> string -> comparison.
Hypothesis Hcmp : consistent localeCompare.

Lemma notAfter_true (a b : string) :
  Js.notAfter localeCompare a b = true <-> localeCompare a b <> Gt.
Proof. unfold Js.notAfter. destruct (localeCompare a b); split; congruence. Qed.

Lemma sort_ascending {A : Type} (key : A -> string) (xs : list A) :
  ascending localeCompare key
    (Js.sort (fun a b => Js.notAfter localeCompare (key a) (key b)) xs).
Proof.
  unfold ascending. destruct Hcmp as [Htotal Htrans].
  eapply StronglySorted_weaken.
  2: { apply (sort_sorted (fun a b => Js.notAfter localeCompare (key a) (key b))).
       - intros a b H. apply notAfter_true.
         apply Htotal. unfold Js.notAfter in H.
         destruct (localeCompare (key a) (key b)); congruence.
       - intros a b c Hab Hbc. apply notAfter_true.
         apply notAfter_true in Hab. apply notAfter_true in Hbc. eauto. }
  intros a b H. apply notAfter_true. exact H.
Qed.

Lemma ascending_map {A B : Type} (g : A -> B) (keyA : A -> string)
  (keyB : B -> string) (xs : list A) :
  (forall a, keyB (g a) = keyA a) ->
  ascending localeCompare keyA xs -> ascending localeCompare keyB (map g xs).
Proof.
  intros Hkey. unfold ascending. induction 1 as [|x xs Hs IH Hx]; simpl.
  - constructor.
  - constructor; [assumption|].
    rewrite Forall_forall in *. intros y Hy. apply in_map_iff in Hy.
    destruct Hy as [a [<- Ha]]. rewrite !Hkey. auto.
Qed.
End OrderFacts.

Lemma append_assoc (a b c : string) : (a ++ b) ++ c = a ++ (b ++ c).
Proof. induction a as [|x a IH]; simpl; [reflexivity|]. rewrite IH. reflexivity. Qed.

Lemma isEmpty_false (s : string) : s <> EmptyString -> Js.isEmpty s = false.
Proof. destruct s; [congruence|reflexivity]. Qed.

Lemma isEmpty_true (s : string) : Js.isEmpty s = true -> s = EmptyString.
Proof. destruct s; [reflexivity|discriminate]. Qed.

(** ** [generateJSX]: rendering of content *)

Section JsxFacts.
Import Js Run Jsx.

(** The early return of [renderContent] on an empty sequence agrees with
    its general path. *)
Lemma renderContentWith_eq (render : value -> M ImportRegistry (option string))
  (content : list value) (registry : ImportRegistry) :
  renderContentWith render content registry =
  match mapM render content registry with
  | Err e => Err e
  | Ok (nodes, registry') => Ok (join nl (filterBoolean nodes), registry')
  end.
Proof.
  destruct content as [|item rest]; [reflexivity|].
  unfold renderContentWith, bind, ret.
  destruct (mapM render (item :: rest) registry) as [[nodes r]|e]; reflexivity.
Qed.

Lemma filterBoolean_app (xs ys : list (option string)) :
  filterBoolean (xs ++ ys)%list = (filterBoolean xs ++ filterBoolean ys)%list.
Proof. unfold filterBoolean. apply flat_map_app. Qed.

(** An own entry of the component table is the one that is read. *)
Lemma componentConfigOf_own (config : Config) (type : string)
  (componentConfig : ComponentConfig) :
  lookup type (components config) = Some componentConfig ->
  componentConfigOf config type = Some componentConfig.
Proof. intros H. unfold componentConfigOf. rewrite H. reflexivity. Qed.


(** What is read is an own entry or the inherited member. *)
Lemma componentConfigOf_cases (config : Config) (type : string)
  (componentConfig : ComponentConfig) :
  componentConfigOf config type = Some componentConfig ->
  lookup type (components config) = Some componentConfig
  \/ (lookup type (components config) = None /\ inherited type = true
      /\ componentConfig = {| fields := None; codegen := None |}).
Proof.
  unfold componentConfigOf. destruct (lookup type (components config)) as [c|].
  - intros H. left. exact H.
  - destruct (inherited type); [|discriminate].
    intros H. injection H as <-. right. auto.
Qed.

Lemma renderNode_skipped (fuel : nat) (context : RenderContext) (item type : value)
  (componentConfig : ComponentConfig) (depth : Z) (registry : ImportRegistry) :
  prop "type" item = Some type ->
  lookup (toStr type) (components (ctxConfig context)) = Some componentConfig ->
  skipped componentConfig = true ->
  renderNode (S fuel) context item depth registry = Ok (None, registry).
Proof.
  intros Htype Hconfig Hskip. apply componentConfigOf_own in Hconfig.
  simpl. rewrite Htype, Hconfig, Hskip. reflexivity.
Qed.


(** A content sequence renders with a skipped node as without it. *)
Lemma renderContent_without_skipped (fuel : nat) (context : RenderContext)
  (item type : value) (componentConfig : ComponentConfig) (depth : Z)
  (pre post : list value) (registry : ImportRegistry) :
  prop "type" item = Some type ->
  lookup (toStr type) (components (ctxConfig context)) = Some componentConfig ->
  skipped componentConfig = true ->
  renderContent (S fuel) context (pre ++ item :: post)%list depth registry
  = renderContent (S fuel) context (pre ++ post)%list depth registry.
Proof.
  intros Htype Hconfig Hskip.
  assert (Hnode : forall r, renderNode (S fuel) context item depth r = Ok (None, r)).
  { intros r. eapply renderNode_skipped; eassumption. }
  unfold renderContent. rewrite !renderContentWith_eq, !mapM_app.
  destruct (mapM _ pre registry) as [[before r1]|e]; [|reflexivity].
  change (mapM ?f (item :: post) r1)
    with (bind (f item) (fun y => bind (mapM f post) (fun ys => ret (y :: ys))) r1).
  unfold bind at 1. rewrite Hnode. unfold bind, ret.
  destruct (mapM _ post r1) as [[after r2]|e]; [|reflexivity].
  rewrite !filterBoolean_app. reflexivity.
Qed.
End JsxFacts.

(** ** Objects and the split of the slot fields *)

Section ObjectFacts.
Import Js.
Context {A : Type}.

Lemma lookup_delete_neq (k k' : string) (es : list (string * A)) :
  k <> k' -> lookup k (delete k' es) = lookup k es.
Proof.
  intros Hne. induction es as [|[k0 x] es IH]; simpl; [reflexivity|].
  destruct (String.eqb_spec k' k0) as [->|Hk0].
  - rewrite IH. destruct (String.eqb_spec k k0); [congruence|reflexivity].
  - simpl. rewrite IH. reflexivity.
Qed.



Lemma lookup_set_same (k : string) (x : A) (es : list (string * A)) :
  lookup k (set k x es) = Some x.
Proof.
  induction es as [|[k0 y] es IH]; simpl.
  - rewrite String.eqb_refl. reflexivity.
  - destruct (String.eqb k k0) eqn:E; simpl.
    + rewrite String.eqb_refl. reflexivity.
    + rewrite E. exact IH.
Qed.

Lemma lookup_set_other (k k' : string) (x : A) (es : list (string * A)) :
  k <> k' -> lookup k (set k' x es) = lookup k es.
Proof.
  intros Hne. induction es as [|[k0 y] es IH]; simpl.
  - destruct (String.eqb_spec k k'); [congruence|reflexivity].
  - destruct (String.eqb_spec k' k0) as [->|Hk0]; simpl.
    + destruct (String.eqb_spec k k0); [congruence|reflexivity].
    + rewrite IH. reflexivity.
Qed.

(** Setting a key to the value it already has changes nothing. *)
Lemma set_same (k : string) (x : A) (es : list (string * A)) :
  lookup k es = Some x -> set k x es = es.
Proof.
  induction es as [|[k0 y] es IH]; simpl; [discriminate|].
  destruct (String.eqb_spec k k0) as [->|Hne].
  - intros H. injection H as ->. reflexivity.
  - intros H. rewrite IH by assumption. reflexivity.
Qed.
End ObjectFacts.

Section SplitSlotsFacts.
Import Js Jsx.

Lemma get_delete_neq (k k' : string) (props : object) :
  k <> k' -> get k (delete k' props) = get k props.
Proof. intros Hne. unfold get. rewrite lookup_delete_neq by assumption. reflexivity. Qed.


End SplitSlotsFacts.

(** ** Unregistered component types *)

Section UnknownTypeFacts.
Import Js Run.

End UnknownTypeFacts.

(** The traversal does not enter a node marked [skip]: a node of an
    unregistered type in a slot of a Hidden node stops nothing. *)
Example skipped_node_hides_unregistered_type :
  Jsx.generateJSX codeUnitCompare (hiddenOptions [hiddenNode])
  = Run.Ok {| Jsx.jsx := "<></>"; Jsx.imports := [] |}.
Proof. reflexivity. Qed.

Section UnknownTypeAstFacts.
Import Js Run ReactAst.
Variable valueToNode : value -> Node.
Variable isValidIdentifier : string -> bool.
Variable config : Config.
Variable components : list (string * CodegenComponentTransform).
Variable includeIds : bool.

Local Abbreviation createComponent :=
  (ReactAst.createComponent valueToNode isValidIdentifier config components includeIds).
Local Abbreviation createSlotChildren :=
  (ReactAst.createSlotChildren valueToNode isValidIdentifier config components includeIds).
Local Abbreviation createAttributes :=
  (ReactAst.createAttributes valueToNode isValidIdentifier config components includeIds).





End UnknownTypeAstFacts.

(** ** The recursion budget of [generateJSX] is enough *)

Section FuelFacts.
Import Js Run.

Lemma funded_ret {S A : Type} (a : A) : funded (@ret S A a).
Proof. intros s. discriminate. Qed.

Lemma funded_throw {S A : Type} (e : error) : e <> OutOfFuel -> funded (@throw S A e).
Proof. intros He s H. injection H as H. contradiction. Qed.

Lemma funded_modify {S : Type} (f : S -> S) : funded (modify f).
Proof. intros s. discriminate. Qed.

Lemma funded_lift {S A : Type} (r : result A) :
  r <> Err OutOfFuel -> funded (@lift S A r).
Proof. intros Hr s. unfold lift. destruct r; [discriminate|congruence]. Qed.

Lemma call_funded {A : Type} (o : outcome A) : call o <> Err OutOfFuel.
Proof. destruct o; discriminate. Qed.

Lemma funded_call {S A : Type} (o : outcome A) : funded (@lift S A (call o)).
Proof. apply funded_lift. apply call_funded. Qed.

Lemma funded_bind {S A B : Type} (m : M S A) (k : A -> M S B) :
  funded m -> (forall a, funded (k a)) -> funded (bind m k).
Proof.
  intros Hm Hk s. unfold bind. specialize (Hm s).
  destruct (m s) as [[a s']|e]; [apply Hk|congruence].
Qed.

(** The same, with what [m] can return known. *)
Lemma funded_bind_of {S A B : Type} (m : M S A) (k : A -> M S B) :
  funded m -> (forall a s s', m s = Ok (a, s') -> funded (k a)) -> funded (bind m k).
Proof.
  intros Hm Hk s. unfold bind. specialize (Hm s).
  destruct (m s) as [[a s']|e] eqn:E; [eapply Hk; exact E|congruence].
Qed.

Lemma funded_mapM {S A B : Type} (f : A -> M S B) (xs : list A) :
  (forall x, In x xs -> funded (f x)) -> funded (mapM f xs).
Proof.
  induction xs as [|x xs IH]; intros Hf; simpl.
  - apply funded_ret.
  - apply funded_bind; [apply Hf; left; reflexivity|].
    intros b. apply funded_bind; [|intros; apply funded_ret].
    apply IH. intros y Hy. apply Hf. right. exact Hy.
Qed.

Lemma height_member (xs : list value) (x : value) :
  In x xs -> height x < height (VArr xs).
Proof.
  simpl. induction xs as [|y ys IH]; [contradiction|].
  intros [->|Hin]; simpl; [lia|]. specialize (IH Hin). lia.
Qed.

Lemma height_entry (es : object) (k : string) (x : value) :
  In (k, x) es -> height x < height (VObj es).
Proof.
  simpl. induction es as [|[k0 y] es IH]; [contradiction|].
  intros [Heq|Hin]; simpl.
  - injection Heq as -> ->. lia.
  - specialize (IH Hin). lia.
Qed.

Lemma lookup_In {A : Type} (k : string) (es : list (string * A)) (x : A) :
  lookup k es = Some x -> In (k, x) es.
Proof.
  induction es as [|[k0 y] es IH]; simpl; [discriminate|].
  destruct (String.eqb_spec k k0) as [->|Hne].
  - intros H. injection H as ->. left. reflexivity.
  - intros H. right. apply IH. exact H.
Qed.

Lemma height_get (es : object) (k : string) : height (get k es) <= height (VObj es).
Proof.
  unfold get. destruct (lookup k es) as [x|] eqn:E; [|simpl; lia].
  apply lookup_In in E. apply height_entry in E. lia.
Qed.

Lemma height_prop (k : string) (v x : value) :
  prop k v = Some x -> height x <= height v.
Proof.
  destruct v; simpl; try discriminate; intros H; injection H as <-;
    try (simpl; lia).
  apply (height_get entries0 k).
Qed.

Lemma indexed_In {A : Type} (f : A -> value) (xs : list A) :
  forall i k x, In (k, x) (indexed f i xs) -> exists a, In a xs /\ x = f a.
Proof.
  induction xs as [|a xs IH]; intros i k x; simpl; [contradiction|].
  intros [Heq|Hin].
  - injection Heq as _ <-. exists a. auto.
  - destruct (IH _ _ _ Hin) as [b [Hb ->]]. exists b. auto.
Qed.

(** The values that [Object.entries] hands out are no higher than the
    value itself. *)
Lemma height_entries (v : value) (k : string) (x : value) :
  In (k, x) (entries v) -> height x <= height v.
Proof.
  destruct v; simpl; try contradiction.
  - intros Hin. apply indexed_In in Hin. destruct Hin as [c [_ ->]]. simpl. lia.
  - intros Hin. apply indexed_In in Hin. destruct Hin as [a [Ha ->]].
    apply Nat.lt_le_incl. apply (height_member _ _ Ha).
  - intros Hin. apply Nat.lt_le_incl. apply (height_entry _ _ _ Hin).
Qed.
End FuelFacts.

Section JsxFuelFacts.
Import Js Run Jsx.

Lemma In_set_inv {A : Type} (k k' : string) (x y : A) (es : list (string * A)) :
  In (k, x) (set k' y es) -> (k, x) = (k', y) \/ In (k, x) es.
Proof.
  induction es as [|[k0 z] es IH]; simpl.
  - intros [H|[]]. left. symmetry. exact H.
  - destruct (String.eqb k' k0); simpl.
    + intros [H|H]; [left; symmetry; exact H|right; right; exact H].
    + intros [H|H]; [right; left; exact H|].
      destruct (IH H) as [H'|H']; [left; exact H'|right; right; exact H'].
Qed.

Lemma In_delete {A : Type} (k : string) (e : string * A) (es : list (string * A)) :
  In e (delete k es) -> In e es.
Proof.
  induction es as [|[k0 z] es IH]; simpl; [tauto|].
  destruct (String.eqb k k0); simpl; intuition.
Qed.

(** What [splitSlots] hands to the renderer for a slot is an array found
    among the props, or nothing. *)
Lemma splitSlots_content (slotNames : list string) (props : object)
  (k : string) (content : list value) :
  In (k, content) (fst (splitSlots slotNames props)) ->
  content = [] \/ exists k', In (k', VArr content) props.
Proof.
  unfold splitSlots.
  assert (Hgen : forall names acc current,
             (forall e, In e current -> In e props) ->
             (forall k0 c, In (k0, c) acc ->
                           c = [] \/ exists k', In (k', VArr c) props) ->
             In (k, content)
                (fst (fold_left
                        (fun '(acc, props) slotName =>
                           let v := get slotName props in
                           (set slotName (match v with VArr xs => xs | _ => [] end) acc,
                            delete slotName props))
                        names (acc, current))) ->
             content = [] \/ exists k', In (k', VArr content) props).
  { induction names as [|name rest IH]; intros acc current Hsub Hacc Hin.
    - apply (Hacc _ _ Hin).
    - simpl in Hin. eapply IH; [| |exact Hin].
      + intros e He. apply Hsub. eapply In_delete. exact He.
      + intros k0 c Hc. apply In_set_inv in Hc. destruct Hc as [Heq|Hc].
        * injection Heq as -> ->. unfold get.
          destruct (lookup name current) as [v|] eqn:E; [|left; reflexivity].
          destruct v; try (left; reflexivity).
          right. exists name. apply Hsub. apply lookup_In. exact E.
        * apply (Hacc _ _ Hc). }
  apply Hgen; [auto|intros k0 c []].
Qed.

Lemma formatAttribute_funded (key : string) (v : value) (depth : Z) (indentSize : nat) :
  formatAttribute key v depth indentSize <> Err OutOfFuel.
Proof.
  unfold formatAttribute. destruct v as [| | | | |items|es]; try discriminate.
  destruct (isCodegenExpression (VObj es)); [|discriminate].
  unfold formatCodegen. destruct (get "__codegen" es) as [| | | |c|xs|]; try discriminate.
  - destruct (negb (includesLF c)); discriminate.
  - destruct (negb (existsb isLFString xs)); discriminate.
Qed.

(** [renderNode] has budget enough when it is given more than the height
    of the item. *)
Lemma renderNode_funded (context : RenderContext) (fuel : nat) :
  forall item depth, height item < fuel -> funded (renderNode fuel context item depth).
Proof.
  induction fuel as [|fuel IH]; intros item depth Hh; [lia|].
  simpl. destruct (prop "type" item) as [type|] eqn:Etype;
    [|apply funded_throw; discriminate].
  destruct (componentConfigOf (ctxConfig context) (toStr type)) as [componentConfig|];
    [|apply funded_throw; discriminate].
  destruct (skipped componentConfig); [apply funded_ret|].
  set (itemProps := match prop "props" item with Some p => p | None => VUndefined end).
  assert (HitemProps : height itemProps <= height item).
  { unfold itemProps. destruct (prop "props" item) as [p|] eqn:Ep; [|simpl; lia].
    apply (height_prop _ _ _ Ep). }
  set (props := spread (if truthy itemProps then itemProps else VObj [])).
  assert (Hprops : forall k x, In (k, x) props -> height x <= height item).
  { intros k x Hin. unfold props in Hin.
    destruct (truthy itemProps); [|contradiction].
    apply height_entries in Hin. lia. }
  destruct (splitSlots (getSlotFieldNames (fields componentConfig)) props)
    as [slotContent props'] eqn:Es.
  apply funded_bind.
  - apply funded_mapM. intros [key content] Hin.
    apply funded_bind; [|intros; apply funded_ret].
    intros s. rewrite renderContentWith_eq.
    assert (Hfunded : funded (mapM (fun child => renderNode fuel context child 1) content)).
    { apply funded_mapM. intros child Hchild. apply IH.
      pose proof (splitSlots_content (getSlotFieldNames (fields componentConfig))
                    props key content) as Hc.
      rewrite Es in Hc. destruct (Hc Hin) as [->|[k' Hk']]; [contradiction|].
      apply Hprops in Hk'. apply height_member in Hchild. lia. }
    specialize (Hfunded s).
    destruct (mapM _ content s) as [[nodes s']|e]; [discriminate|congruence].
  - intros slotStrings. apply funded_bind.
    { destruct (mapPropsOf componentConfig); [|apply funded_ret].
      apply funded_bind; [apply funded_call|intros; apply funded_ret]. }
    intros mappedProps. apply funded_bind.
    + apply funded_mapM. intros [key v] _. apply funded_lift.
      apply formatAttribute_funded.
    + intros attributes. apply funded_bind.
      * destruct (mapPropsOf componentConfig); [apply funded_ret|].
        apply funded_mapM. intros [slotName expression] _.
        destruct (String.eqb slotName "children" || negb (truthy expression));
          [apply funded_ret|].
        apply funded_lift. apply formatAttribute_funded.
      * intros slotAttributes. apply funded_bind; [apply funded_modify|].
        intros _. apply funded_ret.
Qed.

End JsxFuelFacts.

(** ** A larger recursion budget changes no result *)

Section RefinesFacts.
Import Run.

Lemma refines_bind {S A B : Type} (m m' : M S A) (k k' : A -> M S B) :
  refines m m' -> (forall a, refines (k a) (k' a)) -> refines (bind m k) (bind m' k').
Proof.
  intros Hm Hk s. unfold bind. destruct (Hm s) as [H|H].
  - left. rewrite H. reflexivity.
  - rewrite H. destruct (m s) as [[a s1]|e]; [apply Hk|right; reflexivity].
Qed.

Lemma refines_mapM {S A B : Type} (f f' : A -> M S B) (xs : list A) :
  (forall x, refines (f x) (f' x)) -> refines (mapM f xs) (mapM f' xs).
Proof.
  intros Hf. induction xs as [|x xs IH]; simpl; [intros s; right; reflexivity|].
  apply refines_bind; [apply Hf|]. intros b.
  apply refines_bind; [exact IH|]. intros bs s. right. reflexivity.
Qed.

Lemma refines_foldM {S A B : Type} (f f' : B -> A -> M S B) (xs : list A) :
  (forall b x, refines (f b x) (f' b x)) ->
  forall b, refines (foldM f xs b) (foldM f' xs b).
Proof.
  intros Hf. induction xs as [|x xs IH]; intros b; simpl;
    [intros s; right; reflexivity|].
  apply refines_bind; [apply Hf|]. intros b'. apply IH.
Qed.
End RefinesFacts.

(** One step of a proof that two runs of the same code differ only in the
    budget of their recursive calls, which [IH] relates. *)
Ltac refines_step IH :=
  match goal with
  | |- refines ?m ?m => let s := fresh "s" in intros s; right; reflexivity
  | |- refines (Run.throw Run.OutOfFuel) _ =>
      let s := fresh "s" in intros s; left; reflexivity
  | |- refines (Run.bind _ _) (Run.bind _ _) => apply refines_bind; [|intros ?]
  | |- refines (Run.mapM _ _) (Run.mapM _ _) =>
      apply refines_mapM;
      let x := fresh "x" in
      intros x;
      match type of x with
      | (_ * _)%type => destruct x
      | _ => idtac
      end
  | |- refines (Run.foldM _ _ _) (Run.foldM _ _ _) =>
      apply refines_foldM;
      let b := fresh "b" in
      let x := fresh "x" in
      intros b x; destruct b; destruct x
  | |- refines (match ?x with _ => _ end) (match ?x with _ => _ end) => destruct x
  | |- refines (if ?b then _ else _) (if ?b then _ else _) => destruct b
  | |- refines _ _ => apply IH
  end.

Section BudgetFacts.
Import Js Run.

Lemma ReactCode_budget_mono (ctx : ReactCode.InternalContext) :
  forall fuel fuel', fuel <= fuel' ->
  (forall component depth,
      refines (ReactCode.renderComponent fuel ctx component depth)
              (ReactCode.renderComponent fuel' ctx component depth))
  /\ (forall v depth,
         refines (ReactCode.formatPropValue fuel ctx v depth)
                 (ReactCode.formatPropValue fuel' ctx v depth))
  /\ (forall v depth,
         refines (ReactCode.formatChildren fuel ctx v depth)
                 (ReactCode.formatChildren fuel' ctx v depth)).
Proof.
  induction fuel as [|fuel IH]; intros fuel' Hle.
  - repeat split; intros; intros s; left; reflexivity.
  - destruct fuel' as [|fuel']; [lia|].
    destruct (IH fuel' ltac:(lia)) as [IHc [IHp IHf]].
    repeat split; intros; simpl;
      repeat (refines_step IHc || refines_step IHp || refines_step IHf).
Qed.

(** What [generateReactCode] returns with some budget, it returns with
    every larger one. *)
Lemma generateReactCode_budget (localeCompare : string -> string -> comparison)
  (fuel fuel' : nat) (options : ReactCode.GenerateReactCodeOptions)
  (out : ReactCode.GenerateReactCodeResult) :
  fuel <= fuel' ->
  ReactCode.generateReactCode localeCompare fuel options = Ok out ->
  ReactCode.generateReactCode localeCompare fuel' options = Ok out.
Proof.
  intros Hle. unfold ReactCode.generateReactCode.
  set (content := match Types.content (ReactCode.data options) with
                  | Some c => c
                  | None => []
                  end).
  set (ctx := {| ReactCode.ctxComponentMap := ReactCode.componentMap options;
                 ReactCode.ctxOmitIds := match ReactCode.omitIds options with
                                         | Some b => b
                                         | None => true
                                         end |}).
  assert (Href : refines
                   (mapM (fun component => ReactCode.renderComponent fuel ctx component 2)
                      content)
                   (mapM (fun component => ReactCode.renderComponent fuel' ctx component 2)
                      content)).
  { apply refines_mapM. intros x.
    apply (proj1 (ReactCode_budget_mono ctx fuel fuel' Hle)). }
  destruct (Href []) as [H|H].
  - rewrite H. discriminate.
  - rewrite H. auto.
Qed.
End BudgetFacts.

Section AstBudgetFacts.
Import Js Run.
Variable valueToNode : value -> ReactAst.Node.
Variable isValidIdentifier : string -> bool.
Variable config : ReactAst.Config.
Variable components : list (string * ReactAst.CodegenComponentTransform).
Variable includeIds : bool.

Lemma ReactAst_budget_mono :
  forall fuel fuel', fuel <= fuel' ->
  (forall component addKey,
      refines (ReactAst.createComponent valueToNode isValidIdentifier config components
                 includeIds fuel component addKey)
              (ReactAst.createComponent valueToNode isValidIdentifier config components
                 includeIds fuel' component addKey))
  /\ (forall content,
         refines (ReactAst.createSlotChildren valueToNode isValidIdentifier config
                    components includeIds fuel content)
                 (ReactAst.createSlotChildren valueToNode isValidIdentifier config
                    components includeIds fuel' content))
  /\ (forall values fields,
         refines (ReactAst.createArrayExpression valueToNode isValidIdentifier config
                    components includeIds fuel values fields)
                 (ReactAst.createArrayExpression valueToNode isValidIdentifier config
                    components includeIds fuel' values fields))
  /\ (forall v fields,
         refines (ReactAst.createObjectExpression valueToNode isValidIdentifier config
                    components includeIds fuel v fields)
                 (ReactAst.createObjectExpression valueToNode isValidIdentifier config
                    components includeIds fuel' v fields))
  /\ (forall v field,
         refines (ReactAst.createFieldValueNode valueToNode isValidIdentifier config
                    components includeIds fuel v field)
                 (ReactAst.createFieldValueNode valueToNode isValidIdentifier config
                    components includeIds fuel' v field))
  /\ (forall props componentFields transform,
         refines (ReactAst.createAttributes valueToNode isValidIdentifier config
                    components includeIds fuel props componentFields transform)
                 (ReactAst.createAttributes valueToNode isValidIdentifier config
                    components includeIds fuel' props componentFields transform)).
Proof.
  induction fuel as [|fuel IH]; intros fuel' Hle.
  - repeat split; intros; intros s; left; reflexivity.
  - destruct fuel' as [|fuel']; [lia|].
    destruct (IH fuel' ltac:(lia)) as [IH1 [IH2 [IH3 [IH4 [IH5 IH6]]]]].
    repeat split; intros; simpl;
      repeat (refines_step IH1 || refines_step IH2 || refines_step IH3
              || refines_step IH4 || refines_step IH5 || refines_step IH6).
Qed.
End AstBudgetFacts.

(** What [generateReactComponent] returns with some budget, it returns with
    every larger one. *)
Lemma generateReactComponent_budget valueToNode isValidIdentifier generate
  (localeCompare : string -> string -> comparison) (fuel fuel' : nat)
  (options : ReactAst.GenerateReactComponentOptions)
  (out : ReactAst.GenerateReactComponentResult) :
  fuel <= fuel' ->
  ReactAst.generateReactComponent valueToNode isValidIdentifier generate localeCompare
    fuel options = Run.Ok out ->
  ReactAst.generateReactComponent valueToNode isValidIdentifier generate localeCompare
    fuel' options = Run.Ok out.
Proof.
  intros Hle. unfold ReactAst.generateReactComponent, ReactAst.generateFile.
  set (content := match Types.content (ReactAst.data options) with
                  | Some c => c
                  | None => []
                  end).
  match goal with
  | |- context [Run.mapM (fun component => ?f fuel component false) content] =>
      assert (Href : refines
                       (Run.mapM (fun component => f fuel component false) content)
                       (Run.mapM (fun component => f fuel' component false) content))
  end.
  { apply refines_mapM. intros x.
    apply (proj1 (ReactAst_budget_mono _ _ _ _ _ fuel fuel' Hle)). }
  destruct (Href []) as [H|H].
  - rewrite H. discriminate.
  - rewrite H. auto.
Qed.


(** ** The recursion budget of [generateReactComponent] without hooks *)

Section AstFundedFacts.
Import Js Run Types.
Variable valueToNode : value -> ReactAst.Node.
Variable isValidIdentifier : string -> bool.
Variable config : ReactAst.Config.
Variable components : list (string * ReactAst.CodegenComponentTransform).
Variable includeIds : bool.
Hypothesis bounded_hooks :
  forall key transform hook props returned,
    lookup key components = Some transform ->
    ReactAst.mapProps transform = Some hook ->
    hook props = Returns returned ->
    height returned <= height props.

Local Abbreviation createComponent :=
  (ReactAst.createComponent valueToNode isValidIdentifier config components includeIds).
Local Abbreviation createSlotChildren :=
  (ReactAst.createSlotChildren valueToNode isValidIdentifier config components includeIds).
Local Abbreviation createArrayExpression :=
  (ReactAst.createArrayExpression valueToNode isValidIdentifier config components
     includeIds).
Local Abbreviation createObjectExpression :=
  (ReactAst.createObjectExpression valueToNode isValidIdentifier config components
     includeIds).
Local Abbreviation createFieldValueNode :=
  (ReactAst.createFieldValueNode valueToNode isValidIdentifier config components
     includeIds).
Local Abbreviation createAttributes :=
  (ReactAst.createAttributes valueToNode isValidIdentifier config components includeIds).











End AstFundedFacts.


Section JsxBudgetFacts.
Import Js Run.

Lemma Jsx_budget_mono (context : Jsx.RenderContext) :
  forall fuel fuel', fuel <= fuel' ->
  forall item depth,
    refines (Jsx.renderNode fuel context item depth)
            (Jsx.renderNode fuel' context item depth).
Proof.
  induction fuel as [|fuel IH]; intros fuel' Hle item depth.
  - intros s. left. reflexivity.
  - destruct fuel' as [|fuel']; [lia|].
    specialize (IH fuel' ltac:(lia)).
    simpl. unfold Jsx.renderContentWith. repeat refines_step IH.
Qed.

Lemma renderContent_funded (context : Jsx.RenderContext) (fuel : nat)
  (content : list value) (depth : Z) :
  height (VArr content) <= fuel ->
  funded (Jsx.renderContent fuel context content depth).
Proof.
  intros Hh s. unfold Jsx.renderContent. rewrite renderContentWith_eq.
  assert (Hfunded :
            funded (mapM (fun item => Jsx.renderNode fuel context item depth) content)).
  { apply funded_mapM. intros item Hin. apply renderNode_funded.
    apply height_member in Hin. lia. }
  specialize (Hfunded s).
  destruct (mapM _ content s) as [[nodes r]|e]; [discriminate|congruence].
Qed.

(** With budget enough for the content, [renderContent] does what it does
    with the budget that [generateJSX] gives it. *)
Lemma renderContent_enough (context : Jsx.RenderContext) (fuel : nat)
  (content : list value) (depth : Z) (registry : Jsx.ImportRegistry) :
  height (VArr content) < fuel ->
  Jsx.renderContent fuel context content depth registry
  = Jsx.renderContent (S (height (VArr content))) context content depth registry.
Proof.
  intros Hh.
  assert (Href : refines
                   (Jsx.renderContent (S (height (VArr content))) context content depth)
                   (Jsx.renderContent fuel context content depth)).
  { unfold Jsx.renderContent, Jsx.renderContentWith.
    destruct content as [|item rest]; [intros s; right; reflexivity|].
    apply refines_bind; [|intros nodes s; right; reflexivity].
    apply refines_mapM. intros x. apply Jsx_budget_mono. lia. }
  destruct (Href registry) as [H|H]; [|exact H].
  exfalso. revert H. apply renderContent_funded. lia.
Qed.
End JsxBudgetFacts.

(** ** Registration of imports *)

Section RegistryFacts.
Import Js Run.

Lemma set_set_same {A : Type} (k : string) (x : A) (es : list (string * A)) :
  set k x (set k x es) = set k x es.
Proof. apply set_same. apply lookup_set_same. Qed.

Lemma optionStringEqb_refl (a : option string) : ReactAst.optionStringEqb a a = true.
Proof. destruct a as [x|]; simpl; [apply String.eqb_refl|reflexivity]. Qed.


(** Registering a spec again leaves the registry of [generateJSX] as the
    first registration left it. *)
Lemma Jsx_registerSpec_idempotent (registry : Jsx.ImportRegistry)
  (spec : Jsx.ComponentCodegenImport) :
  Jsx.registerSpec (Jsx.registerSpec registry spec) spec = Jsx.registerSpec registry spec.
Proof.
  destruct spec as [p name alias|p d]; unfold Jsx.registerSpec; simpl.
  - rewrite lookup_set_same. simpl. rewrite set_set_same. apply set_set_same.
  - set (next := match lookup p registry with
                 | Some e => e
                 | None => {| Jsx.entryDefault := None; Jsx.entryNamed := [] |}
                 end).
    rewrite lookup_set_same.
    destruct (Jsx.given (Jsx.entryDefault next)) eqn:E; simpl.
    + rewrite E. simpl. apply set_set_same.
    + destruct (Js.isEmpty d); simpl; apply set_set_same.
Qed.

(** The same for the buckets of [generateReactComponent]: a registration
    that succeeded succeeds again and changes nothing. *)
Lemma ReactAst_registerEntry_idempotent (buckets buckets' : ReactAst.ImportBuckets)
  (entry : ReactAst.CodegenImport) :
  ReactAst.registerEntry entry buckets = Ok (tt, buckets') ->
  ReactAst.registerEntry entry buckets' = Ok (tt, buckets').
Proof.
  destruct entry as [p imported alias|p d]; unfold ReactAst.registerEntry.
  - destruct (_ && _); [discriminate|]. intros H. injection H as <-.
    rewrite lookup_set_same. simpl. rewrite lookup_set_same.
    rewrite optionStringEqb_refl, andb_false_r.
    rewrite set_set_same, set_set_same. reflexivity.
  - destruct (_ && _); [discriminate|]. intros H. injection H as <-.
    rewrite lookup_set_same. simpl.
    rewrite String.eqb_refl, andb_false_r.
    rewrite set_set_same. reflexivity.
Qed.

(** The test of [generateReactComponent] reads the stored alias by its
    truth: after a registration without alias, one with an alias passes. *)
Example ReactAst_alias_after_no_alias :
  Run.bind (ReactAst.registerEntry (ReactAst.NamedImportSpec "ui" "Button" None))
    (fun _ => ReactAst.registerEntry (ReactAst.NamedImportSpec "ui" "Button" (Some "B")))
    []
  = Run.Ok (tt, [("ui", {| ReactAst.named := [("Button", Some "B")];
                           ReactAst.defaultName := None |})]).
Proof. reflexivity. Qed.

(** [generateReactCode] registers a default import, or an import under a
    local name other than the exported one, only once. *)
Lemma ReactCode_registerImport_idempotent (localName : string)
  (importConfig : ReactCode.CodegenImport) (imports : ReactCode.ImportMap) :
  ReactCode.isTrue (ReactCode.default importConfig) = true
  \/ ReactCode.name importConfig <> None
     /\ ReactCode.name importConfig <> Some localName ->
  ReactCode.registerImport localName importConfig
    (ReactCode.registerImport localName importConfig imports)
  = ReactCode.registerImport localName importConfig imports.
Proof.
  intros Hcase. unfold ReactCode.registerImport.
  set (record := match lookup (ReactCode.path importConfig) imports with
                 | Some r => r
                 | None => {| ReactCode.defaultImport := None; ReactCode.named := [] |}
                 end).
  destruct (ReactCode.isTrue (ReactCode.default importConfig)) eqn:Edefault.
  - rewrite lookup_set_same. simpl. apply set_set_same.
  - destruct Hcase as [H|[Hsome Hother]]; [discriminate|].
    destruct (ReactCode.name importConfig) as [importName|]; [|congruence].
    assert (Hne : String.eqb localName importName = false).
    { destruct (String.eqb_spec localName importName); [congruence|reflexivity]. }
    rewrite lookup_set_same. simpl. rewrite Hne.
    match goal with
    | |- context [existsb ?f (ReactCode.named record)] =>
        destruct (existsb f (ReactCode.named record)) eqn:Efound
    end; simpl.
    + rewrite Efound. simpl. apply set_set_same.
    + rewrite existsb_app. simpl. rewrite !String.eqb_refl. simpl.
      rewrite orb_true_r. simpl. apply set_set_same.
Qed.
End RegistryFacts.

(** ** Slots *)

Section TrimFacts.
Import Js.




End TrimFacts.

Section SlotFacts.
Import Js.

End SlotFacts.

Section OrderOfResults.
Import Run.
Context {S A B : Type}.

(** The results of a traversal are those of its items, one for one and in
    their order. *)
Lemma mapM_Forall2 (f : A -> M S B) (xs : list A) (s s' : S) (ys : list B) :
  mapM f xs s = Ok (ys, s') ->
  Forall2 (fun x y => exists s1 s2, f x s1 = Ok (y, s2)) xs ys.
Proof.
  revert s ys. induction xs as [|x xs IH]; intros s ys; simpl.
  - unfold ret. intros H. injection H as <- _. constructor.
  - unfold bind. destruct (f x s) as [[y s1]|e] eqn:Ex; [|discriminate].
    destruct (mapM f xs s1) as [[zs s2]|e] eqn:Exs; [|discriminate].
    unfold ret. intros H. injection H as <- <-.
    constructor; [eauto|]. eapply IH. eassumption.
Qed.
End OrderOfResults.

(** ** Elements of arrays *)

Section ArrayFacts.
Import Js Run.

(** [createObjectExpression] builds an object literal, whatever the value
    holds. *)
Lemma createObjectExpression_literal valueToNode isValidIdentifier config components
  includeIds (fuel : nat) (v : value) (fields : option Types.Fields)
  (buckets buckets' : ReactAst.ImportBuckets) (n : ReactAst.Node) :
  ReactAst.createObjectExpression valueToNode isValidIdentifier config components
    includeIds fuel v fields buckets = Ok (n, buckets') ->
  exists properties, n = ReactAst.ObjectExpression properties.
Proof.
  destruct fuel as [|fuel]; [discriminate|]. simpl. unfold bind at 1.
  destruct (mapM _ _ buckets) as [[properties b]|e]; [|discriminate].
  unfold ret. intros H. injection H as <- _. eauto.
Qed.
End ArrayFacts.

(** ** Codegen expressions as attributes *)

Section LineFacts.
Import Js.


Lemma splitLF_nonempty (s : string) : splitLF s <> [].
Proof.
  destruct s as [|c r]; simpl; [discriminate|].
  destruct (Ascii.eqb c LF); [discriminate|].
  destruct (splitLF r); discriminate.
Qed.






End LineFacts.

(** * The claims of the specification *)










(** C4 (the claim as stated fails).  [generateReactCode] keeps the named
    specifiers of a path in the order of their registration: a page with a
    Row before a Col imports Row before Col, though Col sorts first. *)
Lemma C4_generateReactCode_keeps_registration_order :
  codeUnitCompare "Row" "Col" = Gt
  /\ exists out,
       ReactCode.generateReactCode codeUnitCompare 3 rowThenColOptions = Run.Ok out
       /\ ReactCode.imports out
          = ["import { Row, Col } from " ++ Js.dq ++ "antd" ++ Js.dq ++ ";"].
Proof.
  split; [reflexivity|].
  eexists. split; vm_compute; reflexivity.
Qed.

(** C4 (as amended).  For every comparator that the sort can rely on, and
    every state of the registry, whatever the order of the registrations
    that led to it: [generateJSX] and [generateReactComponent] finalize the
    imports in ascending order of the paths, with the named specifiers of
    each path in ascending order of the exported names and the default
    specifier before them; [generateReactCode] emits the paths in ascending
    order and the default line of a path before its line of names. *)
Theorem C4_finalized_imports_ordered
  (localeCompare : string -> string -> comparison) :
  consistent localeCompare ->
  (forall registry,
      ascending localeCompare Jsx.path (Jsx.formatImports localeCompare registry)
      /\ Forall (fun entry => ascending localeCompare fst (Jsx.named entry))
           (Jsx.formatImports localeCompare registry))
  /\ (forall entry d,
         Jsx.default entry = Some d -> d <> EmptyString ->
         Js.join ", " (map Jsx.specifierText (Jsx.named entry)) <> EmptyString ->
         Jsx.formatImportStatements [entry] =
         ["import " ++ d ++ ", { "
            ++ Js.join ", " (map Jsx.specifierText (Jsx.named entry))
            ++ " } from " ++ Js.dq ++ Jsx.path entry ++ Js.dq ++ ";"])
  /\ (forall buckets,
         ascending localeCompare declarationSource
           (ReactAst.importDeclarations localeCompare buckets)
         /\ Forall (fun declaration =>
                      exists defaults nameds,
                        declarationSpecifiers declaration = (defaults ++ nameds)%list
                        /\ length defaults <= 1
                        /\ forallb isImportDefaultSpecifier defaults = true
                        /\ forallb isImportSpecifier nameds = true
                        /\ ascending localeCompare importedName nameds)
              (ReactAst.importDeclarations localeCompare buckets))
  /\ (forall imports includeReact,
         exists sorted,
           Permutation imports sorted
           /\ ascending localeCompare fst sorted
           /\ ReactCode.buildImports localeCompare imports includeReact =
              ((if includeReact then [ReactCode.reactImportLine] else [])
                 ++ flat_map (fun '(p, record) => ReactCode.importLinesOf p record)
                      sorted)%list)
  /\ (forall p record d,
         ReactCode.defaultImport record = Some d -> d <> EmptyString ->
         Js.join ", " (map ReactCode.entryText (ReactCode.named record)) <> EmptyString ->
         ReactCode.importLinesOf p record =
         ["import " ++ d ++ " from " ++ Js.dq ++ p ++ Js.dq ++ ";";
          "import { " ++ Js.join ", " (map ReactCode.entryText (ReactCode.named record))
            ++ " } from " ++ Js.dq ++ p ++ Js.dq ++ ";"]).
Proof.
  intros Hcmp. repeat split.
  - unfold Jsx.formatImports. apply (sort_ascending localeCompare Hcmp Jsx.path).
  - unfold Jsx.formatImports. apply Forall_forall. intros entry Hin.
    apply sort_In in Hin. apply in_map_iff in Hin.
    destruct Hin as [e [<- _]]. simpl.
    apply (sort_ascending localeCompare Hcmp fst).
  - intros entry d Hd Hne Hnames. unfold Jsx.formatImportStatements. simpl.
    rewrite Hd. rewrite (isEmpty_false _ Hnames). simpl.
    rewrite (isEmpty_false _ Hne). simpl.
    destruct (Js.join ", " (map Jsx.specifierText (Jsx.named entry))) as [|c r] eqn:E;
      [congruence|].
    simpl. rewrite !append_assoc. simpl.
    destruct d as [|x d]; [congruence|]. simpl.
    rewrite !append_assoc. reflexivity.
  - unfold ReactAst.importDeclarations.
    eapply (ascending_map localeCompare _ fst).
    + intros [p bucket]. reflexivity.
    + apply (sort_ascending localeCompare Hcmp fst).
  - unfold ReactAst.importDeclarations. apply Forall_forall.
    intros declaration Hin. apply in_map_iff in Hin.
    destruct Hin as [[p bucket] [<- _]]. simpl.
    eexists _, _. split; [reflexivity|]. repeat split.
    + destruct (ReactAst.defaultName bucket) as [d|]; simpl; [|lia].
      destruct (Js.isEmpty d); simpl; lia.
    + destruct (ReactAst.defaultName bucket) as [d|]; simpl; [|reflexivity].
      destruct (Js.isEmpty d); reflexivity.
    + apply forallb_forall. intros x Hx. apply in_map_iff in Hx.
      destruct Hx as [[importName alias] [<- _]]. reflexivity.
    + eapply (ascending_map localeCompare _ fst).
      * intros [importName alias]. reflexivity.
      * apply (sort_ascending localeCompare Hcmp fst).
  - intros imports includeReact.
    exists (Js.sort (fun a b => Js.notAfter localeCompare (fst a) (fst b)) imports).
    split; [apply sort_perm|]. split; [|reflexivity].
    apply (sort_ascending localeCompare Hcmp fst).
  - intros p record d Hd Hne Hnames. unfold ReactCode.importLinesOf.
    rewrite Hd. simpl. rewrite (isEmpty_false _ Hne), (isEmpty_false _ Hnames).
    reflexivity.
Qed.

(** C4 at the comparison by code units and registries filled out of
    order. *)
Lemma C4_finalized_imports_ordered_witness :
  (ascending codeUnitCompare Jsx.path (Jsx.formatImports codeUnitCompare unsortedRegistry)
   /\ Forall (fun entry => ascending codeUnitCompare fst (Jsx.named entry))
        (Jsx.formatImports codeUnitCompare unsortedRegistry))
  /\ Jsx.formatImportStatements
       [{| Jsx.path := "ui"; Jsx.default := Some "Ui";
           Jsx.named := [("Button", Some "Btn"); ("Card", None)] |}]
     = ["import " ++ "Ui" ++ ", { "
          ++ Js.join ", " (map Jsx.specifierText [("Button", Some "Btn"); ("Card", None)])
          ++ " } from " ++ Js.dq ++ "ui" ++ Js.dq ++ ";"]
  /\ ascending codeUnitCompare declarationSource
       (ReactAst.importDeclarations codeUnitCompare uiBuckets)
  /\ (exists sorted,
         Permutation [("ui", uiRecord); ("antd", uiRecord)] sorted
         /\ ascending codeUnitCompare fst sorted
         /\ ReactCode.buildImports codeUnitCompare [("ui", uiRecord); ("antd", uiRecord)]
              false
            = ([] ++ flat_map (fun '(p, record) => ReactCode.importLinesOf p record)
                       sorted)%list)
  /\ ReactCode.importLinesOf "ui" uiRecord
     = ["import " ++ "Ui" ++ " from " ++ Js.dq ++ "ui" ++ Js.dq ++ ";";
        "import { " ++ Js.join ", " (map ReactCode.entryText (ReactCode.named uiRecord))
          ++ " } from " ++ Js.dq ++ "ui" ++ Js.dq ++ ";"].
Proof.
  destruct (C4_finalized_imports_ordered codeUnitCompare codeUnitCompare_consistent)
    as [H1 [H2 [H3 [H4 H5]]]].
  split; [|split; [|split; [|split]]].
  - apply (H1 unsortedRegistry).
  - apply (H2 {| Jsx.path := "ui"; Jsx.default := Some "Ui";
                 Jsx.named := [("Button", Some "Btn"); ("Card", None)] |} "Ui");
      [reflexivity|discriminate|discriminate].
  - apply (H3 uiBuckets).
  - apply (H4 [("ui", uiRecord); ("antd", uiRecord)] false).
  - apply (H5 "ui" uiRecord "Ui"); [reflexivity|discriminate|discriminate].
Defined.

(** C6.  A node whose component config is marked [skip] renders to nothing:
    [renderNode] returns [null] and leaves the registry as it was, so that
    none of its slots is rendered (whatever they hold) and nothing is
    registered for it; a content sequence, at the top level or in a slot of
    a parent, renders to the same text and registry with the node as
    without it; and so [generateJSX] returns for a page with the node what
    it returns for the page without it. *)
Theorem C6_skipped_node_renders_nothing
  (fuel : nat) (context : Jsx.RenderContext) (item type : Js.value)
  (componentConfig : Jsx.ComponentConfig) (depth : Z) :
  Js.prop "type" item = Some type ->
  Js.lookup (Js.toStr type) (Jsx.components (Jsx.ctxConfig context))
    = Some componentConfig ->
  Jsx.skipped componentConfig = true ->
  (forall registry,
      Jsx.renderNode (S fuel) context item depth registry = Run.Ok (None, registry))
  /\ (forall pre post registry,
         Jsx.renderContent (S fuel) context (pre ++ item :: post)%list depth registry
         = Jsx.renderContent (S fuel) context (pre ++ post)%list depth registry)
  /\ (forall localeCompare options pre post,
         Jsx.config options = Jsx.ctxConfig context ->
         Types.content (Jsx.data options) = Some (pre ++ item :: post)%list ->
         Jsx.generateJSX localeCompare options
         = Jsx.generateJSX localeCompare
             {| Jsx.config := Jsx.config options;
                Jsx.data := {| Types.content := Some (pre ++ post)%list |};
                Jsx.baseDepth := Jsx.baseDepth options;
                Jsx.indentSize := Jsx.indentSize options |}).
Proof.
  intros Htype Hconfig Hskip. split; [|split].
  - intros registry. eapply renderNode_skipped; eassumption.
  - intros pre post registry. eapply renderContent_without_skipped; eassumption.
  - intros localeCompare options pre post Hsame Hcontent.
    unfold Jsx.generateJSX. rewrite Hcontent. simpl Types.content.
    set (context' := {| Jsx.ctxConfig := Jsx.config options;
                        Jsx.ctxIndentSize := match Jsx.indentSize options with
                                             | Some n => n
                                             | None => 2
                                             end |}).
    set (with_node := (pre ++ item :: post)%list).
    set (without := (pre ++ post)%list).
    set (budget := S (Nat.max (Js.height (Js.VArr with_node))
                              (Js.height (Js.VArr without)))).
    rewrite <- (renderContent_enough context' budget with_node) by (unfold budget; lia).
    rewrite <- (renderContent_enough context' budget without) by (unfold budget; lia).
    unfold budget, with_node, without.
    rewrite (renderContent_without_skipped _ context' item type componentConfig);
      [reflexivity|assumption| |assumption].
    simpl. rewrite Hsame. exact Hconfig.
Qed.

(** C6 at a Hidden node, marked [skip], whose slot holds a Button and a
    node of an unregistered type. *)
Lemma C6_skipped_node_renders_nothing_witness :
  Jsx.renderNode 3 hiddenContext hiddenNode 1 [] = Run.Ok (None, [])
  /\ Jsx.renderContent 3 hiddenContext
       ([node "Button" []] ++ hiddenNode :: [node "Button" []])%list 1 []
     = Jsx.renderContent 3 hiddenContext
         ([node "Button" []] ++ [node "Button" []])%list 1 []
  /\ Jsx.generateJSX codeUnitCompare (hiddenOptions [node "Button" []; hiddenNode])
     = Jsx.generateJSX codeUnitCompare
         {| Jsx.config := hiddenConfig;
            Jsx.data := {| Types.content := Some ([node "Button" []] ++ [])%list |};
            Jsx.baseDepth := None;
            Jsx.indentSize := None |}.
Proof.
  destruct (C6_skipped_node_renders_nothing 2 hiddenContext hiddenNode
              (Js.VStr "Hidden")
              {| Jsx.fields := Some [("children", slotField)];
                 Jsx.codegen :=
                   Some {| Jsx.component := None;
                           Jsx.import :=
                             Jsx.OneImport (Jsx.NamedImport "ui" "Hidden" None);
                           Jsx.mapProps := None;
                           Jsx.skip := true |} |} 1%Z)
    as [H1 [H2 H3]]; [reflexivity|reflexivity|reflexivity|].
  split; [apply H1|]. split; [apply H2|].
  apply (H3 codeUnitCompare (hiddenOptions [node "Button" []; hiddenNode])
            [node "Button" []] []); reflexivity.
Defined.

(** C7 (the code breaks the claim).  In [generateReactCode] the test that
    guards the registration of a named import compares the stored alias
    with the local name, but an import whose local name is the exported
    name is stored without alias: registering Row of antd under the name
    Row a second time appends a second entry, and a page with two such
    nodes gets the import line with Row twice. *)
Theorem C7_generateReactCode_duplicates_unaliased_import :
  ReactCode.registerImport "Row" rowImport []
  = [("antd", {| ReactCode.defaultImport := None;
                 ReactCode.named := [("Row", None)] |})]
  /\ ReactCode.registerImport "Row" rowImport (ReactCode.registerImport "Row" rowImport [])
     = [("antd", {| ReactCode.defaultImport := None;
                    ReactCode.named := [("Row", None); ("Row", None)] |})]
  /\ exists out,
       ReactCode.generateReactCode codeUnitCompare 3 twoRowsOptions = Run.Ok out
       /\ ReactCode.imports out = ["import { Row, Row } from " ++ Js.dq ++ "antd" ++ Js.dq ++ ";"].
Proof.
  split; [reflexivity|]. split; [reflexivity|].
  eexists. split; vm_compute; reflexivity.
Qed.

(** C8 (the claim as stated fails).  In [generateReactComponent] an element
    of an array field that has both [type] and [props] is printed as an
    object literal, not as an element: the Button node among the [items] of
    a List becomes the literal with the members [type] and [props]. *)
Lemma C8_generateReactComponent_prints_node_in_array_as_literal :
  ReactCode.isComponentData (node "Button" [("label", Js.VStr "Go")]) = true
  /\ ReactAst.createFieldValueNode (ReactAst.plainValueToNode anyIdentifier)
       anyIdentifier listConfig [] false 5
       (Js.VArr [node "Button" [("label", Js.VStr "Go")]]) (Some arrayField) []
     = Run.Ok
         (Some (ReactAst.ArrayExpression
                  [ReactAst.ObjectExpression
                     [ReactAst.ObjectProperty (ReactAst.Identifier "type")
                        (ReactAst.StringLiteral "Button");
                      ReactAst.ObjectProperty (ReactAst.Identifier "props")
                        (ReactAst.ObjectExpression
                           [ReactAst.ObjectProperty (ReactAst.Identifier "label")
                              (ReactAst.StringLiteral "Go")])]]),
          []).
Proof. split; reflexivity. Qed.

(** C8 (as amended).  [generateReactCode] serializes the elements of an
    array one by one, in their order: an element that has both [type] and
    [props] is rendered by [renderComponent] one level deeper, any other is
    formatted as a value.  [generateReactComponent] also serializes the
    elements of an array field one by one, but prints every element that
    is an object as an object literal against the item schema. *)
Theorem C8_array_elements :
  (forall fuel ctx items depth imports,
      items <> [] ->
      ReactCode.formatPropValue (S fuel) ctx (Js.VArr items) depth imports
      = match Run.mapM
                (fun item =>
                   if ReactCode.isComponentData item
                   then ReactCode.renderComponent fuel ctx item (depth + 1)
                   else Run.bind (ReactCode.formatPropValue fuel ctx item (depth + 1))
                          (fun formatted =>
                             Run.ret (ReactCode.indent (depth + 1) ++ snd formatted)))
                items imports with
        | Run.Ok (inner, imports') =>
            Run.Ok ((ReactCode.KExpression,
                     "[" ++ Js.nl ++ Js.join ("," ++ Js.nl) inner ++ Js.nl
                       ++ ReactCode.indent depth ++ "]"), imports')
        | Run.Err e => Run.Err e
        end)
  /\ (forall fuel ctx items depth imports kind text imports',
         items <> [] ->
         ReactCode.formatPropValue (S fuel) ctx (Js.VArr items) depth imports
         = Run.Ok ((kind, text), imports') ->
         exists inner,
           text = "[" ++ Js.nl ++ Js.join ("," ++ Js.nl) inner ++ Js.nl
                    ++ ReactCode.indent depth ++ "]"
           /\ Forall2
                (fun item part =>
                   ReactCode.isComponentData item = true ->
                   exists s1 s2,
                     ReactCode.renderComponent fuel ctx item (depth + 1) s1
                     = Run.Ok (part, s2))
                items inner)
  /\ (forall valueToNode isValidIdentifier config components includeIds fuel items
             fields buckets,
         ReactAst.createArrayExpression valueToNode isValidIdentifier config components
           includeIds (S fuel) (Js.VArr items) fields buckets
         = match Run.mapM
                   (fun item =>
                      if Js.isUndefined item then Run.ret ReactAst.NullLiteral
                      else if ReactAst.isPlainObject item
                      then ReactAst.createObjectExpression valueToNode isValidIdentifier
                             config components includeIds fuel item fields
                      else Run.ret (valueToNode item))
                   items buckets with
           | Run.Ok (elements, buckets') =>
               Run.Ok (ReactAst.ArrayExpression elements, buckets')
           | Run.Err e => Run.Err e
           end)
  /\ (forall valueToNode isValidIdentifier config components includeIds fuel v
             fields buckets buckets' n,
         ReactAst.createObjectExpression valueToNode isValidIdentifier config components
           includeIds fuel v fields buckets = Run.Ok (n, buckets') ->
         exists properties, n = ReactAst.ObjectExpression properties).
Proof.
  assert (Hcode : forall fuel ctx items depth imports,
             items <> [] ->
             ReactCode.formatPropValue (S fuel) ctx (Js.VArr items) depth imports
             = match Run.mapM
                       (fun item =>
                          if ReactCode.isComponentData item
                          then ReactCode.renderComponent fuel ctx item (depth + 1)
                          else Run.bind
                                 (ReactCode.formatPropValue fuel ctx item (depth + 1))
                                 (fun formatted =>
                                    Run.ret (ReactCode.indent (depth + 1)
                                               ++ snd formatted)))
                       items imports with
               | Run.Ok (inner, imports') =>
                   Run.Ok ((ReactCode.KExpression,
                            "[" ++ Js.nl ++ Js.join ("," ++ Js.nl) inner ++ Js.nl
                              ++ ReactCode.indent depth ++ "]"), imports')
               | Run.Err e => Run.Err e
               end).
  { intros fuel ctx items depth imports Hne.
    destruct items as [|item rest]; [congruence|].
    cbn -[Run.mapM Js.join ReactCode.indent append]. unfold Run.bind at 1.
    destruct (Run.mapM _ (item :: rest) imports) as [[inner imports']|e]; reflexivity. }
  split; [exact Hcode|]. split; [|split].
  - intros fuel ctx items depth imports kind text imports' Hne H.
    rewrite (Hcode _ _ _ _ _ Hne) in H.
    destruct (Run.mapM _ items imports) as [[inner imports1]|e] eqn:E; [|discriminate].
    injection H as _ <- _. exists inner. split; [reflexivity|].
    apply mapM_Forall2 in E.
    eapply Forall2_impl; [|exact E]. simpl.
    intros item part [s1 [s2 Hs]] Hshape. rewrite Hshape in Hs. eauto.
  - intros valueToNode isValidIdentifier config components includeIds fuel items
      fields buckets.
    simpl. unfold Run.bind at 1.
    destruct (Run.mapM _ items buckets) as [[elements buckets']|e]; reflexivity.
  - intros. eapply createObjectExpression_literal. eassumption.
Qed.

(** C8 at an array that holds one Button node, and at an object in an
    array field. *)
Lemma C8_array_elements_witness :
  ReactCode.formatPropValue 3 defaultContext (Js.VArr [node "Button" []]) 2 []
  = Run.Ok ((ReactCode.KExpression,
             "[" ++ Js.nl ++ Js.join ("," ++ Js.nl) ["      <Button />"] ++ Js.nl
               ++ ReactCode.indent 2 ++ "]"), [])
  /\ (exists inner,
         "[" ++ Js.nl ++ "      <Button />" ++ Js.nl ++ "    ]"
         = "[" ++ Js.nl ++ Js.join ("," ++ Js.nl) inner ++ Js.nl
             ++ ReactCode.indent 2 ++ "]"
         /\ Forall2
              (fun item part =>
                 ReactCode.isComponentData item = true ->
                 exists s1 s2,
                   ReactCode.renderComponent 2 defaultContext item (2 + 1) s1
                   = Run.Ok (part, s2))
              [node "Button" []] inner)
  /\ (exists properties,
         ReactAst.ObjectExpression
           [ReactAst.ObjectProperty (ReactAst.Identifier "label") (ReactAst.StringLiteral "Go")]
         = ReactAst.ObjectExpression properties).
Proof.
  destruct C8_array_elements as [H1 [H2 [_ H4]]].
  split; [|split].
  - rewrite (H1 2 defaultContext [node "Button" []] 2 []) by discriminate.
    reflexivity.
  - apply (H2 2 defaultContext [node "Button" []] 2 [] ReactCode.KExpression
              ("[" ++ Js.nl ++ "      <Button />" ++ Js.nl ++ "    ]") []);
      [discriminate|reflexivity].
  - apply (H4 (ReactAst.plainValueToNode anyIdentifier) anyIdentifier listConfig []
              false 3 (Js.VObj [("label", Js.VStr "Go")]) None [] []).
    reflexivity.
Defined.






(** * Further properties of the generators *)

(** ** Objects *)

Section MoreObjectFacts.
Import Js.
Context {A : Type}.

Lemma delete_filter (k : string) (es : list (string * A)) :
  delete k es = filter (fun e => negb (String.eqb k (fst e))) es.
Proof.
  induction es as [|[k0 x] es IH]; simpl; [reflexivity|].
  destruct (String.eqb k k0); simpl; rewrite IH; reflexivity.
Qed.

Lemma filter_filter (f g : string * A -> bool) (es : list (string * A)) :
  filter f (filter g es) = filter (fun e => g e && f e) es.
Proof.
  induction es as [|e es IH]; simpl; [reflexivity|].
  destruct (g e); simpl; [destruct (f e)|]; rewrite IH; reflexivity.
Qed.

Lemma deleteAll_filter (names : list string) (es : list (string * A)) :
  fold_left (fun acc name => delete name acc) names es
  = filter (fun e => negb (existsb (String.eqb (fst e)) names)) es.
Proof.
  revert es. induction names as [|name rest IH]; intros es; simpl.
  - induction es as [|e es IHes]; simpl; [reflexivity|]. rewrite <- IHes. reflexivity.
  - rewrite IH, delete_filter, filter_filter. apply filter_ext.
    intros [k x]. simpl. rewrite (String.eqb_sym name k).
    destruct (String.eqb k name); reflexivity.
Qed.
End MoreObjectFacts.

Section KeyedFacts.
Import Js.
Context {A : Type}.

Lemma set_keys (k k' : string) (x : A) (es : list (string * A)) :
  In k' (map fst (set k x es)) <-> k' = k \/ In k' (map fst es).
Proof.
  induction es as [|[k0 y] es IH]; simpl.
  - intuition congruence.
  - destruct (String.eqb_spec k k0) as [->|Hne]; simpl; [|rewrite IH]; intuition congruence.
Qed.

Lemma set_distinctKeys (k : string) (x : A) (es : list (string * A)) :
  distinctKeys es -> distinctKeys (set k x es).
Proof.
  unfold distinctKeys. induction es as [|[k0 y] es IH]; simpl; intros Hnd.
  - constructor; [simpl; tauto|constructor].
  - inversion Hnd as [|? ? Hnot Hrest]; subst.
    destruct (String.eqb_spec k k0) as [->|Hne]; simpl.
    + constructor; assumption.
    + constructor; [|apply IH; assumption].
      rewrite set_keys. intros [->|H]; [congruence|contradiction].
Qed.

Lemma set_Forall (P : string * A -> Prop) (k : string) (x : A) (es : list (string * A)) :
  P (k, x) -> Forall P es -> Forall P (set k x es).
Proof.
  intros Hx. induction 1 as [|[k0 y] es Hy Hes IH]; simpl.
  - constructor; [exact Hx|constructor].
  - destruct (String.eqb k k0); constructor; assumption.
Qed.

Lemma lookup_Forall (P : string * A -> Prop) (k : string) (x : A) (es : list (string * A)) :
  Forall P es -> lookup k es = Some x -> P (k, x).
Proof.
  intros Hall Hk. rewrite Forall_forall in Hall. apply Hall. apply lookup_In. exact Hk.
Qed.
End KeyedFacts.

Section ListFacts.
Import Js.

Lemma NoDup_map_filter {A B : Type} (f : A -> B) (p : A -> bool) (xs : list A) :
  NoDup (map f xs) -> NoDup (map f (filter p xs)).
Proof.
  induction xs as [|x xs IH]; simpl; intros Hnd; [constructor|].
  inversion Hnd as [|? ? Hnot Hrest]; subst.
  destruct (p x); simpl; [|apply IH; assumption].
  constructor; [|apply IH; assumption].
  intros Hin. apply Hnot. apply in_map_iff in Hin. destruct Hin as [y [Hy Hin]].
  apply in_map_iff. exists y. split; [exact Hy|]. apply filter_In in Hin. tauto.
Qed.

Lemma filter_all {A : Type} (p : A -> bool) (xs : list A) :
  (forall x, In x xs -> p x = true) -> filter p xs = xs.
Proof.
  induction xs as [|x xs IH]; intros Hall; [reflexivity|]. simpl.
  rewrite (Hall x) by (left; reflexivity). rewrite IH; [reflexivity|].
  intros y Hy. apply Hall. right. exact Hy.
Qed.

Lemma sort_distinctKeys {A : Type} (le : string * A -> string * A -> bool)
  (es : list (string * A)) :
  distinctKeys es -> distinctKeys (sort le es).
Proof.
  unfold distinctKeys. intros Hnd.
  eapply Permutation_NoDup; [|exact Hnd].
  apply Permutation_map. apply sort_perm.
Qed.

Lemma In_lookup {A : Type} (k : string) (x : A) (es : list (string * A)) :
  distinctKeys es -> In (k, x) es -> lookup k es = Some x.
Proof.
  unfold distinctKeys. induction es as [|[k0 y] es IH]; simpl; [contradiction|].
  intros Hnd Hin. inversion Hnd as [|? ? Hnot Hrest]; subst.
  destruct Hin as [Heq|Hin].
  - injection Heq as -> ->. rewrite String.eqb_refl. reflexivity.
  - destruct (String.eqb_spec k k0) as [->|Hne]; [|apply IH; assumption].
    exfalso. apply Hnot. apply in_map_iff. exists (k0, x). auto.
Qed.
End ListFacts.

(** ** Invariants of threaded computations *)

Section PreservesFacts.
Import Run.

Lemma preserves_ret {S A : Type} (P : S -> Prop) (a : A) : preserves P (@ret S A a).
Proof. intros s a' s' Hs H. injection H as _ <-. exact Hs. Qed.

Lemma preserves_throw {S A : Type} (P : S -> Prop) (e : error) :
  preserves P (@throw S A e).
Proof. intros s a s' _ H. discriminate. Qed.

Lemma preserves_lift {S A : Type} (P : S -> Prop) (r : result A) :
  preserves P (@lift S A r).
Proof.
  intros s a s' Hs H. unfold lift in H. destruct r; [|discriminate].
  injection H as _ <-. exact Hs.
Qed.

Lemma preserves_modify {S : Type} (P : S -> Prop) (f : S -> S) :
  (forall s, P s -> P (f s)) -> preserves P (modify f).
Proof. intros Hf s a s' Hs H. injection H as _ <-. apply Hf. exact Hs. Qed.

Lemma preserves_bind {S A B : Type} (P : S -> Prop) (m : M S A) (k : A -> M S B) :
  preserves P m -> (forall a, preserves P (k a)) -> preserves P (bind m k).
Proof.
  intros Hm Hk s b s' Hs H. unfold bind in H.
  destruct (m s) as [[a s1]|e] eqn:E; [|discriminate].
  eapply Hk; [|exact H]. eapply Hm; eassumption.
Qed.

Lemma preserves_mapM {S A B : Type} (P : S -> Prop) (f : A -> M S B) (xs : list A) :
  (forall x, preserves P (f x)) -> preserves P (mapM f xs).
Proof.
  intros Hf. induction xs as [|x xs IH]; simpl; [apply preserves_ret|].
  apply preserves_bind; [apply Hf|]. intros b.
  apply preserves_bind; [exact IH|]. intros bs. apply preserves_ret.
Qed.

Lemma preserves_foldM {S A B : Type} (P : S -> Prop) (f : B -> A -> M S B)
  (xs : list A) :
  (forall b x, preserves P (f b x)) -> forall b, preserves P (foldM f xs b).
Proof.
  intros Hf. induction xs as [|x xs IH]; intros b; simpl; [apply preserves_ret|].
  apply preserves_bind; [apply Hf|]. intros b'. apply IH.
Qed.
End PreservesFacts.

(** One step of a proof that a traversal keeps an invariant of the state,
    which [IH] gives for its recursive calls. *)
Ltac preserves_step IH :=
  match goal with
  | |- preserves _ (Run.ret _) => apply preserves_ret
  | |- preserves _ (Run.throw _) => apply preserves_throw
  | |- preserves _ (Run.lift _) => apply preserves_lift
  | |- preserves _ (Run.bind _ _) => apply preserves_bind; [|intros ?]
  | |- preserves _ (Run.mapM _ _) =>
      apply preserves_mapM;
      let x := fresh "x" in
      intros x;
      match type of x with
      | (_ * _)%type => destruct x
      | _ => idtac
      end
  | |- preserves _ (Run.foldM _ _ _) =>
      apply preserves_foldM;
      let b := fresh "b" in
      let x := fresh "x" in
      intros b x; destruct b; destruct x
  | |- preserves _ (match ?x with _ => _ end) => destruct x
  | |- preserves _ (if ?b then _ else _) => destruct b
  | |- preserves _ _ => apply IH
  end.


Section GrowsFacts.
Import Run.
Context {S : Type} (R : S -> S -> Prop).
Hypothesis R_refl : forall s, R s s.
Hypothesis R_trans : forall a b c, R a b -> R b c -> R a c.

Lemma grows_ret {A : Type} (a : A) : grows R (@ret S A a).
Proof. intros s a' s' H. injection H as _ <-. apply R_refl. Qed.

Lemma grows_throw {A : Type} (e : error) : grows R (@throw S A e).
Proof. intros s a s' H. discriminate. Qed.

Lemma grows_lift {A : Type} (r : result A) : grows R (@lift S A r).
Proof.
  intros s a s' H. unfold lift in H. destruct r; [|discriminate].
  injection H as _ <-. apply R_refl.
Qed.

Lemma grows_modify (f : S -> S) : (forall s, R s (f s)) -> grows R (modify f).
Proof. intros Hf s a s' H. injection H as _ <-. apply Hf. Qed.

Lemma grows_bind {A B : Type} (m : M S A) (k : A -> M S B) :
  grows R m -> (forall a, grows R (k a)) -> grows R (bind m k).
Proof.
  intros Hm Hk s b s' H. unfold bind in H.
  destruct (m s) as [[a s1]|e] eqn:E; [|discriminate].
  eapply R_trans; [eapply Hm; exact E|eapply Hk; exact H].
Qed.

Lemma grows_mapM {A B : Type} (f : A -> M S B) (xs : list A) :
  (forall x, grows R (f x)) -> grows R (mapM f xs).
Proof.
  intros Hf. induction xs as [|x xs IH]; simpl; [apply grows_ret|].
  apply grows_bind; [apply Hf|]. intros b.
  apply grows_bind; [exact IH|]. intros bs. apply grows_ret.
Qed.

Lemma grows_foldM {A B : Type} (f : B -> A -> M S B) (xs : list A) :
  (forall b x, grows R (f b x)) -> forall b, grows R (foldM f xs b).
Proof.
  intros Hf. induction xs as [|x xs IH]; intros b; simpl; [apply grows_ret|].
  apply grows_bind; [apply Hf|]. intros b'. apply IH.
Qed.
End GrowsFacts.

Ltac grows_step IH :=
  match goal with
  | |- grows _ (Run.ret _) => apply grows_ret; try assumption
  | |- grows _ (Run.throw _) => apply grows_throw
  | |- grows _ (Run.lift _) => apply grows_lift; try assumption
  | |- grows _ (Run.bind _ _) => apply grows_bind; [try assumption| |intros ?]
  | |- grows _ (Run.mapM _ _) =>
      apply grows_mapM; [try assumption|try assumption|];
      let x := fresh "x" in
      intros x;
      match type of x with
      | (_ * _)%type => destruct x
      | _ => idtac
      end
  | |- grows _ (Run.foldM _ _ _) =>
      apply grows_foldM; [try assumption|try assumption|];
      let b := fresh "b" in
      let x := fresh "x" in
      intros b x; destruct b; destruct x
  | |- grows _ (match ?x with _ => _ end) => destruct x
  | |- grows _ (if ?b then _ else _) => destruct b
  | |- grows _ _ => apply IH
  end.


Section RaisesFacts.
Import Run.
Context {S : Type} (P : error -> Prop).

Lemma raisesOnly_ret {A : Type} (a : A) : raisesOnly P (@ret S A a).
Proof. intros s e H. discriminate. Qed.

Lemma raisesOnly_throw {A : Type} (e : error) : P e -> raisesOnly P (@throw S A e).
Proof. intros He s e' H. injection H as <-. exact He. Qed.

Lemma raisesOnly_modify (f : S -> S) : raisesOnly P (modify f).
Proof. intros s e H. discriminate. Qed.

Lemma raisesOnly_lift {A : Type} (r : result A) :
  (forall e, r = Err e -> P e) -> raisesOnly P (@lift S A r).
Proof.
  intros Hr s e H. unfold lift in H. destruct r; [discriminate|].
  injection H as <-. apply Hr. reflexivity.
Qed.

Lemma raisesOnly_bind {A B : Type} (m : M S A) (k : A -> M S B) :
  raisesOnly P m -> (forall a, raisesOnly P (k a)) -> raisesOnly P (bind m k).
Proof.
  intros Hm Hk s e H. unfold bind in H.
  destruct (m s) as [[a s1]|e1] eqn:E.
  - eapply Hk. exact H.
  - injection H as <-. eapply Hm. exact E.
Qed.

(** The same, with what [m] can return known. *)
Lemma raisesOnly_bind_of {A B : Type} (m : M S A) (k : A -> M S B) :
  raisesOnly P m -> (forall a s s', m s = Ok (a, s') -> raisesOnly P (k a)) ->
  raisesOnly P (bind m k).
Proof.
  intros Hm Hk s e H. unfold bind in H.
  destruct (m s) as [[a s1]|e1] eqn:E.
  - eapply Hk; [exact E|exact H].
  - injection H as <-. eapply Hm. exact E.
Qed.

Lemma raisesOnly_mapM {A B : Type} (f : A -> M S B) (xs : list A) :
  (forall x, In x xs -> raisesOnly P (f x)) -> raisesOnly P (mapM f xs).
Proof.
  induction xs as [|x xs IH]; intros Hf; simpl; [apply raisesOnly_ret|].
  apply raisesOnly_bind; [apply Hf; left; reflexivity|]. intros b.
  apply raisesOnly_bind; [|intros bs; apply raisesOnly_ret].
  apply IH. intros y Hy. apply Hf. right. exact Hy.
Qed.

Lemma raisesOnly_foldM {A B : Type} (f : B -> A -> M S B) (xs : list A) :
  (forall b x, raisesOnly P (f b x)) -> forall b, raisesOnly P (foldM f xs b).
Proof.
  intros Hf. induction xs as [|x xs IH]; intros b; simpl; [apply raisesOnly_ret|].
  apply raisesOnly_bind; [apply Hf|]. intros b'. apply IH.
Qed.
End RaisesFacts.

Ltac raises_step IH :=
  match goal with
  | |- raisesOnly _ (Run.ret _) => apply raisesOnly_ret
  | |- raisesOnly _ (Run.modify _) => apply raisesOnly_modify
  | |- raisesOnly _ (Run.bind _ _) => apply raisesOnly_bind; [|intros ?]
  | |- raisesOnly _ (Run.mapM _ _) =>
      apply raisesOnly_mapM;
      let x := fresh "x" in
      intros x ?;
      match type of x with
      | (_ * _)%type => destruct x
      | _ => idtac
      end
  | |- raisesOnly _ (Run.foldM _ _ _) =>
      apply raisesOnly_foldM;
      let b := fresh "b" in
      let x := fresh "x" in
      intros b x; destruct b; destruct x
  | |- raisesOnly _ (match ?x with _ => _ end) => destruct x eqn:?
  | |- raisesOnly _ (if ?b then _ else _) => destruct b eqn:?
  | |- raisesOnly _ _ => apply IH
  end.


Section MapMRaises.
Import Run.

Lemma mapM_raises {S A B : Type} (f : A -> M S B) (xs : list A) (s : S) (e : error) :
  mapM f xs s = Err e -> exists x s', In x xs /\ f x s' = Err e.
Proof.
  revert s. induction xs as [|x xs IH]; intros s; simpl; [discriminate|].
  unfold bind. destruct (f x s) as [[b s1]|e1] eqn:E.
  - destruct (mapM f xs s1) as [[bs s2]|e2] eqn:Exs; [discriminate|].
    intros H. injection H as <-. destruct (IH _ Exs) as [y [s' [Hy Hf]]].
    exists y, s'. auto.
  - intros H. injection H as <-. exists x, s. auto.
Qed.
End MapMRaises.

Section YieldsFacts.
Import Run.
Context {S : Type}.

Lemma yields_ret {A : Type} (Q : A -> Prop) (a : A) : Q a -> yields Q (@ret S A a).
Proof. intros Ha s a' s' H. injection H as <- _. exact Ha. Qed.

Lemma yields_throw {A : Type} (Q : A -> Prop) (e : error) : yields Q (@throw S A e).
Proof. intros s a s' H. discriminate. Qed.

Lemma yields_bind {A B : Type} (Qa : A -> Prop) (Q : B -> Prop) (m : M S A)
  (k : A -> M S B) :
  yields Qa m -> (forall a, Qa a -> yields Q (k a)) -> yields Q (bind m k).
Proof.
  intros Hm Hk s b s' H. unfold bind in H.
  destruct (m s) as [[a s1]|e] eqn:E; [|discriminate].
  eapply Hk; [eapply Hm; exact E|exact H].
Qed.

Lemma yields_lift {A : Type} (Q : A -> Prop) (r : result A) :
  (forall a, r = Ok a -> Q a) -> yields Q (@lift S A r).
Proof.
  intros Hr s a s' H. unfold lift in H. destruct r as [a0|e]; [|discriminate].
  injection H as <- _. apply Hr. reflexivity.
Qed.

Lemma yields_any {A : Type} (m : M S A) : yields (fun _ => True) m.
Proof. intros s a s' _. exact I. Qed.

Lemma yields_mapM {A B : Type} (Q : B -> Prop) (f : A -> M S B) (xs : list A) :
  (forall x, yields Q (f x)) -> yields (Forall Q) (mapM f xs).
Proof.
  intros Hf. induction xs as [|x xs IH]; simpl; [apply yields_ret; constructor|].
  eapply yields_bind; [apply Hf|]. intros b Hb.
  eapply yields_bind; [exact IH|]. intros bs Hbs. apply yields_ret.
  constructor; assumption.
Qed.

Lemma yields_foldM {A B : Type} (I : B -> Prop) (f : B -> A -> M S B) (xs : list A) :
  (forall b x, I b -> yields I (f b x)) -> forall b, I b -> yields I (foldM f xs b).
Proof.
  intros Hf. induction xs as [|x xs IH]; intros b Hb; simpl; [apply yields_ret; exact Hb|].
  eapply yields_bind; [apply Hf; exact Hb|]. intros b' Hb'. apply IH. exact Hb'.
Qed.
End YieldsFacts.

(** Case analysis on the outcome of the first step of a run. *)
Ltac run_cases :=
  match goal with
  | |- match ?m with Run.Ok _ => _ | Run.Err _ => _ end = _ -> _ =>
      destruct m as [[? ?]|?]; [unfold Run.ret|discriminate]
  end.


(** ** [generateJSX]: props and slots *)

Section CleanedProps.
Import Js Run Jsx.



End CleanedProps.

Section Bookkeeping.
Import Js Run Jsx.

Lemma delete_comm {A : Type} (k k' : string) (es : list (string * A)) :
  delete k (delete k' es) = delete k' (delete k es).
Proof.
  rewrite !delete_filter, !filter_filter. apply filter_ext.
  intros e. apply andb_comm.
Qed.

Lemma delete_delete {A : Type} (k : string) (es : list (string * A)) :
  delete k (delete k es) = delete k es.
Proof.
  rewrite !delete_filter, !filter_filter. apply filter_ext.
  intros e. apply andb_diag.
Qed.

Lemma splitSlots_without_bookkeeping (slotNames : list string) (props : object) :
  ~ In "id" slotNames ->
  ~ In "puck" slotNames ->
  splitSlots slotNames (delete "puck" (delete "id" props))
  = (fst (splitSlots slotNames props),
     delete "puck" (delete "id" (snd (splitSlots slotNames props)))).
Proof.
  unfold splitSlots. generalize (@nil (string * list value)) as acc. revert props.
  induction slotNames as [|name rest IH]; intros props acc Hid Hpuck; [reflexivity|].
  assert (Hname : name <> "id" /\ name <> "puck").
  { split; intros ->; [apply Hid|apply Hpuck]; left; reflexivity. }
  destruct Hname as [Hn1 Hn2].
  cbn [fold_left].
  rewrite !get_delete_neq by assumption.
  rewrite (delete_comm name "puck"), (delete_comm name "id").
  apply IH; intros H; [apply Hid|apply Hpuck]; right; exact H.
Qed.

(** X2.  [renderNode] renders a node that has [id] and [puck] among its
    props as it renders the node without them, provided that neither names
    a slot field of the component. *)
Theorem renderNode_ignores_id_and_puck (fuel : nat) (context : RenderContext)
  (type : string) (props : object) (depth : Z) (registry : ImportRegistry)
  (componentConfig : ComponentConfig) :
  lookup type (components (ctxConfig context)) = Some componentConfig ->
  ~ In "id" (getSlotFieldNames (fields componentConfig)) ->
  ~ In "puck" (getSlotFieldNames (fields componentConfig)) ->
  renderNode fuel context (node type (delete "puck" (delete "id" props))) depth registry
  = renderNode fuel context (node type props) depth registry.
Proof.
  intros Hconfig Hid Hpuck. destruct fuel as [|fuel]; [reflexivity|].
  apply componentConfigOf_own in Hconfig.
  unfold node. cbn [renderNode prop get lookup String.eqb Ascii.eqb Bool.eqb toStr].
  rewrite Hconfig. destruct (skipped componentConfig); [reflexivity|].
  cbn [truthy spread entries].
  rewrite (splitSlots_without_bookkeeping _ _ Hid Hpuck).
  destruct (splitSlots (getSlotFieldNames (fields componentConfig)) props)
    as [slotContent props'].
  cbn [fst snd].
  rewrite (delete_comm "id" "puck" (delete "id" props')), !delete_delete.
  reflexivity.
Qed.
End Bookkeeping.

Section SlotEntryFacts.
Import Js Run Jsx.


End SlotEntryFacts.

Section SlotNames.
Import Js Run Jsx.

(** X4.  The slot field names of a schema with distinct field names are
    distinct, and they are the names of the fields whose descriptor has the
    type slot: the test that generate-react.ts makes field by field. *)
Theorem getSlotFieldNames_distinct (fields : Types.Fields) :
  distinctKeys fields ->
  NoDup (getSlotFieldNames (Some fields))
  /\ forall name,
       In name (getSlotFieldNames (Some fields))
       <-> Types.isSlot (lookup name fields) = true.
Proof.
  intros Hnd. unfold getSlotFieldNames. split.
  - apply NoDup_map_filter. exact Hnd.
  - intros name. rewrite in_map_iff. split.
    + intros [[k field] [Hk Hin]]. simpl in Hk. subst k.
      apply filter_In in Hin. destruct Hin as [Hin Hslot].
      rewrite (In_lookup _ _ _ Hnd Hin). exact Hslot.
    + unfold Types.isSlot. destruct (lookup name fields) as [field|] eqn:E;
        [|discriminate].
      intros Hslot. exists (name, field). split; [reflexivity|].
      apply filter_In. split; [apply lookup_In; exact E|exact Hslot].
Qed.

(** X4 at a schema with a text field and two slot fields. *)
Lemma getSlotFieldNames_distinct_witness :
  NoDup (getSlotFieldNames (Some [("title", textField); ("actions", slotField);
                                  ("children", slotField)]))
  /\ forall name,
       In name (getSlotFieldNames (Some [("title", textField); ("actions", slotField);
                                         ("children", slotField)]))
       <-> Types.isSlot (lookup name [("title", textField); ("actions", slotField);
                                      ("children", slotField)]) = true.
Proof.
  apply (getSlotFieldNames_distinct [("title", textField); ("actions", slotField);
                                     ("children", slotField)]).
  repeat constructor; simpl; intuition discriminate.
Defined.
End SlotNames.

(** ** [generateJSX]: the rendered text *)

Section RenderedText.
Import Js Run Jsx.

Lemma renderNode_outcome (fuel : nat) (context : RenderContext) (item : value)
  (depth : Z) (registry registry' : ImportRegistry) (out : option string) :
  renderNode fuel context item depth registry = Ok (out, registry') ->
  exists type componentConfig,
    prop "type" item = Some type
    /\ componentConfigOf (ctxConfig context) (toStr type) = Some componentConfig
    /\ match out with
       | None =>
           lookup (toStr type) (components (ctxConfig context)) = Some componentConfig
           /\ skipped componentConfig = true /\ registry' = registry
       | Some text =>
           skipped componentConfig = false
           /\ exists name attributes children,
                text = buildElement name attributes children depth
                         (ctxIndentSize context)
       end.
Proof.
  destruct fuel as [|fuel]; [discriminate|]. simpl.
  destruct (prop "type" item) as [type|] eqn:Etype; [|discriminate].
  destruct (componentConfigOf (ctxConfig context) (toStr type))
    as [componentConfig|] eqn:Econfig; [|discriminate].
  intros H. exists type, componentConfig. split; [reflexivity|]. split; [exact Econfig|].
  destruct (skipped componentConfig) eqn:Eskip.
  - injection H as <- <-. split; [|auto].
    destruct (componentConfigOf_cases _ _ _ Econfig) as [Hown|[_ [_ ->]]];
      [exact Hown|discriminate].
  - destruct (splitSlots _ _) as [slotContent props'].
    unfold bind in H.
    repeat match type of H with
           | match ?m with Ok _ => _ | Err _ => _ end = _ =>
               destruct m as [[? ?]|?]; [|discriminate]
           end.
    unfold ret in H. injection H as <- _. split; [reflexivity|]. eauto.
Qed.
End RenderedText.

Section BlankFacts.
Import Js Run Jsx.

Lemma trimEnd_first (c : ascii) (r : string) :
  isWhiteSpace c = false -> exists r', trimEnd (String c r) = String c r'.
Proof.
  intros Hc. simpl. destruct (trimEnd r) as [|c' r'']; [rewrite Hc|]; eauto.
Qed.

Lemma trimEnd_app (a b : string) :
  trimEnd b <> EmptyString -> trimEnd (a ++ b) = a ++ trimEnd b.
Proof.
  intros Hb. induction a as [|c a IH]; simpl; [reflexivity|].
  rewrite IH. destruct (a ++ trimEnd b) eqn:E; [|reflexivity].
  destruct a; simpl in E; [contradiction|discriminate].
Qed.

Lemma trimStart_not_blank (a r : string) (c : ascii) :
  isWhiteSpace c = false -> trimStart (a ++ String c r) <> EmptyString.
Proof.
  intros Hc. induction a as [|x a IH]; simpl.
  - rewrite Hc. discriminate.
  - destruct (isWhiteSpace x); [exact IH|discriminate].
Qed.

Lemma trim_not_blank (a r : string) (c : ascii) :
  isWhiteSpace c = false -> isEmpty (trim (a ++ String c r)) = false.
Proof.
  intros Hc. unfold trim. destruct (trimEnd_first c r Hc) as [r' Hr'].
  rewrite trimEnd_app by (rewrite Hr'; discriminate).
  rewrite Hr'. apply isEmpty_false. apply trimStart_not_blank. exact Hc.
Qed.

Lemma buildElement_not_blank (name : string) (attributes : list string)
  (children : string) (depth : Z) (indentSize : nat) :
  isEmpty (trim (buildElement name attributes children depth indentSize)) = false.
Proof.
  unfold buildElement. destruct (isEmpty (trim children)).
  - apply (trim_not_blank (indent depth indentSize) _ "<"%char). reflexivity.
  - apply (trim_not_blank (indent depth indentSize) _ "<"%char). reflexivity.
Qed.

(** X5.  [renderNode] returns [null] only for a node whose config, an own
    entry of the component table, is marked [skip], and then leaves the
    registry as it was; for every other node that it renders, under the
    config that it read for the type, it returns text that is not blank. *)
Theorem renderNode_null_only_when_skipped (fuel : nat) (context : RenderContext)
  (item : value) (depth : Z) (registry registry' : ImportRegistry)
  (out : option string) :
  renderNode fuel context item depth registry = Ok (out, registry') ->
  exists type componentConfig,
    prop "type" item = Some type
    /\ componentConfigOf (ctxConfig context) (toStr type) = Some componentConfig
    /\ match out with
       | None =>
           lookup (toStr type) (components (ctxConfig context)) = Some componentConfig
           /\ skipped componentConfig = true /\ registry' = registry
       | Some text => skipped componentConfig = false /\ isEmpty (trim text) = false
       end.
Proof.
  intros H. destruct (renderNode_outcome _ _ _ _ _ _ _ H)
    as [type [componentConfig [Htype [Hconfig Hout]]]].
  exists type, componentConfig. split; [exact Htype|]. split; [exact Hconfig|].
  destruct out as [text|]; [|exact Hout].
  destruct Hout as [Hskip [name [attributes [children ->]]]].
  split; [exact Hskip|]. apply buildElement_not_blank.
Qed.
End BlankFacts.

Section BlankText.
Import Js Run Jsx.

Lemma trimEnd_blank (s : string) : trimEnd s = EmptyString <-> blank s = true.
Proof.
  induction s as [|c r IH]; simpl; [tauto|].
  destruct (trimEnd r) as [|c' r'] eqn:E.
  - destruct (isWhiteSpace c); simpl; [tauto|]. split; discriminate.
  - split; [discriminate|]. intros H. apply andb_true_iff in H.
    destruct H as [_ H]. apply IH in H. discriminate.
Qed.

Lemma trimStart_blank (s : string) : trimStart s = EmptyString -> blank s = true.
Proof.
  induction s as [|c r IH]; simpl; [reflexivity|].
  destruct (isWhiteSpace c); [exact IH|discriminate].
Qed.

Lemma blank_trimEnd (s : string) : blank (trimEnd s) = true -> trimEnd s = EmptyString.
Proof.
  induction s as [|c r IH]; simpl; [reflexivity|].
  destruct (trimEnd r) as [|c' r'] eqn:E.
  - destruct (isWhiteSpace c) eqn:Ec; [reflexivity|]. simpl. rewrite Ec. discriminate.
  - intros H. change (blank (String c (String c' r')))
      with (isWhiteSpace c && blank (String c' r')) in H.
    apply andb_true_iff in H. destruct H as [_ H]. specialize (IH H). discriminate.
Qed.

Lemma trim_blank (s : string) : isEmpty (trim s) = blank s.
Proof.
  destruct (blank s) eqn:E.
  - apply trimEnd_blank in E. unfold trim. rewrite E. reflexivity.
  - destruct (isEmpty (trim s)) eqn:Et; [|reflexivity].
    apply isEmpty_true in Et. unfold trim in Et.
    apply trimStart_blank, blank_trimEnd, trimEnd_blank in Et. congruence.
Qed.

Lemma blank_app (a b : string) : blank (a ++ b) = blank a && blank b.
Proof.
  induction a as [|c a IH]; simpl; [reflexivity|]. rewrite IH. apply andb_assoc.
Qed.

Lemma blank_join (sep : string) (xs : list string) (x : string) :
  In x xs -> blank (join sep xs) = true -> blank x = true.
Proof.
  induction xs as [|y ys IH]; [contradiction|]. intros Hin.
  destruct ys as [|z zs].
  - destruct Hin as [->|[]]. simpl. auto.
  - change (join sep (y :: z :: zs)) with (y ++ sep ++ join sep (z :: zs)).
    rewrite !blank_app. intros H. apply andb_true_iff in H. destruct H as [Hy H].
    apply andb_true_iff in H. destruct H as [_ H].
    destruct Hin as [->|Hin]; [exact Hy|]. apply IH; assumption.
Qed.

Lemma append_cancel (a x y : string) : a ++ x = a ++ y -> x = y.
Proof.
  induction a as [|c a IH]; simpl; [auto|]. intros H. injection H as H. auto.
Qed.

Lemma filterBoolean_In (nodes : list (option string)) (text : string) :
  In (Some text) nodes -> text <> EmptyString -> In text (filterBoolean nodes).
Proof.
  intros Hin Hne. unfold filterBoolean. apply in_flat_map. exists (Some text).
  split; [exact Hin|]. rewrite (isEmpty_false _ Hne). left. reflexivity.
Qed.

Lemma filterBoolean_none (nodes : list (option string)) :
  Forall (fun node => node = None) nodes -> filterBoolean nodes = [].
Proof.
  induction 1 as [|node nodes -> Hrest IH]; [reflexivity|]. exact IH.
Qed.

(** X6.  The page that [generateJSX] returns is the empty fragment exactly
    when every top-level node is of a type marked [skip] (in particular
    when there is none). *)
Theorem generateJSX_empty_fragment (localeCompare : string -> string -> comparison)
  (options : GenerateJSXOptions) (tree : GeneratedTree) :
  generateJSX localeCompare options = Ok tree ->
  jsx tree
  = indent (match baseDepth options with Some d => d | None => 0%Z end)
           (match indentSize options with Some n => n | None => 2 end) ++ "<></>"
  <-> forall item,
        In item (match Types.content (data options) with Some c => c | None => [] end) ->
        skippedNode (config options) item.
Proof.
  unfold generateJSX, renderContent. rewrite renderContentWith_eq.
  set (content := match Types.content (data options) with Some c => c | None => [] end).
  set (context := {| ctxConfig := config options;
                     ctxIndentSize := match indentSize options with
                                      | Some n => n
                                      | None => 2
                                      end |}).
  match goal with
  | |- context [mapM ?f content ?s] =>
      destruct (mapM f content s) as [[nodes registry]|e] eqn:E
  end; [|discriminate].
  apply mapM_Forall2 in E.
  assert (Hnodes :
            Forall2 (fun item node =>
                       match node with
                       | None => skippedNode (config options) item
                       | Some text =>
                           ~ skippedNode (config options) item /\ blank text = false
                       end) content nodes).
  { eapply Forall2_impl; [|exact E]. intros item node [s1 [s2 Hrun]].
    apply renderNode_outcome in Hrun.
    destruct Hrun as [type [componentConfig [Htype [Hconfig Hout]]]].
    destruct node as [text|].
    - destruct Hout as [Hskip [name [attributes [children ->]]]]. split.
      + intros [type' [componentConfig' [Htype' [Hconfig' Hskip']]]].
        apply componentConfigOf_own in Hconfig'.
        cbn [ctxConfig context] in Hconfig. congruence.
      + rewrite <- trim_blank. apply buildElement_not_blank.
    - destruct Hout as [Hown [Hskip _]]. exists type, componentConfig. auto. }
  clear E. intros H. injection H as <-. cbn [jsx]. split.
  - intros Hjsx.
    destruct (negb (isEmpty (trim (join nl (filterBoolean nodes))))) eqn:Ebody.
    { apply append_cancel in Hjsx. discriminate. }
    apply negb_false_iff in Ebody. rewrite trim_blank in Ebody.
    intros item Hin.
    induction Hnodes as [|x node xs nodes' Hx Hxs IH]; [contradiction|].
    assert (Hnode : node = None).
    { destruct node as [text|]; [|reflexivity]. exfalso.
      destruct Hx as [_ Hblank].
      assert (Htext : In text (filterBoolean (Some text :: nodes'))).
      { apply filterBoolean_In; [left; reflexivity|].
        intros ->. discriminate. }
      rewrite (blank_join _ _ _ Htext Ebody) in Hblank. discriminate. }
    subst node. destruct Hin as [->|Hin]; [exact Hx|]. apply IH; assumption.
  - intros Hskipped.
    assert (Hnone : Forall (fun node => node = None) nodes).
    { induction Hnodes as [|x node xs nodes' Hx Hxs IH]; constructor.
      - destruct node as [text|]; [|reflexivity]. exfalso.
        destruct Hx as [Hnot _]. apply Hnot. apply Hskipped. left. reflexivity.
      - apply IH. intros item Hin. apply Hskipped. right. exact Hin. }
    rewrite (filterBoolean_none _ Hnone). reflexivity.
Qed.
End BlankText.

Section AttributeFacts.
Import Js Run Jsx.

End AttributeFacts.

Section TrimmedFacts.
Import Js Run Jsx.

Lemma trimEnd_idempotent (s : string) : trimEnd (trimEnd s) = trimEnd s.
Proof.
  induction s as [|c r IH]; [reflexivity|]. cbn [trimEnd].
  destruct (trimEnd r) as [|c' r'] eqn:E.
  - destruct (isWhiteSpace c) eqn:Ec; [reflexivity|]. cbn [trimEnd]. rewrite Ec. reflexivity.
  - cbn [trimEnd]. cbn [trimEnd] in IH. rewrite IH. reflexivity.
Qed.

Lemma trimStart_idempotent (s : string) : trimStart (trimStart s) = trimStart s.
Proof.
  induction s as [|c r IH]; [reflexivity|]. cbn [trimStart].
  destruct (isWhiteSpace c) eqn:Ec; [exact IH|]. cbn [trimStart]. rewrite Ec. reflexivity.
Qed.

Lemma trimEnd_trimStart (s : string) :
  trimEnd s = s -> trimEnd (trimStart s) = trimStart s.
Proof.
  induction s as [|c r IH]; [reflexivity|]. intros H. cbn [trimStart].
  destruct (isWhiteSpace c) eqn:Ec; [|exact H].
  apply IH. cbn [trimEnd] in H. destruct (trimEnd r) as [|c' r'].
  - rewrite Ec in H. discriminate.
  - injection H as H. exact H.
Qed.

(** X8.  The code that [codegenExpression] wraps never ends in white
    space, and code of a single line does not start with white space
    either; what it returns is recognised by [isCodegenExpression]. *)
Theorem codegenExpression_trimmed (code : string) :
  exists payload,
    codegenExpression code = VObj [("__codegen", VStr payload)]
    /\ trimEnd payload = payload
    /\ (includesLF code = false -> trimStart payload = payload)
    /\ isCodegenExpression (codegenExpression code) = true.
Proof.
  unfold codegenExpression. destruct (includesLF code).
  - exists (trimEnd code). split; [reflexivity|].
    split; [apply trimEnd_idempotent|]. split; [discriminate|reflexivity].
  - exists (trim code). split; [reflexivity|]. unfold trim.
    split; [apply trimEnd_trimStart, trimEnd_idempotent|].
    split; [intros _; apply trimStart_idempotent|reflexivity].
Qed.
End TrimmedFacts.

Section IndentFacts.
Import Js Run Jsx.

(** Splitting into lines and joining again gives the text back. *)
Lemma join_splitLF (s : string) : join nl (splitLF s) = s.
Proof.
  induction s as [|c r IH]; [reflexivity|]. cbn [splitLF].
  destruct (Ascii.eqb_spec c LF) as [->|Hc].
  - destruct (splitLF r) as [|l ls] eqn:E; [exact (False_ind _ (splitLF_nonempty _ E))|].
    change (join nl (EmptyString :: l :: ls)) with (nl ++ join nl (l :: ls)).
    rewrite IH. reflexivity.
  - destruct (splitLF r) as [|l ls] eqn:E; [exact (False_ind _ (splitLF_nonempty _ E))|].
    rewrite <- IH. destruct ls; reflexivity.
Qed.


Lemma indent_spaces (depth : Z) (indentSize : nat) :
  indent depth indentSize = Js.repeat " " (Z.to_nat depth * indentSize).
Proof.
  unfold indent. destruct (Z.leb_spec depth 0) as [H|H]; [|reflexivity].
  replace (Z.to_nat depth) with 0 by lia. reflexivity.
Qed.




Lemma indentLines_without_padding (code : string) (depth : Z) (indentSize : nat) :
  indent depth indentSize = EmptyString -> indentLines code depth indentSize = code.
Proof.
  intros Hpad. unfold indentLines. destruct (isEmpty code); [reflexivity|].
  rewrite Hpad. rewrite <- (join_splitLF code) at 2. f_equal.
  rewrite <- (map_id (splitLF code)) at 2. apply map_ext.
  intros line. destruct (isEmpty line); reflexivity.
Qed.

(** X9.  At a depth of zero or below, or with an indent size of zero,
    [indentLines] returns the code as it is. *)
Theorem indentLines_identity (code : string) (depth : Z) (indentSize : nat) :
  (depth <= 0)%Z \/ indentSize = 0 ->
  indentLines code depth indentSize = code.
Proof.
  intros H. apply indentLines_without_padding.
  rewrite indent_spaces. destruct H as [H| ->].
  - replace (Z.to_nat depth) with 0 by lia. reflexivity.
  - rewrite Nat.mul_0_r. reflexivity.
Qed.

(** X10.  On code that is not blank, [shiftIndent] from one depth to
    another is [indentLines] by the difference of the depths. *)
Theorem shiftIndent_indentLines (code : string) (fromDepth toDepth : Z)
  (indentSize : nat) :
  isEmpty (trim code) = false ->
  shiftIndent code fromDepth toDepth indentSize
  = indentLines code (toDepth - fromDepth) indentSize.
Proof.
  intros Hcode. unfold shiftIndent. rewrite Hcode.
  assert (Hne : isEmpty code = false) by (destruct code; [discriminate|reflexivity]).
  rewrite Hne. cbn [orb].
  destruct (Z.leb_spec toDepth fromDepth) as [Hle|Hlt].
  - symmetry. apply indentLines_without_padding.
    unfold indent. destruct (Z.leb_spec (toDepth - fromDepth) 0); [reflexivity|lia].
  - unfold indentLines. rewrite Hne. reflexivity.
Qed.

End IndentFacts.

(** ** [generateJSX]: imports and errors *)

Section UniqueImports.
Import Js Run Jsx.

Lemma registerSpec_wellKeyed (registry : ImportRegistry) (spec : ComponentCodegenImport) :
  wellKeyed registry -> wellKeyed (registerSpec registry spec).
Proof.
  intros [Hkeys Hnamed]. unfold registerSpec.
  set (next := match lookup (specPath spec) registry with
               | Some e => e
               | None => {| entryDefault := None; entryNamed := [] |}
               end).
  assert (Hnext : distinctKeys (entryNamed next)).
  { unfold next. destruct (lookup (specPath spec) registry) as [e|] eqn:E.
    - apply (lookup_Forall _ _ _ _ Hnamed E).
    - constructor. }
  split; [apply set_distinctKeys; exact Hkeys|].
  apply set_Forall; [|exact Hnamed]. cbn [snd].
  destruct spec as [p name alias|p d]; cbn [entryNamed].
  - apply set_distinctKeys. exact Hnext.
  - destruct (negb (given (entryDefault next))); exact Hnext.
Qed.

Lemma registerImport_wellKeyed (registry : ImportRegistry) (importConfig : ImportConfig) :
  wellKeyed registry -> wellKeyed (registerImport registry importConfig).
Proof.
  assert (Hfold : forall specs r, wellKeyed r -> wellKeyed (fold_left registerSpec specs r)).
  { induction specs as [|spec specs IH]; intros r Hr; [exact Hr|].
    simpl. apply IH. apply registerSpec_wellKeyed. exact Hr. }
  intros H. destruct importConfig as [|spec|specs]; simpl.
  - exact H.
  - apply registerSpec_wellKeyed. exact H.
  - apply Hfold. exact H.
Qed.

Lemma renderNode_wellKeyed (context : RenderContext) (fuel : nat) :
  forall item depth, preserves wellKeyed (renderNode fuel context item depth).
Proof.
  induction fuel as [|fuel IH]; intros item depth; [apply preserves_throw|].
  simpl. unfold renderContentWith.
  repeat first
    [ apply preserves_modify; intros ? ?; apply registerImport_wellKeyed; assumption
    | preserves_step IH ].
Qed.
End UniqueImports.

Section UniqueFinalized.
Import Js Run Jsx.
Variable localeCompare : string -> string -> comparison.

Lemma formatImports_distinct (registry : ImportRegistry) :
  wellKeyed registry ->
  NoDup (map path (formatImports localeCompare registry))
  /\ Forall (fun entry => distinctKeys (named entry))
            (formatImports localeCompare registry).
Proof.
  intros [Hkeys Hnamed]. unfold formatImports. split.
  - eapply Permutation_NoDup; [apply Permutation_map; apply sort_perm|].
    rewrite map_map. cbn [path].
    apply NoDup_map_filter. rewrite map_map.
    unfold distinctKeys in Hkeys.
    erewrite map_ext; [exact Hkeys|]. intros [p spec]. reflexivity.
  - rewrite Forall_forall. intros entry Hin.
    apply sort_In in Hin. apply in_map_iff in Hin.
    destruct Hin as [kept [<- Hkept]]. cbn [named].
    apply sort_distinctKeys.
    apply filter_In in Hkept. destruct Hkept as [Hkept _].
    apply in_map_iff in Hkept. destruct Hkept as [[p spec] [<- Hspec]]. cbn [named].
    rewrite Forall_forall in Hnamed. apply (Hnamed _ Hspec).
Qed.

(** X12.  The imports that [generateJSX] returns hold no path twice and,
    within an entry, no exported name twice. *)
Theorem generateJSX_imports_distinct (options : GenerateJSXOptions)
  (tree : GeneratedTree) :
  generateJSX localeCompare options = Ok tree ->
  NoDup (map path (imports tree))
  /\ Forall (fun entry => NoDup (map fst (named entry))) (imports tree).
Proof.
  unfold generateJSX, renderContent.
  set (content := match Types.content (data options) with Some c => c | None => [] end).
  match goal with
  | |- context [renderContentWith ?f content ?s] =>
      assert (Hkeeps : preserves wellKeyed (renderContentWith f content))
  end.
  { unfold renderContentWith. destruct content as [|item rest]; [apply preserves_ret|].
    apply preserves_bind; [|intros nodes; apply preserves_ret].
    apply preserves_mapM. intros x. apply renderNode_wellKeyed. }
  match goal with
  | |- context [renderContentWith ?f content ?s] =>
      destruct (renderContentWith f content s) as [[body registry]|e] eqn:E
  end; [|discriminate].
  intros H. injection H as <-. cbn [imports].
  apply formatImports_distinct. eapply Hkeeps; [|exact E].
  split; [constructor|constructor].
Qed.
End UniqueFinalized.

Section RegistryGrows.
Import Js Run Jsx.

Lemma entryExtends_refl (e : ImportEntry) : entryExtends e e.
Proof. split; auto. Qed.

Lemma entryExtends_trans (a b c : ImportEntry) :
  entryExtends a b -> entryExtends b c -> entryExtends a c.
Proof.
  intros [Hd1 Hn1] [Hd2 Hn2]. split.
  - intros Ha. rewrite <- (Hd1 Ha). apply Hd2. rewrite (Hd1 Ha). exact Ha.
  - intros name Hname. apply Hn2, Hn1, Hname.
Qed.

Lemma registryExtends_refl (r : ImportRegistry) : registryExtends r r.
Proof. intros p e He. exists e. split; [exact He|apply entryExtends_refl]. Qed.

Lemma registryExtends_trans (a b c : ImportRegistry) :
  registryExtends a b -> registryExtends b c -> registryExtends a c.
Proof.
  intros Hab Hbc p e He. destruct (Hab p e He) as [e1 [H1 Hx1]].
  destruct (Hbc p e1 H1) as [e2 [H2 Hx2]]. exists e2. split; [exact H2|].
  eapply entryExtends_trans; eassumption.
Qed.

Lemma has_set {A : Type} (k k' : string) (x : A) (es : list (string * A)) :
  has k es = true -> has k (set k' x es) = true.
Proof.
  unfold has. destruct (String.eqb_spec k k') as [->|Hne].
  - rewrite lookup_set_same. reflexivity.
  - rewrite lookup_set_other by assumption. auto.
Qed.

Lemma registerSpec_extends (registry : ImportRegistry) (spec : ComponentCodegenImport) :
  registryExtends registry (registerSpec registry spec).
Proof.
  intros p e He. unfold registerSpec.
  destruct (String.eqb_spec p (specPath spec)) as [->|Hne].
  - rewrite He, lookup_set_same. eexists. split; [reflexivity|].
    destruct spec as [p name alias|p d].
    + split; [reflexivity|]. cbn [entryNamed]. intros n Hn. apply has_set. exact Hn.
    + destruct (given (entryDefault e)) eqn:Eg; cbn [negb].
      * apply entryExtends_refl.
      * split; [congruence|auto].
  - rewrite lookup_set_other by assumption. exists e. split; [exact He|].
    apply entryExtends_refl.
Qed.

Lemma registerImport_extends (registry : ImportRegistry) (importConfig : ImportConfig) :
  registryExtends registry (registerImport registry importConfig).
Proof.
  assert (Hfold : forall specs r, registryExtends r (fold_left registerSpec specs r)).
  { induction specs as [|spec specs IH]; intros r; [apply registryExtends_refl|].
    simpl. eapply registryExtends_trans; [apply registerSpec_extends|apply IH]. }
  destruct importConfig as [|spec|specs]; simpl.
  - apply registryExtends_refl.
  - apply registerSpec_extends.
  - apply Hfold.
Qed.
End RegistryGrows.

Section RenderGrows.
Import Js Run Jsx.

(** X13.  Rendering a node loses no import: a path of the registry stays,
    with its default name if that is not empty (the first default name
    wins), and with each of its exported names. *)
Theorem renderNode_keeps_imports (context : RenderContext) (fuel : nat)
  (item : value) (depth : Z) (registry registry' : ImportRegistry)
  (out : option string) (p : string) (entry : ImportEntry) :
  renderNode fuel context item depth registry = Ok (out, registry') ->
  lookup p registry = Some entry ->
  exists entry',
    lookup p registry' = Some entry'
    /\ (given (entryDefault entry) = true -> entryDefault entry' = entryDefault entry)
    /\ (forall name, has name (entryNamed entry) = true ->
                     has name (entryNamed entry') = true).
Proof.
  intros Hrun Hentry.
  assert (Hrefl := registryExtends_refl). assert (Htrans := registryExtends_trans).
  assert (Hgrows : forall fuel item depth,
             grows registryExtends (renderNode fuel context item depth)).
  { clear - Hrefl Htrans. induction fuel as [|fuel IH]; intros item depth;
      [apply grows_throw|].
    simpl. unfold renderContentWith.
    repeat first
      [ apply grows_modify; intros ?; apply registerImport_extends
      | grows_step IH ]. }
  apply (Hgrows _ _ _ _ _ _ Hrun p entry Hentry).
Qed.
End RenderGrows.

Section FinalizedContent.
Import Js Run Jsx.
Variable localeCompare : string -> string -> comparison.

Lemma length_zero_nil {A : Type} (xs : list A) :
  negb (Nat.eqb (length xs) 0) = true <-> xs <> [].
Proof. destruct xs; simpl; split; congruence. Qed.

(** X14.  [formatImports] returns the entries of the registry that have a
    default name or a named specifier, and no other: each with its path,
    its default name and its named specifiers, the latter rearranged. *)
Theorem formatImports_exact (registry : ImportRegistry) :
  (forall p spec,
      In (p, spec) registry ->
      given (entryDefault spec) = true \/ entryNamed spec <> [] ->
      exists entry,
        In entry (formatImports localeCompare registry)
        /\ path entry = p /\ default entry = entryDefault spec
        /\ Permutation (entryNamed spec) (named entry))
  /\ (forall entry,
         In entry (formatImports localeCompare registry) ->
         exists spec,
           In (path entry, spec) registry
           /\ (given (entryDefault spec) = true \/ entryNamed spec <> [])
           /\ default entry = entryDefault spec
           /\ Permutation (entryNamed spec) (named entry)).
Proof.
  unfold formatImports. split.
  - intros p spec Hin Hkept.
    eexists. split.
    + apply sort_In. apply in_map_iff. eexists. split; [reflexivity|].
      apply filter_In. split.
      * apply in_map_iff. exists (p, spec). split; [reflexivity|exact Hin].
      * cbn [default named]. apply orb_true_iff.
        destruct Hkept as [H|H]; [left; exact H|right; apply length_zero_nil; exact H].
    + cbn [path default named]. repeat split. apply sort_perm.
  - intros entry Hin. apply sort_In in Hin. apply in_map_iff in Hin.
    destruct Hin as [kept [<- Hkept]]. apply filter_In in Hkept.
    destruct Hkept as [Hkept Hcond]. apply in_map_iff in Hkept.
    destruct Hkept as [[p spec] [<- Hspec]]. cbn [path default named] in *.
    exists spec. split; [exact Hspec|]. split.
    + apply orb_true_iff in Hcond.
      destruct Hcond as [H|H]; [left; exact H|right; apply length_zero_nil; exact H].
    + split; [reflexivity|apply sort_perm].
Qed.
End FinalizedContent.

Section StatementFacts.
Import Js Run Jsx.

Lemma specifierText_named (name : string) (alias : option string) :
  name <> EmptyString -> specifierText (name, alias) <> EmptyString.
Proof.
  intros Hne. unfold specifierText. destruct alias as [a|]; [|exact Hne].
  destruct (isEmpty a); [exact Hne|]. destruct name; [congruence|discriminate].
Qed.

Lemma join_first (sep x : string) (xs : list string) :
  x <> EmptyString -> join sep (x :: xs) <> EmptyString.
Proof.
  intros Hne. destruct xs as [|y ys]; [exact Hne|].
  change (join sep (x :: y :: ys)) with (x ++ sep ++ join sep (y :: ys)).
  destruct x; [congruence|discriminate].
Qed.

Lemma importStatement_some (entry : GeneratedImport) :
  importsSomething entry ->
  exists parts,
    parts <> EmptyString
    /\ (let names := join ", " (map specifierText (named entry)) in
        let parts :=
          filterBoolean
            [default entry;
             if isEmpty names then None else Some ("{ " ++ names ++ " }")] in
        match parts with
        | [] => None
        | _ => Some ("import " ++ join ", " parts ++ " from " ++ dq
                       ++ path entry ++ dq ++ ";")
        end)
       = Some ("import " ++ parts ++ " from " ++ dq ++ path entry ++ dq ++ ";").
Proof.
  intros Hentry. cbv zeta.
  set (names := join ", " (map specifierText (named entry))).
  assert (Hparts : exists part parts,
             filterBoolean [default entry;
                            if isEmpty names then None
                            else Some ("{ " ++ names ++ " }")] = part :: parts
             /\ part <> EmptyString).
  { destruct Hentry as [Hdefault|[name [alias [rest [Hnamed Hname]]]]].
    - destruct (default entry) as [d|]; [|discriminate]. simpl in Hdefault.
      apply negb_true_iff in Hdefault. cbn [filterBoolean flat_map].
      rewrite Hdefault. cbn [app]. exists d. eexists. split; [reflexivity|].
      intros ->. discriminate.
    - assert (Hnames : isEmpty names = false).
      { apply isEmpty_false. unfold names. rewrite Hnamed. cbn [map].
        apply join_first. apply specifierText_named. exact Hname. }
      rewrite Hnames. cbn [filterBoolean flat_map].
      destruct (default entry) as [d|].
      + destruct (isEmpty d) eqn:Ed; cbn [app isEmpty].
        * eexists. eexists. split; [reflexivity|discriminate].
        * exists d. eexists. split; [reflexivity|]. intros ->. discriminate.
      + cbn [app isEmpty]. eexists. eexists. split; [reflexivity|discriminate]. }
  destruct Hparts as [part [parts [-> Hpart]]].
  exists (join ", " (part :: parts)). split; [apply join_first; exact Hpart|].
  reflexivity.
Qed.

(** X15.  [formatImportStatements] prints one statement per entry, in the
    order of the entries, when every entry has something to import; the
    statement names the path of its entry. *)
Theorem formatImportStatements_one_per_entry (imports : list GeneratedImport) :
  Forall importsSomething imports ->
  Forall2 (fun entry statement =>
             exists parts,
               parts <> EmptyString
               /\ statement = "import " ++ parts ++ " from " ++ dq ++ path entry
                                ++ dq ++ ";")
          imports (formatImportStatements imports).
Proof.
  unfold formatImportStatements.
  induction 1 as [|entry imports Hentry Hrest IH]; [constructor|].
  destruct (importStatement_some entry Hentry) as [parts [Hparts Heq]].
  cbn [map].
  match goal with
  | |- Forall2 _ _ (filterBoolean (?first :: ?others)) =>
      change (first :: others) with ([first] ++ others)%list;
      rewrite filterBoolean_app;
      assert (Hfirst : first = Some ("import " ++ parts ++ " from " ++ dq
                                       ++ path entry ++ dq ++ ";"));
      [|rewrite Hfirst]
  end.
  { exact Heq. }
  cbn [filterBoolean flat_map isEmpty append app]. constructor; [|exact IH].
  exists parts. split; [exact Hparts|reflexivity].
Qed.

(** X15 at the finalized imports of a registry with two paths. *)
Lemma formatImportStatements_one_per_entry_witness :
  Forall2 (fun entry statement =>
             exists parts,
               parts <> EmptyString
               /\ statement = "import " ++ parts ++ " from " ++ dq ++ path entry
                                ++ dq ++ ";")
          (formatImports codeUnitCompare unsortedRegistry)
          (formatImportStatements (formatImports codeUnitCompare unsortedRegistry)).
Proof.
  apply (formatImportStatements_one_per_entry
           (formatImports codeUnitCompare unsortedRegistry)).
  constructor; [|constructor; [|constructor]].
  - right. exists "Row", None, []. split; [reflexivity|discriminate].
  - left. reflexivity.
Defined.
End StatementFacts.

Section JsxErrors.
Import Js Run Jsx.




End JsxErrors.

(** ** [generateReactCode] *)

Section CodeErrors.
Import Js Run ReactCode.

Lemma isComponentData_prop (v : value) :
  isComponentData v = true -> prop "type" v <> None.
Proof. destruct v; simpl; discriminate. Qed.

Lemma prop_None (k : string) (v : value) :
  prop k v = None -> v = VNull \/ v = VUndefined.
Proof. destruct v; simpl; try discriminate; auto. Qed.

Lemma ReactCode_raises (ctx : InternalContext) :
  forall fuel,
    (forall component depth,
        prop "type" component <> None ->
        raisesOnly (codeError (ctxComponentMap ctx))
          (renderComponent fuel ctx component depth))
    /\ (forall v depth,
           raisesOnly (codeError (ctxComponentMap ctx))
             (formatPropValue fuel ctx v depth))
    /\ (forall v depth,
           raisesOnly (codeError (ctxComponentMap ctx))
             (formatChildren fuel ctx v depth)).
Proof.
  induction fuel as [|fuel [IHc [IHp IHf]]].
  - repeat split; intros; apply raisesOnly_throw; left; reflexivity.
  - repeat split; intros; simpl.
    + destruct (prop "type" component) as [type|]; [|congruence].
      set (mapEntry := match ctxComponentMap ctx with
                       | Some m => lookup (toStr type) m
                       | None => None
                       end).
      assert (Hentry : forall entry hook props o,
                 mapEntry = Some entry -> transformProps entry = Some hook ->
                 hook component props = o ->
                 transformPropsOutcome (ctxComponentMap ctx) o).
      { unfold mapEntry. intros entry hook props o He Hh Ho.
        destruct (ctxComponentMap ctx) as [m|]; [|discriminate].
        exists m, (toStr type), entry, hook, component, props. auto. }
      clearbody mapEntry.
      apply raisesOnly_bind.
      { destruct mapEntry as [[? [?|] ? ? ?]|];
          [apply raisesOnly_modify|apply raisesOnly_ret|apply raisesOnly_ret]. }
      intros _. apply raisesOnly_bind_of.
      { destruct mapEntry as [[as0 import0 omit0 preserve0 [hook|]]|];
          [|apply raisesOnly_ret|apply raisesOnly_ret].
        apply raisesOnly_lift. intros e Hcall.
        match type of Hcall with
        | call (hook component ?props) = _ =>
            destruct (hook component props) as [v|thrown] eqn:Eo
        end; [discriminate|].
        injection Hcall as <-. right. right. exists thrown. split; [reflexivity|].
        eapply Hentry; [reflexivity|reflexivity|exact Eo]. }
      intros transformedProps s s' Hstep.
      destruct (prop "children" transformedProps) as [children|] eqn:Echildren.
      * repeat first
          [ apply IHc; apply isComponentData_prop; assumption
          | raises_step IHp | raises_step IHf ].
      * apply raisesOnly_throw. right. left. split; [reflexivity|].
        destruct mapEntry as [[as0 import0 omit0 preserve0 [hook|]]|];
          try (unfold ret in Hstep; injection Hstep as <- _; discriminate Echildren).
        unfold lift in Hstep.
        match type of Hstep with
        | context [call (hook component ?props)] =>
            destruct (hook component props) as [v|thrown] eqn:Eo
        end; [|discriminate].
        simpl in Hstep. injection Hstep as <- _.
        destruct (prop_None _ _ Echildren) as [->| ->]; [left|right];
          (eapply Hentry; [reflexivity|reflexivity|exact Eo]).
    + repeat first
        [ apply IHc; apply isComponentData_prop; assumption
        | raises_step IHp | raises_step IHf ].
    + repeat first
        [ apply IHc; apply isComponentData_prop; assumption
        | raises_step IHp | raises_step IHf ].
Qed.

Lemma codeError_without_hooks
  (componentMap : option (list (string * CodegenComponentConfig))) (e : error) :
  withoutTransformProps componentMap -> codeError componentMap e -> e = OutOfFuel.
Proof.
  intros Hno He.
  assert (Hnone : forall o, ~ transformPropsOutcome componentMap o).
  { intros o [m [key [entry [hook [component [props [Hm [Hkey [Hhook _]]]]]]]]].
    rewrite (Hno m key entry Hm Hkey) in Hhook. discriminate. }
  destruct He as [->|[[_ [H|H]]|[thrown [_ H]]]]; [reflexivity| | |];
    exfalso; exact (Hnone _ H).
Qed.

(** X17.  [generateReactCode] throws no error of its own.  Apart from a
    recursion that does not end within the budget, it fails only with the
    TypeError of the engine, when a top-level node of the page is [null]
    or [undefined] or a [transformProps] hook returns [null] or
    [undefined], and with what a [transformProps] hook throws. *)
Theorem generateReactCode_errors (localeCompare : string -> string -> comparison)
  (fuel : nat) (options : GenerateReactCodeOptions) (e : error) :
  generateReactCode localeCompare fuel options = Err e ->
  e = OutOfFuel
  \/ (e = TypeError
      /\ ((exists item,
              In item (match Types.content (data options) with
                       | Some c => c
                       | None => []
                       end)
              /\ (item = VNull \/ item = VUndefined))
          \/ transformPropsOutcome (componentMap options) (Returns VNull)
          \/ transformPropsOutcome (componentMap options) (Returns VUndefined)))
  \/ (exists thrown,
         e = Thrown thrown
         /\ transformPropsOutcome (componentMap options) (Throws thrown)).
Proof.
  unfold generateReactCode.
  set (content := match Types.content (data options) with Some c => c | None => [] end).
  match goal with
  | |- context [mapM ?f content ?s] =>
      destruct (mapM f content s) as [[rendered imports]|e'] eqn:E
  end; [discriminate|].
  intros H. injection H as <-.
  apply mapM_raises in E. destruct E as [item [s' [Hin Hitem]]].
  destruct (prop "type" item) as [type|] eqn:Etype.
  - match type of Hitem with
    | renderComponent fuel ?ctx item 2 s' = _ =>
        assert (Herror : codeError (ctxComponentMap ctx) e')
    end.
    { eapply (proj1 (ReactCode_raises _ fuel)); [|exact Hitem]. congruence. }
    cbn [ctxComponentMap] in Herror.
    destruct Herror as [->|[[-> Hhook]|Hthrown]];
      [left; reflexivity|right; left; split; [reflexivity|right; exact Hhook]
      |right; right; exact Hthrown].
  - destruct fuel as [|fuel]; simpl in Hitem.
    + left. injection Hitem as <-. reflexivity.
    + rewrite Etype in Hitem. injection Hitem as <-. right. left.
      split; [reflexivity|]. left.
      exists item. split; [exact Hin|]. eapply prop_None. exact Etype.
Qed.
End CodeErrors.

Section CodeTotal.
Import Js Run ReactCode.
Variable ctx : InternalContext.
Hypothesis no_hooks : withoutTransformProps (ctxComponentMap ctx).

Lemma props_below (component p : value) (k : string) (v : value) :
  prop "props" component = Some p -> In (k, v) (spread p) ->
  height v < height component.
Proof.
  destruct component as [| | | | | |es]; simpl; try discriminate;
    try (intros H; injection H as <-; contradiction).
  intros H. injection H as <-. unfold get.
  destruct (lookup "props" es) as [p|] eqn:E; [|contradiction].
  intros Hin. apply lookup_In, height_entry in E.
  apply height_entries in Hin. simpl in *. lia.
Qed.

Lemma componentData_height (v : value) : isComponentData v = true -> 1 <= height v.
Proof. destruct v; simpl; try discriminate. lia. Qed.

Lemma In_deleteAll {A : Type} (names : list string) (e : string * A)
  (es : list (string * A)) :
  In e (fold_left (fun acc k => delete k acc) names es) -> In e es.
Proof. rewrite deleteAll_filter. intros H. apply filter_In in H. tauto. Qed.

Lemma ReactCode_funded :
  forall fuel,
    (forall component depth,
        3 <= fuel -> 3 * height component <= fuel ->
        funded (renderComponent fuel ctx component depth))
    /\ (forall v depth,
           3 * height v + 1 <= fuel -> funded (formatPropValue fuel ctx v depth))
    /\ (forall v depth,
           3 * height v + 2 <= fuel -> funded (formatChildren fuel ctx v depth)).
Proof.
  induction fuel as [|fuel [IHc [IHp IHf]]].
  - split; [|split]; intros; lia.
  - split; [|split].
    + intros component depth Hfuel Hheight. simpl.
      destruct (prop "type" component) as [type|] eqn:Etype;
        [|apply funded_throw; discriminate].
      set (mapEntry := match ctxComponentMap ctx with
                       | Some m => lookup (toStr type) m
                       | None => None
                       end).
      assert (Hentry : forall entry, mapEntry = Some entry ->
                                     transformProps entry = None).
      { unfold mapEntry. intros entry Hentry.
        destruct (ctxComponentMap ctx) as [m|] eqn:Em; [|discriminate].
        eapply no_hooks; [reflexivity|exact Hentry]. }
      clearbody mapEntry.
      apply funded_bind.
      { destruct mapEntry as [[? [?|] ? ? ?]|];
          [apply funded_modify|apply funded_ret|apply funded_ret]. }
      intros _.
      set (ownProps := match prop "props" component with
                       | Some p => p
                       | None => VUndefined
                       end).
      assert (Hown : forall k v, In (k, v) (spread ownProps) ->
                                 height v < height component).
      { unfold ownProps. destruct (prop "props" component) as [p|] eqn:Ep;
          [|contradiction].
        intros k v. apply (props_below _ _ _ _ Ep). }
      apply funded_bind_of.
      { destruct mapEntry as [[as0 import0 omit0 preserve0 [hook|]]|];
          [apply funded_call|apply funded_ret|apply funded_ret]. }
      intros transformedProps s s' Hstep.
      assert (Htransformed : exists cleaned,
                 transformedProps = VObj cleaned
                 /\ forall k v, In (k, v) cleaned -> height v < height component).
      { destruct mapEntry as [[as0 import0 omit0 preserve0 [hook|]]|];
          [specialize (Hentry _ eq_refl); discriminate| |];
          unfold ret in Hstep; injection Hstep as <- _;
          (eexists; split; [reflexivity|]);
          intros k v Hin; apply (Hown k); cbn in Hin;
          repeat match type of Hin with
                 | context [if ?c then _ else _] => destruct c
                 | context [match ?o with Some _ => _ | None => _ end] => destruct o
                 end;
          repeat first [apply In_deleteAll in Hin | apply In_delete in Hin];
          exact Hin. }
      destruct Htransformed as [cleaned [-> Hcleaned]].
      cbn [prop spread entries].
      apply funded_bind.
      { apply funded_mapM. intros [key v] Hin.
        apply funded_bind.
        - apply IHp. unfold definedEntries in Hin. apply filter_In in Hin.
          destruct Hin as [Hin _]. apply In_delete in Hin.
          apply Hcleaned in Hin. lia.
        - intros formatted. destruct (fst formatted); apply funded_ret. }
      intros propLines. apply funded_bind.
      { apply IHf. unfold get.
        destruct (lookup "children" cleaned) as [c|] eqn:Ec;
          [|simpl; lia].
        apply lookup_In, Hcleaned in Ec. lia. }
      intros childrenContent.
      destruct propLines, (nonEmpty childrenContent); apply funded_ret.
    + intros v depth Hfuel. destruct v as [| |b|n|s|items|es]; cbn -[mapM];
        try apply funded_ret.
      * destruct items as [|item rest]; [apply funded_ret|].
        apply funded_bind; [|intros; apply funded_ret].
        apply funded_mapM. intros x Hin. apply height_member in Hin.
        destruct (isComponentData x) eqn:Ex.
        -- apply componentData_height in Ex. apply IHc; lia.
        -- apply funded_bind; [apply IHp; lia|intros; apply funded_ret].
      * destruct (has "type" es && has "props" es) eqn:Ex.
        -- apply funded_bind; [|intros; apply funded_ret].
           apply IHc; simpl in *; lia.
        -- destruct (definedEntries es) as [|entry rest] eqn:Eentries;
             [apply funded_ret|].
           apply funded_bind; [|intros; apply funded_ret].
           apply funded_mapM. intros [key val] Hin. rewrite <- Eentries in Hin.
           unfold definedEntries in Hin. apply filter_In in Hin.
           destruct Hin as [Hin _]. apply height_entry in Hin.
           apply funded_bind; [apply IHp; lia|intros; apply funded_ret].
    + intros v depth Hfuel. destruct v as [| |b|n|s|items|es]; cbn -[mapM];
        try apply funded_ret;
        try (apply funded_bind; [apply IHp; simpl in *; lia|intros; apply funded_ret]).
      * destruct items as [|item rest]; [apply funded_ret|].
        apply funded_bind; [|intros; apply funded_ret].
        apply funded_mapM. intros x Hin. apply height_member in Hin.
        destruct (isComponentData x) eqn:Ex.
        -- apply componentData_height in Ex. apply IHc; lia.
        -- apply funded_bind; [apply IHp; lia|intros; apply funded_ret].
      * destruct (has "type" es && has "props" es) eqn:Ex.
        -- apply funded_bind; [|intros; apply funded_ret].
           apply IHc; simpl in *; lia.
        -- apply funded_bind; [apply IHp; simpl in *; lia|intros; apply funded_ret].
Qed.
End CodeTotal.

Section CodeSucceeds.
Import Js Run ReactCode.

(** X18.  Without [transformProps] hooks, [generateReactCode] returns a
    result for every page whose top-level nodes are neither [null] nor
    [undefined], whatever the nodes hold: a budget of three times the
    height of the content is enough. *)
Theorem generateReactCode_succeeds (localeCompare : string -> string -> comparison)
  (options : GenerateReactCodeOptions) (fuel : nat) :
  withoutTransformProps (componentMap options) ->
  (forall item,
      In item (match Types.content (data options) with Some c => c | None => [] end) ->
      item <> VNull /\ item <> VUndefined) ->
  3 * height (VArr (match Types.content (data options) with
                    | Some c => c
                    | None => []
                    end)) <= fuel ->
  exists out, generateReactCode localeCompare fuel options = Ok out.
Proof.
  intros Hhooks Hitems Hfuel. unfold generateReactCode.
  set (content := match Types.content (data options) with Some c => c | None => [] end)
    in *.
  set (ctx := {| ctxComponentMap := componentMap options;
                 ctxOmitIds := match omitIds options with
                               | Some b => b
                               | None => true
                               end |}).
  assert (Hfunded : funded (mapM (fun component => renderComponent fuel ctx component 2)
                              content)).
  { apply funded_mapM. intros item Hin. apply height_member in Hin.
    apply (proj1 (ReactCode_funded ctx Hhooks fuel)); lia. }
  destruct (mapM (fun component => renderComponent fuel ctx component 2) content [])
    as [[rendered imports]|e] eqn:E; [eauto|].
  exfalso. apply (Hfunded []). rewrite E. f_equal.
  apply mapM_raises in E. destruct E as [item [s' [Hin Hitem]]].
  apply (codeError_without_hooks (ctxComponentMap ctx)); [exact Hhooks|].
  eapply (proj1 (ReactCode_raises ctx fuel)); [|exact Hitem].
  destruct (Hitems item Hin) as [Hnull Hundefined].
  destruct item; simpl; congruence.
Qed.
End CodeSucceeds.

Section PropValueFacts.
Import Js Run ReactCode.

(** X19.  [formatPropValue] reports the kind string for strings only, and
    then returns the JSON text of the string without touching the imports;
    every other value is an expression, printed in braces by the
    caller. *)
Theorem formatPropValue_kind (fuel : nat) (ctx : InternalContext) (v : value)
  (depth : nat) (imports imports' : ImportMap) (kind : PropKind) (text : string) :
  formatPropValue fuel ctx v depth imports = Ok ((kind, text), imports') ->
  match v with
  | VStr s => kind = KString /\ text = quote s /\ imports' = imports
  | _ => kind = KExpression
  end.
Proof.
  destruct fuel as [|fuel]; [discriminate|].
  destruct v as [| |b|n|s|items|es]; simpl; unfold ret;
    try (intros H; injection H as <- _ _; reflexivity).
  - intros H. injection H as <- <- <-. auto.
  - destruct items as [|item rest]; [intros H; injection H as <- _ _; reflexivity|].
    unfold bind at 1. run_cases. intros H. injection H as <- _ _. reflexivity.
  - destruct (has "type" es && has "props" es).
    + unfold bind at 1. run_cases. intros H. injection H as <- _ _. reflexivity.
    + destruct (definedEntries es) as [|entry rest];
        [unfold ret; intros H; injection H as <- _ _; reflexivity|].
      unfold bind at 1. run_cases. intros H. injection H as <- _ _. reflexivity.
Qed.

(** X20.  [formatChildren] returns [null] exactly for [undefined], [null]
    and the empty array, and then leaves the imports as they were. *)
Theorem formatChildren_null (fuel : nat) (ctx : InternalContext) (v : value)
  (depth : nat) (imports imports' : ImportMap) :
  formatChildren (S fuel) ctx v depth imports = Ok (None, imports')
  <-> (v = VUndefined \/ v = VNull \/ v = VArr []) /\ imports' = imports.
Proof.
  split.
  - destruct v as [| |b|n|s|items|es]; simpl; unfold ret;
      try (intros H; injection H as <-; auto);
      try (unfold bind at 1; run_cases; discriminate).
    + destruct items as [|item rest]; [intros H; injection H as <-; auto|].
      unfold bind at 1. run_cases. discriminate.
    + destruct (has "type" es && has "props" es);
        unfold bind at 1; run_cases; discriminate.
  - intros [[->|[->| ->]] ->]; reflexivity.
Qed.
End PropValueFacts.

Section CodeImportsGrow.
Import Js Run ReactCode.

Lemma importsExtend_refl (m : ImportMap) : importsExtend m m.
Proof.
  intros p r Hr. exists r. split; [exact Hr|]. split; [auto|apply incl_refl].
Qed.

Lemma importsExtend_trans (a b c : ImportMap) :
  importsExtend a b -> importsExtend b c -> importsExtend a c.
Proof.
  intros Hab Hbc p x Hx. destruct (Hab p x Hx) as [y [Hy [Hd1 Hn1]]].
  destruct (Hbc p y Hy) as [z [Hz [Hd2 Hn2]]]. exists z. split; [exact Hz|].
  split; [auto|]. eapply incl_tran; eassumption.
Qed.

Lemma registerImport_code_extends (localName : string) (importConfig : CodegenImport)
  (imports : ImportMap) :
  importsExtend imports (registerImport localName importConfig imports).
Proof.
  intros p r Hr. unfold registerImport.
  destruct (String.eqb_spec p (path importConfig)) as [->|Hne].
  - rewrite Hr. destruct (isTrue (default importConfig)).
    + rewrite lookup_set_same. eexists. split; [reflexivity|].
      split; [discriminate|apply incl_refl].
    + rewrite lookup_set_same. eexists. split; [reflexivity|].
      split; [auto|]. cbn [named].
      destruct (negb _); [apply incl_appl|]; apply incl_refl.
  - destruct (isTrue (default importConfig));
      rewrite lookup_set_other by assumption;
      (exists r; split; [exact Hr|]; split; [auto|apply incl_refl]).
Qed.

Lemma ReactCode_grows (ctx : InternalContext) :
  forall fuel,
    (forall component depth,
        grows importsExtend (renderComponent fuel ctx component depth))
    /\ (forall v depth, grows importsExtend (formatPropValue fuel ctx v depth))
    /\ (forall v depth, grows importsExtend (formatChildren fuel ctx v depth)).
Proof.
  pose proof importsExtend_refl as Hrefl. pose proof importsExtend_trans as Htrans.
  induction fuel as [|fuel [IHc [IHp IHf]]].
  - split; [|split]; intros; apply grows_throw.
  - split; [|split]; intros; simpl;
      repeat first
        [ apply grows_modify; intros ?; apply registerImport_code_extends
        | grows_step IHc | grows_step IHp | grows_step IHf ].
Qed.

(** X21.  Rendering a component with [generateReactCode] loses no import:
    a path of the import map stays, a default name is replaced at most by
    another one, and the named entries are only added to. *)
Theorem renderComponent_keeps_imports (fuel : nat) (ctx : InternalContext)
  (component : value) (depth : nat) (imports imports' : ImportMap) (text : string)
  (p : string) (record : ImportRecord) :
  renderComponent fuel ctx component depth imports = Ok (text, imports') ->
  lookup p imports = Some record ->
  exists record',
    lookup p imports' = Some record'
    /\ (defaultImport record <> None -> defaultImport record' <> None)
    /\ incl (named record) (named record').
Proof.
  intros Hrun Hrecord.
  apply (proj1 (ReactCode_grows ctx fuel) _ _ _ _ _ Hrun p record Hrecord).
Qed.
End CodeImportsGrow.

(** ** [generateReactComponent] *)

Section AstErrors.
Import Js Run.
Variable valueToNode : value -> ReactAst.Node.
Variable isValidIdentifier : string -> bool.
Variable config : ReactAst.Config.
Variable components : list (string * ReactAst.CodegenComponentTransform).
Variable includeIds : bool.




End AstErrors.



Section WellFormedFacts.
Import Js Run.
Variable valueToNode : value -> ReactAst.Node.
Variable isValidIdentifier : string -> bool.
Variable config : ReactAst.Config.
Variable components : list (string * ReactAst.CodegenComponentTransform).
Variable includeIds : bool.
Hypothesis valueToNode_data : forall v, wellFormed (valueToNode v) = true.

Lemma wellFormed_element (name : string) (attributes children : list ReactAst.Node) :
  forallb attributeOk attributes = true ->
  forallb childOk children = true ->
  let noChildren := Nat.eqb (length children) 0 in
  wellFormed
    (ReactAst.JSXElement
       (ReactAst.JSXOpeningElement (ReactAst.JSXIdentifier name) attributes noChildren)
       (if noChildren then None
        else Some (ReactAst.JSXClosingElement (ReactAst.JSXIdentifier name)))
       children noChildren) = true.
Proof.
  intros Hattributes Hchildren noChildren.
  change (Bool.eqb noChildren noChildren
          && Bool.eqb noChildren (Nat.eqb (length children) 0)
          && match (if noChildren then None
                    else Some (ReactAst.JSXClosingElement (ReactAst.JSXIdentifier name)))
             with
             | None => noChildren
             | Some (ReactAst.JSXClosingElement (ReactAst.JSXIdentifier name')) =>
                 negb noChildren && String.eqb name name'
             | Some _ => false
             end
          && forallb attributeOk attributes
          && forallb childOk children = true).
  rewrite Hattributes, Hchildren. fold noChildren. rewrite !Bool.eqb_reflx.
  destruct noChildren; [reflexivity|]. cbn. rewrite String.eqb_refl. reflexivity.
Qed.

Lemma elements_childOk (ns : list ReactAst.Node) :
  Forall elementOk ns -> forallb childOk ns = true.
Proof.
  induction 1 as [|n ns [Hwf Helement] Hns IH]; [reflexivity|].
  cbn [forallb]. rewrite IH, andb_true_r.
  destruct n; try discriminate. exact Hwf.
Qed.

Lemma pushChild_childOk (n : ReactAst.Node) (children : list ReactAst.Node) :
  wellFormed n = true ->
  forallb childOk children = true ->
  forallb childOk (ReactAst.pushChild n children) = true.
Proof.
  intros Hn Hchildren. unfold ReactAst.pushChild.
  destruct n; cbn [ReactAst.isNullLiteral ReactAst.isJSXElement ReactAst.isJSXFragment orb];
    try exact Hchildren;
    rewrite forallb_app, Hchildren; cbn [forallb childOk andb];
    try reflexivity; rewrite andb_true_r; exact Hn.
Qed.

Lemma attribute_attributeOk (name : string) (n : ReactAst.Node)
  (attributes : list ReactAst.Node) :
  wellFormed n = true ->
  forallb attributeOk attributes = true ->
  forallb attributeOk
    (attributes ++ [if ReactAst.isStringLiteral n
                    then ReactAst.JSXAttribute (ReactAst.JSXIdentifier name) n
                    else ReactAst.JSXAttribute (ReactAst.JSXIdentifier name)
                           (ReactAst.JSXExpressionContainer n)]) = true.
Proof.
  intros Hn Hattributes. rewrite forallb_app, Hattributes. cbn [forallb andb].
  rewrite andb_true_r. destruct n; cbn [ReactAst.isStringLiteral attributeOk];
    try reflexivity; exact Hn.
Qed.
End WellFormedFacts.

Section WellFormedTree.
Import Js Run.
Variable valueToNode : value -> ReactAst.Node.
Variable isValidIdentifier : string -> bool.
Variable config : ReactAst.Config.
Variable components : list (string * ReactAst.CodegenComponentTransform).
Variable includeIds : bool.
Hypothesis valueToNode_data : forall v, wellFormed (valueToNode v) = true.

Local Abbreviation createComponent :=
  (ReactAst.createComponent valueToNode isValidIdentifier config components includeIds).
Local Abbreviation createSlotChildren :=
  (ReactAst.createSlotChildren valueToNode isValidIdentifier config components includeIds).
Local Abbreviation createArrayExpression :=
  (ReactAst.createArrayExpression valueToNode isValidIdentifier config components
     includeIds).
Local Abbreviation createObjectExpression :=
  (ReactAst.createObjectExpression valueToNode isValidIdentifier config components
     includeIds).
Local Abbreviation createFieldValueNode :=
  (ReactAst.createFieldValueNode valueToNode isValidIdentifier config components
     includeIds).
Local Abbreviation createAttributes :=
  (ReactAst.createAttributes valueToNode isValidIdentifier config components includeIds).

Lemma jsxIdentifier_yields (name : option string) :
  yields (fun n => exists id, n = ReactAst.JSXIdentifier id)
    (@lift ReactAst.ImportBuckets _ (ReactAst.jsxIdentifier name)).
Proof.
  apply yields_lift. intros n. destruct name as [id|]; [|discriminate].
  intros H. injection H as <-. eauto.
Qed.

Lemma wellFormed_all (ns : list ReactAst.Node) :
  Forall (fun n => wellFormed n = true) ns -> forallb wellFormed ns = true.
Proof.
  induction 1 as [|n ns Hn Hns IH]; [reflexivity|].
  cbn [forallb]. rewrite Hn, IH. reflexivity.
Qed.

Lemma createObjectKey_wellFormed (key : string) :
  wellFormed (ReactAst.createObjectKey isValidIdentifier key) = true.
Proof. unfold ReactAst.createObjectKey. destruct (isValidIdentifier key); reflexivity. Qed.

Lemma properties_wellFormed (properties : list (list ReactAst.Node)) :
  Forall (fun ps => forallb propertyOk ps = true) properties ->
  wellFormed (ReactAst.ObjectExpression (concat properties)) = true.
Proof.
  intros H. change (forallb propertyOk (concat properties) = true).
  induction H as [|ps properties Hps Hrest IH]; [reflexivity|].
  cbn [concat]. rewrite forallb_app, Hps, IH. reflexivity.
Qed.

Lemma ReactAst_wellFormed :
  forall fuel,
    (forall component addKey, yields elementOk (createComponent fuel component addKey))
    /\ (forall content, yields (Forall elementOk) (createSlotChildren fuel content))
    /\ (forall values fields,
           yields (fun n => wellFormed n = true)
                  (createArrayExpression fuel values fields))
    /\ (forall v fields,
           yields (fun n => wellFormed n = true) (createObjectExpression fuel v fields))
    /\ (forall v field, yields nodeOk (createFieldValueNode fuel v field))
    /\ (forall props componentFields transform,
           yields partsOk (createAttributes fuel props componentFields transform)).
Proof.
  induction fuel as [|fuel [IH1 [IH2 [IH3 [IH4 [IH5 IH6]]]]]].
  - split; [|split; [|split; [|split; [|split]]]]; intros; apply yields_throw.
  - split; [|split; [|split; [|split; [|split]]]]; intros; simpl.
    + (* createComponent *)
      destruct (prop "type" component) as [type|]; [|apply yields_throw].
      destruct (ReactAst.componentConfigOf config (toStr type)) as [componentConfig|];
        [|apply yields_throw].
      eapply yields_bind; [apply yields_any|]. intros _ _.
      eapply yields_bind; [apply yields_any|]. intros props _.
      eapply yields_bind; [apply IH6|]. intros [attributes children] [Ha Hc].
      cbn [fst snd] in Ha, Hc.
      eapply yields_bind with (Qa := fun attributes => forallb attributeOk attributes = true).
      * destruct (addKey && _); [|apply yields_ret; exact Ha].
        destruct (negb _); [|apply yields_ret; exact Ha].
        destruct (get "id" _); try apply yields_throw.
        apply yields_ret. cbn [forallb attributeOk]. exact Ha.
      * intros attributes' Ha'.
        eapply yields_bind; [apply jsxIdentifier_yields|]. intros name [id ->].
        apply yields_ret. split; [|reflexivity].
        apply wellFormed_element; assumption.
    + (* createSlotChildren *)
      destruct content; try (apply yields_ret; constructor).
      apply yields_mapM. intros child. apply IH1.
    + (* createArrayExpression *)
      destruct values; try (destruct (truthy _); [apply yields_throw|apply yields_ret; reflexivity]).
      eapply yields_bind with (Qa := Forall (fun n => wellFormed n = true)).
      * apply yields_mapM. intros item.
        destruct (isUndefined item); [apply yields_ret; reflexivity|].
        destruct (ReactAst.isPlainObject item); [apply IH4|].
        apply yields_ret. apply valueToNode_data.
      * intros elements Helements. apply yields_ret.
        apply (wellFormed_all _ Helements).
    + (* createObjectExpression *)
      eapply yields_bind with (Qa := Forall (fun ps => forallb propertyOk ps = true)).
      * apply yields_mapM. intros [key propValue].
        eapply yields_bind; [apply IH5|]. intros [n|] Hn; apply yields_ret;
          [|reflexivity].
        cbn [forallb propertyOk]. rewrite createObjectKey_wellFormed.
        cbn [nodeOk] in Hn. rewrite Hn. reflexivity.
      * intros properties Hproperties. apply yields_ret.
        apply (properties_wellFormed _ Hproperties).
    + (* createFieldValueNode *)
      destruct (isUndefined v); [apply yields_ret; exact I|].
      destruct field as [fd|]; [|apply yields_ret; apply valueToNode_data].
      destruct (String.eqb (Types.fieldType fd) "slot").
      * eapply yields_bind; [apply IH2|]. intros slotChildren Hslot.
        destruct slotChildren as [|only [|second rest]]; apply yields_ret.
        -- reflexivity.
        -- inversion Hslot as [|? ? [Hwf _] _]; subst. exact Hwf.
        -- apply (elements_childOk _ Hslot).
      * destruct (String.eqb (Types.fieldType fd) "array").
        -- eapply yields_bind; [apply IH3|]. intros n Hn. apply yields_ret. exact Hn.
        -- destruct (String.eqb (Types.fieldType fd) "object").
           ++ eapply yields_bind; [apply IH4|]. intros n Hn. apply yields_ret. exact Hn.
           ++ apply yields_ret. apply valueToNode_data.
    + (* createAttributes *)
      apply yields_foldM; [|split; reflexivity].
      intros [attributes children] [name v] [Ha Hc]. cbn [fst snd] in Ha, Hc.
      destruct (negb includeIds && String.eqb name "id");
        [apply yields_ret; split; assumption|].
      match goal with
      | |- context [ReactAst.isChildren ?mapped] => set (mappedName := mapped)
      end.
      destruct (ReactAst.isChildren mappedName).
      * destruct (Types.isSlot _).
        -- eapply yields_bind; [apply IH2|]. intros slotChildren Hslot.
           apply yields_ret. split; [exact Ha|]. cbn [snd].
           rewrite forallb_app, Hc. apply (elements_childOk _ Hslot).
        -- eapply yields_bind; [apply IH5|]. intros [n|] Hn;
             apply yields_ret; [|split; assumption].
           split; [exact Ha|]. apply pushChild_childOk; assumption.
      * destruct (Types.isSlot _).
        -- eapply yields_bind; [apply IH2|]. intros slotChildren Hslot.
           match goal with
           | |- yields _ (if ?c then _ else _) => destruct c
           end.
           ++ apply yields_ret. split; [exact Ha|]. cbn [snd].
              rewrite forallb_app, Hc. apply (elements_childOk _ Hslot).
           ++ eapply yields_bind; [apply IH5|]. intros [e|] He;
                [|apply yields_ret; split; assumption].
              eapply yields_bind; [apply jsxIdentifier_yields|].
              intros attribute [id ->]. apply yields_ret.
              split; [|exact Hc]. cbn [fst].
              rewrite forallb_app, Ha. cbn [forallb attributeOk andb].
              rewrite andb_true_r. exact He.
        -- eapply yields_bind; [apply IH5|]. intros [n|] Hn;
             [|apply yields_ret; split; assumption].
           eapply yields_bind; [apply jsxIdentifier_yields|].
           intros attribute [id ->].
           pose proof (attribute_attributeOk id n attributes Hn Ha) as Hnew.
           destruct (ReactAst.isStringLiteral n); apply yields_ret;
             (split; [exact Hnew|exact Hc]).
Qed.
End WellFormedTree.

Section WellFormedFile.
Import Js Run.

(** X23.  When [valueToNode] builds data literals, the component of the
    generated file returns a fragment with one element per top-level node,
    and all its JSX is well formed, down through the array and object
    literals of attribute values: self-closing flags, closing tags and
    children agree, attributes carry string literals or expression
    containers, and children are text, containers, elements or
    fragments. *)
Theorem generateFile_wellFormed valueToNode isValidIdentifier
  (localeCompare : string -> string -> comparison) (fuel : nat)
  (options : ReactAst.GenerateReactComponentOptions) (file : ReactAst.Node) :
  (forall v, wellFormed (valueToNode v) = true) ->
  ReactAst.generateFile valueToNode isValidIdentifier localeCompare fuel options
  = Ok file ->
  exists rootChildren,
    returnedExpression file
    = Some (ReactAst.JSXFragment ReactAst.JSXOpeningFragment ReactAst.JSXClosingFragment
              rootChildren)
    /\ wellFormed (ReactAst.JSXFragment ReactAst.JSXOpeningFragment
                     ReactAst.JSXClosingFragment rootChildren) = true
    /\ Forall (fun n => ReactAst.isJSXElement n = true) rootChildren
    /\ length rootChildren
       = length (match Types.content (ReactAst.data options) with
                 | Some c => c
                 | None => []
                 end).
Proof.
  intros Hdata. unfold ReactAst.generateFile.
  set (content := match Types.content (ReactAst.data options) with
                  | Some c => c
                  | None => []
                  end).
  match goal with
  | |- context [mapM ?f content ?s] =>
      destruct (mapM f content s) as [[rootChildren buckets]|e] eqn:E;
      [|discriminate];
      assert (Hroots : yields (Forall (elementOk)) (mapM f content))
  end.
  { apply yields_mapM. intros x.
    apply (proj1 (ReactAst_wellFormed _ _ _ _ _ Hdata fuel)). }
  intros H. injection H as <-. exists rootChildren.
  specialize (Hroots _ _ _ E).
  split; [|split; [|split]].
  - unfold returnedExpression. rewrite app_assoc, last_last. reflexivity.
  - apply (elements_childOk _ Hroots).
  - eapply Forall_impl; [|exact Hroots]. intros n [_ Hn]. exact Hn.
  - eapply mapM_length. exact E.
Qed.

(** The reference [valueToNode] builds data literals. *)
Lemma plainValueToNode_data (v : value) :
  wellFormed (ReactAst.plainValueToNode anyIdentifier v) = true.
Proof.
  assert (Hheight : forall h v, height v <= h ->
                      wellFormed (ReactAst.plainValueToNode anyIdentifier v) = true).
  { induction h as [|h IH]; intros [| |b|n|str|items|es] Hh; simpl in Hh;
      try lia; try reflexivity;
      try (simpl; destruct (n <? 0)%Z; reflexivity).
    - simpl. apply forallb_forall. intros node Hnode. apply in_map_iff in Hnode.
      destruct Hnode as [item [<- Hitem]]. apply IH.
      apply height_member in Hitem. simpl in Hitem. lia.
    - simpl. apply forallb_forall. intros node Hnode. apply in_map_iff in Hnode.
      destruct Hnode as [[k x] [<- Hx]]. cbn [anyIdentifier wellFormed andb].
      apply IH. apply height_entry in Hx. simpl in Hx. lia. }
  apply (Hheight (height v)). lia.
Qed.

(** The elements inside the literals of an attribute value are inspected:
    an element in an object literal that is flagged self-closing on one
    side only is not well formed. *)
Example wellFormed_inspects_literals :
  wellFormed
    (ReactAst.JSXElement
       (ReactAst.JSXOpeningElement (ReactAst.JSXIdentifier "Panel")
          [ReactAst.JSXAttribute (ReactAst.JSXIdentifier "header")
             (ReactAst.JSXExpressionContainer
                (ReactAst.ObjectExpression
                   [ReactAst.ObjectProperty (ReactAst.Identifier "icon")
                      (ReactAst.JSXElement
                         (ReactAst.JSXOpeningElement (ReactAst.JSXIdentifier "Button")
                            [] false)
                         None [] true)]))]
          true)
       None [] true)
  = false.
Proof. reflexivity. Qed.

(** X23 at a Card with one Button in its [actions] slot, before a Button,
    and at a Panel with a Button in a slot of its [header] object. *)
Lemma generateFile_wellFormed_witness :
  (exists file,
      ReactAst.generateFile (ReactAst.plainValueToNode anyIdentifier) anyIdentifier
        codeUnitCompare 8
        (astOptions (Some [node "Card" [("actions", VArr [node "Button" []])];
                           node "Button" [("label", VStr "Go")]]) None)
      = Ok file
      /\ exists rootChildren,
           returnedExpression file
           = Some (ReactAst.JSXFragment ReactAst.JSXOpeningFragment
                     ReactAst.JSXClosingFragment rootChildren)
           /\ wellFormed (ReactAst.JSXFragment ReactAst.JSXOpeningFragment
                            ReactAst.JSXClosingFragment rootChildren) = true
           /\ Forall (fun n => ReactAst.isJSXElement n = true) rootChildren
           /\ length rootChildren = 2)
  /\ (exists file,
         ReactAst.generateFile (ReactAst.plainValueToNode anyIdentifier) anyIdentifier
           codeUnitCompare 8 panelOptions
         = Ok file
         /\ exists rootChildren,
              returnedExpression file
              = Some (ReactAst.JSXFragment ReactAst.JSXOpeningFragment
                        ReactAst.JSXClosingFragment rootChildren)
              /\ wellFormed (ReactAst.JSXFragment ReactAst.JSXOpeningFragment
                               ReactAst.JSXClosingFragment rootChildren) = true
              /\ Forall (fun n => ReactAst.isJSXElement n = true) rootChildren
              /\ length rootChildren = 1).
Proof.
  split.
  - eexists. split; [vm_compute; reflexivity|].
    apply (generateFile_wellFormed (ReactAst.plainValueToNode anyIdentifier) anyIdentifier
             codeUnitCompare 8
             (astOptions (Some [node "Card" [("actions", VArr [node "Button" []])];
                                node "Button" [("label", VStr "Go")]]) None)).
    + exact plainValueToNode_data.
    + vm_compute. reflexivity.
  - eexists. split; [vm_compute; reflexivity|].
    apply (generateFile_wellFormed (ReactAst.plainValueToNode anyIdentifier) anyIdentifier
             codeUnitCompare 8 panelOptions).
    + exact plainValueToNode_data.
    + vm_compute. reflexivity.
Defined.
End WellFormedFile.

Section SlotElementFacts.
Import Js Run.
Variable valueToNode : value -> ReactAst.Node.
Variable isValidIdentifier : string -> bool.
Variable config : ReactAst.Config.
Variable components : list (string * ReactAst.CodegenComponentTransform).
Variable includeIds : bool.

Local Abbreviation createComponent :=
  (ReactAst.createComponent valueToNode isValidIdentifier config components includeIds).
Local Abbreviation createSlotChildren :=
  (ReactAst.createSlotChildren valueToNode isValidIdentifier config components includeIds).
Local Abbreviation createFieldValueNode :=
  (ReactAst.createFieldValueNode valueToNode isValidIdentifier config components
     includeIds).

Lemma createComponent_element (fuel : nat) (component : value) (addKey : bool) :
  yields (fun n => ReactAst.isJSXElement n = true) (createComponent fuel component addKey).
Proof.
  destruct fuel as [|fuel]; [apply yields_throw|]. simpl.
  destruct (prop "type" component) as [type|]; [|apply yields_throw].
  destruct (ReactAst.componentConfigOf config (toStr type)) as [componentConfig|];
    [|apply yields_throw].
  eapply yields_bind; [apply yields_any|]. intros _ _.
  eapply yields_bind; [apply yields_any|]. intros props _.
  eapply yields_bind; [apply yields_any|]. intros [attributes children] _.
  eapply yields_bind; [apply yields_any|]. intros attributes' _.
  eapply yields_bind; [apply yields_any|]. intros name _.
  apply yields_ret. reflexivity.
Qed.

Lemma createSlotChildren_elements (fuel : nat) (content : value) :
  yields (Forall (fun n => ReactAst.isJSXElement n = true))
         (createSlotChildren fuel content).
Proof.
  destruct fuel as [|fuel]; [apply yields_throw|]. simpl.
  destruct content; try (apply yields_ret; constructor).
  apply yields_mapM. intros child. apply createComponent_element.
Qed.

(** X24.  A slot field never resolves to a data literal: its value node
    is the literal [null], one element, or a fragment of two or more
    elements. *)
Theorem slot_value_never_a_data_literal (fuel : nat) (v : value) (field : Types.Field)
  (buckets buckets' : ReactAst.ImportBuckets) (n : ReactAst.Node) :
  Types.fieldType field = "slot" ->
  createFieldValueNode fuel v (Some field) buckets = Ok (Some n, buckets') ->
  n = ReactAst.NullLiteral
  \/ ReactAst.isJSXElement n = true
  \/ exists children,
       n = ReactAst.JSXFragment ReactAst.JSXOpeningFragment ReactAst.JSXClosingFragment
             children
       /\ 2 <= length children
       /\ Forall (fun child => ReactAst.isJSXElement child = true) children.
Proof.
  intros Hslot. destruct fuel as [|fuel]; [discriminate|]. simpl.
  destruct (isUndefined v); [discriminate|]. rewrite Hslot. cbn [String.eqb Ascii.eqb Bool.eqb].
  unfold bind.
  destruct (createSlotChildren fuel v buckets) as [[slotChildren b]|e] eqn:E;
    [|discriminate].
  pose proof (createSlotChildren_elements _ _ _ _ _ E) as Hall.
  destruct slotChildren as [|only [|second rest]]; unfold ret; intros H;
    injection H as <- _.
  - left. reflexivity.
  - right. left. inversion Hall; assumption.
  - right. right. eexists. split; [reflexivity|]. split; [simpl; lia|exact Hall].
Qed.

(** X25.  A slot value that is not an array counts as the empty sequence:
    it resolves to the literal [null] and registers nothing. *)
Theorem malformed_slot_counts_as_empty (fuel : nat) (v : value) (field : Types.Field)
  (buckets : ReactAst.ImportBuckets) :
  Types.fieldType field = "slot" ->
  (forall items, v <> VArr items) ->
  v <> VUndefined ->
  createFieldValueNode (S (S fuel)) v (Some field) buckets
  = Ok (Some ReactAst.NullLiteral, buckets).
Proof.
  intros Hslot Harray Hdefined. simpl. rewrite Hslot.
  destruct v; try reflexivity; [congruence|].
  exfalso. eapply Harray. reflexivity.
Qed.

End SlotElementFacts.

Section OmittedIds.
Import Js Run.
Variable valueToNode : value -> ReactAst.Node.
Variable isValidIdentifier : string -> bool.
Variable config : ReactAst.Config.
Variable components : list (string * ReactAst.CodegenComponentTransform).
Hypothesis no_slotProps :
  forall key transform,
    lookup key components = Some transform -> ReactAst.slotProps transform = None.

Local Abbreviation createComponent :=
  (ReactAst.createComponent valueToNode isValidIdentifier config components false).
Local Abbreviation createAttributes :=
  (ReactAst.createAttributes valueToNode isValidIdentifier config components false).

Lemma jsxIdentifier_named (name : string) :
  yields (fun n => n = ReactAst.JSXIdentifier name)
    (@lift ReactAst.ImportBuckets _ (ReactAst.jsxIdentifier (Some name))).
Proof. apply yields_lift. intros n H. injection H as <-. reflexivity. Qed.

Lemma createAttributes_omits_ids (fuel : nat) (props : object)
  (componentFields : option Types.Fields)
  (transform : option ReactAst.CodegenComponentTransform) :
  (forall name, ReactAst.slotPropOf transform name = ReactAst.NotRenamed) ->
  yields (fun r => Forall (fun attribute => attributeName attribute <> "id") (fst r))
         (createAttributes fuel props componentFields transform).
Proof.
  intros Hslot. destruct fuel as [|fuel]; [apply yields_throw|]. simpl.
  apply yields_foldM; [|constructor].
  intros [attributes children] [name v] Hattributes. cbn [fst] in Hattributes.
  rewrite Hslot. cbn [andb negb].
  destruct (String.eqb_spec name "id") as [->|Hname];
    [apply yields_ret; exact Hattributes|].
  assert (Hmore : forall value,
             Forall (fun attribute => attributeName attribute <> "id")
                    (attributes ++ [ReactAst.JSXAttribute (ReactAst.JSXIdentifier name)
                                      value])).
  { intros value. apply Forall_app. split; [exact Hattributes|].
    constructor; [exact Hname|constructor]. }
  destruct (Types.isSlot _); cbn [ReactAst.isChildren];
    repeat first
      [ apply yields_ret; first [exact Hattributes | apply Hmore]
      | eapply yields_bind; [apply jsxIdentifier_named|]; intros ? ->
      | eapply yields_bind; [apply yields_any|]; intros ? _
      | match goal with
        | |- yields _ (if ?c then _ else _) => destruct c
        | |- yields _ (match ?x with _ => _ end) => destruct x
        end ].
Qed.

(** X30.  With [includeIds] off and no slot renamed by [slotProps], the
    element that [createComponent] builds has no attribute named id; the
    key of a slot child is an attribute of its own. *)
Theorem createComponent_omits_ids (fuel : nat) (component : value) (addKey : bool)
  (buckets buckets' : ReactAst.ImportBuckets) (n : ReactAst.Node) :
  createComponent fuel component addKey buckets = Ok (n, buckets') ->
  exists name attributes closing children selfClosing,
    n = ReactAst.JSXElement
          (ReactAst.JSXOpeningElement name attributes selfClosing)
          closing children selfClosing
    /\ Forall (fun attribute => attributeName attribute <> "id") attributes.
Proof.
  destruct fuel as [|fuel]; [discriminate|]. simpl.
  destruct (prop "type" component) as [type|]; [|discriminate].
  destruct (ReactAst.componentConfigOf config (toStr type)) as [componentConfig|];
    [|discriminate].
  assert (Hslot : forall name,
             ReactAst.slotPropOf
               (ReactAst.getComponentTransform components (toStr type)) name
             = ReactAst.NotRenamed).
  { intros name. unfold ReactAst.getComponentTransform, ReactAst.slotPropOf.
    destruct (lookup (toStr type) components) as [transform|] eqn:E; [|reflexivity].
    pose proof (no_slotProps _ _ E) as Hnone.
    destruct transform as [as0 import0 mapProps0 slotProps0]. cbn in Hnone.
    subst slotProps0. reflexivity. }
  unfold bind.
  destruct (ReactAst.registerImport _ buckets) as [[[] b1]|e]; [|discriminate].
  match goal with
  | |- match ?m b1 with Ok _ => _ | Err _ => _ end = _ -> _ =>
      destruct (m b1) as [[mapped b1']|e]; [|discriminate]
  end.
  destruct (ReactAst.createAttributes _ _ _ _ _ _ _ _ _ b1')
    as [[[attributes children] b2]|e] eqn:E; [|discriminate].
  apply (createAttributes_omits_ids _ _ _ _ Hslot) in E. cbn [fst] in E.
  destruct (addKey && _); [destruct (negb _); [destruct (get "id" _)|]|];
    unfold ret, throw, lift; try discriminate;
    (destruct (ReactAst.jsxIdentifier _) as [name|e]; [|discriminate]);
    intros H; injection H as <- _; do 5 eexists; (split; [reflexivity|]);
    try exact E.
  constructor; [discriminate|exact E].
Qed.
End OmittedIds.

Section BucketFacts.
Import Js Run.

Lemma bucketExtends_refl (b : ReactAst.ImportBucket) : bucketExtends b b.
Proof. split; [auto|]. intros imported alias H. exists alias. auto. Qed.

Lemma bucketExtends_trans (a b c : ReactAst.ImportBucket) :
  bucketExtends a b -> bucketExtends b c -> bucketExtends a c.
Proof.
  intros [Hd1 Hn1] [Hd2 Hn2]. split.
  - intros Ha. rewrite <- (Hd1 Ha). apply Hd2. rewrite (Hd1 Ha). exact Ha.
  - intros imported alias H. destruct (Hn1 _ _ H) as [alias1 [H1 Hk1]].
    destruct (Hn2 _ _ H1) as [alias2 [H2 Hk2]]. exists alias2. split; [exact H2|].
    intros Hgiven. specialize (Hk1 Hgiven). subst alias1. apply Hk2. exact Hgiven.
Qed.

Lemma bucketsExtend_refl (bs : ReactAst.ImportBuckets) : bucketsExtend bs bs.
Proof. intros p b Hb. exists b. split; [exact Hb|apply bucketExtends_refl]. Qed.

Lemma bucketsExtend_trans (a b c : ReactAst.ImportBuckets) :
  bucketsExtend a b -> bucketsExtend b c -> bucketsExtend a c.
Proof.
  intros Hab Hbc p x Hx. destruct (Hab p x Hx) as [y [Hy Hxy]].
  destruct (Hbc p y Hy) as [z [Hz Hyz]]. exists z. split; [exact Hz|].
  eapply bucketExtends_trans; eassumption.
Qed.

Lemma optionStringEqb_true (a b : option string) :
  ReactAst.optionStringEqb a b = true -> a = b.
Proof.
  destruct a as [x|], b as [y|]; simpl; try discriminate; try reflexivity.
  intros H. apply String.eqb_eq in H. congruence.
Qed.

Lemma registerEntry_buckets_extend (entry : ReactAst.CodegenImport) :
  grows bucketsExtend (ReactAst.registerEntry entry).
Proof.
  intros buckets [] buckets'. unfold ReactAst.registerEntry.
  destruct entry as [p imported alias|p d].
  - set (bucket := match lookup p buckets with
                   | Some b => b
                   | None => ReactAst.emptyBucket
                   end).
    set (existingAlias := match lookup imported (ReactAst.named bucket) with
                          | Some a => a
                          | None => None
                          end).
    destruct (ReactAst.given existingAlias
              && negb (ReactAst.optionStringEqb existingAlias alias)) eqn:Econflict;
      [discriminate|].
    intros H. injection H as <-. intros q b Hb.
    destruct (String.eqb_spec q p) as [->|Hne].
    + rewrite lookup_set_same. eexists. split; [reflexivity|].
      assert (Hbucket : bucket = b) by (unfold bucket; rewrite Hb; reflexivity).
      subst b. split; [reflexivity|]. cbn [ReactAst.named].
      intros i a Hi. destruct (String.eqb_spec i imported) as [->|Hni].
      * rewrite lookup_set_same. eexists. split; [reflexivity|]. intros Hgiven.
        unfold existingAlias in Econflict. rewrite Hi, Hgiven in Econflict.
        cbn [andb] in Econflict. apply negb_false_iff in Econflict.
        symmetry. apply optionStringEqb_true. exact Econflict.
      * rewrite lookup_set_other by assumption. exists a. auto.
    + rewrite lookup_set_other by assumption. exists b. split; [exact Hb|].
      apply bucketExtends_refl.
  - set (bucket := match lookup p buckets with
                   | Some b => b
                   | None => ReactAst.emptyBucket
                   end).
    destruct (ReactAst.given (ReactAst.defaultName bucket)
              && negb (ReactAst.optionStringEqb (ReactAst.defaultName bucket) (Some d)))
      eqn:Econflict; [discriminate|].
    intros H. injection H as <-. intros q b Hb.
    destruct (String.eqb_spec q p) as [->|Hne].
    + rewrite lookup_set_same. eexists. split; [reflexivity|].
      assert (Hbucket : bucket = b) by (unfold bucket; rewrite Hb; reflexivity).
      subst b. split.
      * cbn [ReactAst.defaultName]. intros Hgiven. rewrite Hgiven in Econflict.
        cbn [andb] in Econflict. apply negb_false_iff in Econflict.
        symmetry. apply optionStringEqb_true. exact Econflict.
      * cbn [ReactAst.named]. intros i a Hi. exists a. auto.
    + rewrite lookup_set_other by assumption. exists b. split; [exact Hb|].
      apply bucketExtends_refl.
Qed.

Lemma registerImport_buckets_extend (spec : ReactAst.ImportConfig) :
  grows bucketsExtend (ReactAst.registerImport spec).
Proof.
  pose proof bucketsExtend_refl as Hrefl. pose proof bucketsExtend_trans as Htrans.
  destruct spec as [|entry|entries]; simpl.
  - apply grows_ret; assumption.
  - apply grows_bind; [assumption| |intros; apply grows_ret; assumption].
    apply grows_bind; [assumption|apply registerEntry_buckets_extend|].
    intros. apply grows_ret; assumption.
  - apply grows_bind; [assumption| |intros; apply grows_ret; assumption].
    apply grows_mapM; [assumption|assumption|]. intros x. apply registerEntry_buckets_extend.
Qed.

Lemma registerEntry_buckets_wellKeyed (entry : ReactAst.CodegenImport) :
  preserves bucketsWellKeyed (ReactAst.registerEntry entry).
Proof.
  intros buckets [] buckets' [Hkeys Hnamed]. unfold ReactAst.registerEntry.
  destruct entry as [p imported alias|p d].
  - set (bucket := match lookup p buckets with
                   | Some b => b
                   | None => ReactAst.emptyBucket
                   end).
    assert (Hbucket : distinctKeys (ReactAst.named bucket)).
    { unfold bucket. destruct (lookup p buckets) as [b|] eqn:E.
      - apply (lookup_Forall _ _ _ _ Hnamed E).
      - constructor. }
    destruct (_ && _); [discriminate|]. intros H. injection H as <-.
    split; [apply set_distinctKeys; exact Hkeys|].
    apply set_Forall; [|exact Hnamed]. cbn [snd ReactAst.named].
    apply set_distinctKeys. exact Hbucket.
  - set (bucket := match lookup p buckets with
                   | Some b => b
                   | None => ReactAst.emptyBucket
                   end).
    assert (Hbucket : distinctKeys (ReactAst.named bucket)).
    { unfold bucket. destruct (lookup p buckets) as [b|] eqn:E.
      - apply (lookup_Forall _ _ _ _ Hnamed E).
      - constructor. }
    destruct (_ && _); [discriminate|]. intros H. injection H as <-.
    split; [apply set_distinctKeys; exact Hkeys|].
    apply set_Forall; [|exact Hnamed]. exact Hbucket.
Qed.

Lemma registerImport_buckets_wellKeyed (spec : ReactAst.ImportConfig) :
  preserves bucketsWellKeyed (ReactAst.registerImport spec).
Proof.
  destruct spec as [|entry|entries]; simpl.
  - apply preserves_ret.
  - apply preserves_bind; [|intros; apply preserves_ret].
    apply preserves_bind; [apply registerEntry_buckets_wellKeyed|intros; apply preserves_ret].
  - apply preserves_bind; [|intros; apply preserves_ret].
    apply preserves_mapM. intros x. apply registerEntry_buckets_wellKeyed.
Qed.
End BucketFacts.

Section AstRegistry.
Import Js Run.
Variable valueToNode : value -> ReactAst.Node.
Variable isValidIdentifier : string -> bool.
Variable config : ReactAst.Config.
Variable components : list (string * ReactAst.CodegenComponentTransform).
Variable includeIds : bool.

Local Abbreviation createComponent :=
  (ReactAst.createComponent valueToNode isValidIdentifier config components includeIds).
Local Abbreviation createSlotChildren :=
  (ReactAst.createSlotChildren valueToNode isValidIdentifier config components includeIds).
Local Abbreviation createArrayExpression :=
  (ReactAst.createArrayExpression valueToNode isValidIdentifier config components
     includeIds).
Local Abbreviation createObjectExpression :=
  (ReactAst.createObjectExpression valueToNode isValidIdentifier config components
     includeIds).
Local Abbreviation createFieldValueNode :=
  (ReactAst.createFieldValueNode valueToNode isValidIdentifier config components
     includeIds).
Local Abbreviation createAttributes :=
  (ReactAst.createAttributes valueToNode isValidIdentifier config components includeIds).

Lemma ReactAst_grows :
  forall fuel,
    (forall component addKey,
        grows bucketsExtend (createComponent fuel component addKey))
    /\ (forall content, grows bucketsExtend (createSlotChildren fuel content))
    /\ (forall values fields,
           grows bucketsExtend (createArrayExpression fuel values fields))
    /\ (forall v fields, grows bucketsExtend (createObjectExpression fuel v fields))
    /\ (forall v field, grows bucketsExtend (createFieldValueNode fuel v field))
    /\ (forall props componentFields transform,
           grows bucketsExtend (createAttributes fuel props componentFields transform)).
Proof.
  pose proof bucketsExtend_refl as Hrefl. pose proof bucketsExtend_trans as Htrans.
  induction fuel as [|fuel [IH1 [IH2 [IH3 [IH4 [IH5 IH6]]]]]].
  - split; [|split; [|split; [|split; [|split]]]]; intros; apply grows_throw.
  - split; [|split; [|split; [|split; [|split]]]]; intros; simpl;
      repeat first
        [ apply registerImport_buckets_extend
        | grows_step IH1 | grows_step IH2 | grows_step IH3
        | grows_step IH4 | grows_step IH5 | grows_step IH6 ].
Qed.

Lemma ReactAst_wellKeyed :
  forall fuel,
    (forall component addKey,
        preserves bucketsWellKeyed (createComponent fuel component addKey))
    /\ (forall content, preserves bucketsWellKeyed (createSlotChildren fuel content))
    /\ (forall values fields,
           preserves bucketsWellKeyed (createArrayExpression fuel values fields))
    /\ (forall v fields,
           preserves bucketsWellKeyed (createObjectExpression fuel v fields))
    /\ (forall v field, preserves bucketsWellKeyed (createFieldValueNode fuel v field))
    /\ (forall props componentFields transform,
           preserves bucketsWellKeyed
             (createAttributes fuel props componentFields transform)).
Proof.
  induction fuel as [|fuel [IH1 [IH2 [IH3 [IH4 [IH5 IH6]]]]]].
  - split; [|split; [|split; [|split; [|split]]]]; intros; apply preserves_throw.
  - split; [|split; [|split; [|split; [|split]]]]; intros; simpl;
      repeat first
        [ apply registerImport_buckets_wellKeyed
        | preserves_step IH1 | preserves_step IH2 | preserves_step IH3
        | preserves_step IH4 | preserves_step IH5 | preserves_step IH6 ].
Qed.

(** X27.  A run of [createComponent] that succeeds replaces no import: a
    bucket stays, with its default name if that is not empty, and with
    each of its imported names under the alias it had if that is not
    empty. *)
Theorem createComponent_never_replaces_imports (fuel : nat) (component : value)
  (addKey : bool) (buckets buckets' : ReactAst.ImportBuckets) (n : ReactAst.Node)
  (p : string) (bucket : ReactAst.ImportBucket) :
  createComponent fuel component addKey buckets = Ok (n, buckets') ->
  lookup p buckets = Some bucket ->
  exists bucket',
    lookup p buckets' = Some bucket'
    /\ (ReactAst.given (ReactAst.defaultName bucket) = true ->
        ReactAst.defaultName bucket' = ReactAst.defaultName bucket)
    /\ (forall imported alias,
           lookup imported (ReactAst.named bucket) = Some alias ->
           exists alias',
             lookup imported (ReactAst.named bucket') = Some alias'
             /\ (ReactAst.given alias = true -> alias' = alias)).
Proof.
  intros Hrun Hbucket.
  apply (proj1 (ReactAst_grows fuel) _ _ _ _ _ Hrun p bucket Hbucket).
Qed.
End AstRegistry.

Section AstDeclarations.
Import Js Run.
Variable localeCompare : string -> string -> comparison.

Lemma importDeclarations_distinct (buckets : ReactAst.ImportBuckets) :
  bucketsWellKeyed buckets ->
  NoDup (map declarationSource (ReactAst.importDeclarations localeCompare buckets))
  /\ Forall (fun declaration =>
               NoDup (map importedName
                        (filter isImportSpecifier (declarationSpecifiers declaration))))
            (ReactAst.importDeclarations localeCompare buckets).
Proof.
  intros [Hkeys Hnamed]. unfold ReactAst.importDeclarations. split.
  - rewrite map_map.
    rewrite (map_ext _ (@fst string ReactAst.ImportBucket))
      by (intros [p bucket]; reflexivity).
    apply sort_distinctKeys. exact Hkeys.
  - rewrite Forall_forall. intros declaration Hin. apply in_map_iff in Hin.
    destruct Hin as [[p bucket] [<- Hin]]. apply sort_In in Hin.
    cbn [declarationSpecifiers]. rewrite filter_app.
    assert (Hdefault : forall specifiers : list ReactAst.Node,
               (specifiers = [] \/ exists d, specifiers
                                             = [ReactAst.ImportDefaultSpecifier d]) ->
               filter isImportSpecifier specifiers = []).
    { intros specifiers [->|[d ->]]; reflexivity. }
    rewrite Hdefault.
    2: { destruct (ReactAst.defaultName bucket) as [d|]; [|left; reflexivity].
         destruct (isEmpty d); [left; reflexivity|right; eauto]. }
    cbn [app].
    match goal with
    | |- NoDup (map importedName (filter isImportSpecifier (map ?f ?l))) =>
        assert (Hall : filter isImportSpecifier (map f l) = map f l);
        [|rewrite Hall, map_map;
          rewrite (map_ext _ (@fst string (option string)))
            by (intros [importName alias]; reflexivity)]
    end.
    { apply filter_all. intros specifier Hspecifier. apply in_map_iff in Hspecifier.
      destruct Hspecifier as [[importName alias] [<- _]]. reflexivity. }
    apply sort_distinctKeys.
    rewrite Forall_forall in Hnamed. apply (Hnamed _ Hin).
Qed.
End AstDeclarations.

Section AstFileImports.
Import Js Run.

(** X28.  Apart from the React import, the import declarations of the
    generated file name no path twice, and no declaration imports a name
    twice. *)
Theorem generateFile_imports_distinct valueToNode isValidIdentifier
  (localeCompare : string -> string -> comparison) (fuel : nat)
  (options : ReactAst.GenerateReactComponentOptions) (file : ReactAst.Node) :
  ReactAst.generateFile valueToNode isValidIdentifier localeCompare fuel options
  = Ok file ->
  exists declarations,
    fileImports file
    = ((if match ReactAst.reactImport options with Some b => b | None => true end
        then [reactDeclaration] else []) ++ declarations)%list
    /\ NoDup (map declarationSource declarations)
    /\ Forall (fun declaration =>
                 NoDup (map importedName
                          (filter isImportSpecifier
                             (declarationSpecifiers declaration))))
              declarations.
Proof.
  unfold ReactAst.generateFile.
  set (content := match Types.content (ReactAst.data options) with
                  | Some c => c
                  | None => []
                  end).
  match goal with
  | |- context [mapM ?f content ?s] =>
      destruct (mapM f content s) as [[rootChildren buckets]|e] eqn:E;
      [|discriminate];
      assert (Hkeeps : preserves bucketsWellKeyed (mapM f content))
  end.
  { apply preserves_mapM. intros x.
    apply (proj1 (ReactAst_wellKeyed _ _ _ _ _ fuel)). }
  intros H. injection H as <-.
  exists (ReactAst.importDeclarations localeCompare buckets). split.
  - cbn [fileImports]. rewrite !filter_app. cbn [filter isImportDeclaration].
    rewrite app_nil_r. f_equal.
    + destruct (match ReactAst.reactImport options with Some b => b | None => true end);
        reflexivity.
    + apply filter_all. intros declaration Hin.
      unfold ReactAst.importDeclarations in Hin. apply in_map_iff in Hin.
      destruct Hin as [[p bucket] [<- _]]. reflexivity.
  - apply importDeclarations_distinct. eapply Hkeeps; [|exact E].
    split; constructor.
Qed.
End AstFileImports.

Section ObjectLiteral.
Import Js Run.
Variable valueToNode : value -> ReactAst.Node.
Variable isValidIdentifier : string -> bool.
Variable config : ReactAst.Config.
Variable components : list (string * ReactAst.CodegenComponentTransform).
Variable includeIds : bool.

Local Abbreviation createObjectExpression :=
  (ReactAst.createObjectExpression valueToNode isValidIdentifier config components
     includeIds).
Local Abbreviation createFieldValueNode :=
  (ReactAst.createFieldValueNode valueToNode isValidIdentifier config components
     includeIds).

Lemma createFieldValueNode_defined (fuel : nat) (v : value) (field : option Types.Field) :
  isUndefined v = false ->
  yields (fun r => exists n, r = Some n) (createFieldValueNode fuel v field).
Proof.
  intros Hv. destruct fuel as [|fuel]; [apply yields_throw|]. simpl. rewrite Hv.
  destruct field as [fd|]; [|apply yields_ret; eauto].
  destruct (String.eqb (Types.fieldType fd) "slot").
  - eapply yields_bind; [apply yields_any|]. intros slotChildren _.
    destruct slotChildren as [|only [|second rest]]; apply yields_ret; eauto.
  - destruct (String.eqb (Types.fieldType fd) "array").
    + eapply yields_bind; [apply yields_any|]. intros n _. apply yields_ret. eauto.
    + destruct (String.eqb (Types.fieldType fd) "object").
      * eapply yields_bind; [apply yields_any|]. intros n _. apply yields_ret. eauto.
      * apply yields_ret. eauto.
Qed.

(** X29.  The object literal of an object value has one property per
    member that is not [undefined], in the order of the members, under the
    key that [createObjectKey] gives to its name. *)
Theorem createObjectExpression_members (fuel : nat) (es : object)
  (fields : option Types.Fields) (buckets buckets' : ReactAst.ImportBuckets)
  (n : ReactAst.Node) :
  createObjectExpression fuel (VObj es) fields buckets = Ok (n, buckets') ->
  exists properties,
    n = ReactAst.ObjectExpression properties
    /\ map propertyKey properties
       = map (fun e => ReactAst.createObjectKey isValidIdentifier (fst e))
             (filter (fun e => negb (isUndefined (snd e))) es).
Proof.
  destruct fuel as [|fuel]; [discriminate|]. simpl. unfold bind at 1.
  match goal with
  | |- context [mapM ?f ?l buckets] =>
      destruct (mapM f l buckets) as [[properties b]|e] eqn:E; [|discriminate];
      assert (Hall : yields
                       (Forall2 (fun e ps =>
                                   exists p, ps = [p]
                                             /\ propertyKey p
                                                = ReactAst.createObjectKey
                                                    isValidIdentifier (fst e)) l)
                       (mapM f l))
  end.
  { match goal with
    | |- yields _ (mapM _ ?l) =>
        assert (Hdefined : Forall (fun e => isUndefined (snd e) = false) l)
    end.
    { rewrite Forall_forall. intros [k x] Hin. apply filter_In in Hin.
      destruct Hin as [_ Hx]. apply negb_true_iff in Hx. exact Hx. }
    revert Hdefined. clear E.
    match goal with
    | |- Forall _ ?l -> _ => generalize l
    end.
    induction l as [|[k x] l IH]; intros Hdefined; simpl.
    - apply yields_ret. constructor.
    - inversion Hdefined as [|? ? Hx Hl]; subst.
      eapply yields_bind.
      + eapply yields_bind; [apply (createFieldValueNode_defined _ _ _ Hx)|].
        intros r [node ->]. apply yields_ret.
        instantiate (1 := fun ps => exists p, ps = [p]
                                              /\ propertyKey p
                                                 = ReactAst.createObjectKey
                                                     isValidIdentifier k).
        eexists. split; reflexivity.
      + intros ps Hps. eapply yields_bind; [apply (IH Hl)|].
        intros pss Hpss. apply yields_ret. constructor; assumption. }
  unfold ret. intros H. injection H as <- _. eexists. split; [reflexivity|].
  specialize (Hall _ _ _ E). clear E.
  assert (Hfilter :
            filter (fun '(_, propValue) => negb (isUndefined propValue)) es
            = filter (fun e => negb (isUndefined (snd e))) es).
  { apply filter_ext. intros [k x]. reflexivity. }
  rewrite <- Hfilter. clear Hfilter. revert Hall.
  generalize (filter (fun '(_, propValue) => negb (isUndefined propValue)) es).
  intros l Hall.
  induction Hall as [|e ps l pss [p [-> Hp]] Hrest IH]; [reflexivity|].
  cbn [concat app map]. rewrite Hp, IH. reflexivity.
Qed.
End ObjectLiteral.

(** ** Instances *)

Section Instances.
Import Js Run.

(** X2 at a Card with [id], [title] and [puck]. *)
Lemma renderNode_ignores_id_and_puck_witness :
  Jsx.renderNode 3 cardContext (node "Card" [("title", VStr "Hi")]) 1 []
  = Jsx.renderNode 3 cardContext (node "Card" bookkeptProps) 1 [].
Proof.
  apply (renderNode_ignores_id_and_puck 3 cardContext "Card" bookkeptProps 1 []
           {| Jsx.fields := Some [("actions", slotField)]; Jsx.codegen := None |}).
  - reflexivity.
  - simpl. intros [H|[]]. discriminate.
  - simpl. intros [H|[]]. discriminate.
Defined.


(** X5 at a Hidden node, which is skipped, and at a Button. *)
Lemma renderNode_null_only_when_skipped_witness :
  (exists registry',
      Jsx.renderNode 1 hiddenContext hiddenNode 1 antdRegistry = Ok (None, registry')
      /\ exists type componentConfig,
           prop "type" hiddenNode = Some type
           /\ Jsx.componentConfigOf hiddenConfig (toStr type) = Some componentConfig
           /\ lookup (toStr type) (Jsx.components hiddenConfig) = Some componentConfig
           /\ Jsx.skipped componentConfig = true /\ registry' = antdRegistry)
  /\ (exists text registry',
         Jsx.renderNode 1 hiddenContext (node "Button" []) 1 [] = Ok (Some text, registry')
         /\ exists type componentConfig,
              prop "type" (node "Button" []) = Some type
              /\ Jsx.componentConfigOf hiddenConfig (toStr type) = Some componentConfig
              /\ Jsx.skipped componentConfig = false
              /\ isEmpty (trim text) = false).
Proof.
  split.
  - eexists. split; [vm_compute; reflexivity|].
    apply (renderNode_null_only_when_skipped 1 hiddenContext hiddenNode 1 antdRegistry
             antdRegistry None).
    reflexivity.
  - eexists. eexists. split; [vm_compute; reflexivity|].
    eapply (renderNode_null_only_when_skipped 1 hiddenContext (node "Button" []) 1 []
              _ (Some _)).
    vm_compute. reflexivity.
Defined.

(** X6 at a page of two Hidden nodes. *)
Lemma generateJSX_empty_fragment_witness :
  exists tree,
    Jsx.generateJSX codeUnitCompare (hiddenOptions [hiddenNode; hiddenNode]) = Ok tree
    /\ (Jsx.jsx tree = Jsx.indent 0 2 ++ "<></>"
        <-> forall item, In item [hiddenNode; hiddenNode] ->
                         skippedNode hiddenConfig item).
Proof.
  eexists. split; [vm_compute; reflexivity|].
  apply (generateJSX_empty_fragment codeUnitCompare
           (hiddenOptions [hiddenNode; hiddenNode])).
  vm_compute. reflexivity.
Defined.


(** X9 at two lines and depth zero. *)
Lemma indentLines_identity_witness : Jsx.indentLines twoButtons 0 2 = twoButtons.
Proof. apply (indentLines_identity twoButtons 0 2). left. lia. Defined.

(** X10 at two lines moved from depth one to depth three. *)
Lemma shiftIndent_indentLines_witness :
  Jsx.shiftIndent twoButtons 1 3 2 = Jsx.indentLines twoButtons (3 - 1) 2.
Proof. apply (shiftIndent_indentLines twoButtons 1 3 2). reflexivity. Defined.


(** X12 at a Row of two Cols, all imported from antd. *)
Lemma generateJSX_imports_distinct_witness :
  exists tree,
    Jsx.generateJSX codeUnitCompare antdOptions = Ok tree
    /\ map Jsx.path (Jsx.imports tree) = ["antd"; "ui"]
    /\ NoDup (map Jsx.path (Jsx.imports tree))
    /\ Forall (fun entry => NoDup (map fst (Jsx.named entry))) (Jsx.imports tree).
Proof.
  eexists. split; [vm_compute; reflexivity|]. split; [reflexivity|].
  apply (generateJSX_imports_distinct codeUnitCompare antdOptions).
  vm_compute. reflexivity.
Defined.

(** X13 at the same Row, rendered over a registry that holds a default
    name and the name Card for antd. *)
Lemma renderNode_keeps_imports_witness :
  exists out registry',
    Jsx.renderNode 2 antdContext rowOfCols 1 antdRegistry = Ok (out, registry')
    /\ exists entry',
         lookup "antd" registry' = Some entry'
         /\ (Jsx.given (Some "Antd") = true -> Jsx.entryDefault entry' = Some "Antd")
         /\ (forall name, has name [("Card", @None string)] = true ->
                          has name (Jsx.entryNamed entry') = true).
Proof.
  eexists. eexists. split; [vm_compute; reflexivity|].
  eapply (renderNode_keeps_imports antdContext 2 rowOfCols 1 antdRegistry _ _ "antd"
           {| Jsx.entryDefault := Some "Antd"; Jsx.entryNamed := [("Card", None)] |}).
  - vm_compute. reflexivity.
  - reflexivity.
Defined.


(** X17 at a page with a [null] after a Button, and at a Button whose
    [transformProps] hook returns [null]. *)
Lemma generateReactCode_errors_witness :
  (exists e,
      ReactCode.generateReactCode codeUnitCompare 3
        (codeOptions [node "Button" []; VNull] None) = Err e
      /\ (e = OutOfFuel
          \/ (e = TypeError
              /\ ((exists item,
                      In item [node "Button" []; VNull]
                      /\ (item = VNull \/ item = VUndefined))
                  \/ transformPropsOutcome None (Returns VNull)
                  \/ transformPropsOutcome None (Returns VUndefined)))
          \/ (exists thrown,
                 e = Thrown thrown /\ transformPropsOutcome None (Throws thrown))))
  /\ (exists e,
         ReactCode.generateReactCode codeUnitCompare 3
           (codeOptions [node "Button" []] (Some [("Button", buttonToNull)])) = Err e
         /\ (e = OutOfFuel
             \/ (e = TypeError
                 /\ ((exists item,
                         In item [node "Button" []]
                         /\ (item = VNull \/ item = VUndefined))
                     \/ transformPropsOutcome (Some [("Button", buttonToNull)])
                          (Returns VNull)
                     \/ transformPropsOutcome (Some [("Button", buttonToNull)])
                          (Returns VUndefined)))
             \/ (exists thrown,
                    e = Thrown thrown
                    /\ transformPropsOutcome (Some [("Button", buttonToNull)])
                         (Throws thrown)))).
Proof.
  split.
  - eexists. split; [vm_compute; reflexivity|].
    apply (generateReactCode_errors codeUnitCompare 3
             (codeOptions [node "Button" []; VNull] None)).
    vm_compute. reflexivity.
  - eexists. split; [vm_compute; reflexivity|].
    apply (generateReactCode_errors codeUnitCompare 3
             (codeOptions [node "Button" []] (Some [("Button", buttonToNull)]))).
    vm_compute. reflexivity.
Defined.

(** X18 at the page with a Ghost and a Button. *)
Lemma generateReactCode_succeeds_witness :
  exists out, ReactCode.generateReactCode codeUnitCompare 9 ghostOptions = Ok out.
Proof.
  apply (generateReactCode_succeeds codeUnitCompare ghostOptions 9).
  - intros m key entry H. discriminate.
  - simpl. intros item [<-|[<-|[]]]; split; discriminate.
  - vm_compute. lia.
Defined.

(** X19 at a string and at a number. *)
Lemma formatPropValue_kind_witness :
  (exists kind text imports',
      ReactCode.formatPropValue 1 defaultContext (VStr "Go") 0 colImports
      = Ok ((kind, text), imports')
      /\ kind = ReactCode.KString /\ text = quote "Go" /\ imports' = colImports)
  /\ (exists kind text imports',
         ReactCode.formatPropValue 3 defaultContext (VArr [VNum 24; VStr "Go"]) 0
           colImports
         = Ok ((kind, text), imports')
         /\ kind = ReactCode.KExpression).
Proof.
  split.
  - eexists. eexists. eexists. split; [vm_compute; reflexivity|].
    eapply (formatPropValue_kind 1 defaultContext (VStr "Go") 0 colImports).
    vm_compute. reflexivity.
  - eexists. eexists. eexists. split; [vm_compute; reflexivity|].
    eapply (formatPropValue_kind 3 defaultContext (VArr [VNum 24; VStr "Go"]) 0
              colImports).
    vm_compute. reflexivity.
Defined.

(** X21 at a Stack printed as the Row of antd, over an import map that
    holds Col. *)
Lemma renderComponent_keeps_imports_witness :
  exists text imports',
    ReactCode.renderComponent 3 stackContext (node "Stack" []) 0 colImports
    = Ok (text, imports')
    /\ exists record',
         lookup "antd" imports' = Some record'
         /\ (@None string <> None -> ReactCode.defaultImport record' <> None)
         /\ incl [("Col", @None string)] (ReactCode.named record').
Proof.
  eexists. eexists. split; [vm_compute; reflexivity|].
  eapply (renderComponent_keeps_imports 3 stackContext (node "Stack" []) 0 colImports
           _ _ "antd"
           {| ReactCode.defaultImport := None; ReactCode.named := [("Col", None)] |}).
  - vm_compute. reflexivity.
  - reflexivity.
Defined.


(** X24 at a slot of two Buttons. *)
Lemma slot_value_never_a_data_literal_witness :
  exists n buckets',
    ReactAst.createFieldValueNode (ReactAst.plainValueToNode anyIdentifier) anyIdentifier
      astCardConfig [] false 4 (VArr [node "Button" []; node "Button" []])
      (Some slotField) [] = Ok (Some n, buckets')
    /\ (n = ReactAst.NullLiteral
        \/ ReactAst.isJSXElement n = true
        \/ exists children,
             n = ReactAst.JSXFragment ReactAst.JSXOpeningFragment
                   ReactAst.JSXClosingFragment children
             /\ 2 <= length children
             /\ Forall (fun child => ReactAst.isJSXElement child = true) children).
Proof.
  eexists. eexists. split; [vm_compute; reflexivity|].
  apply (slot_value_never_a_data_literal (ReactAst.plainValueToNode anyIdentifier)
           anyIdentifier astCardConfig [] false 4
           (VArr [node "Button" []; node "Button" []]) slotField [] []).
  - reflexivity.
  - vm_compute. reflexivity.
Defined.

(** X25 at a slot whose value is a string. *)
Lemma malformed_slot_counts_as_empty_witness :
  ReactAst.createFieldValueNode (ReactAst.plainValueToNode anyIdentifier) anyIdentifier
    astCardConfig [] false 2 (VStr "oops") (Some slotField) uiBuckets
  = Ok (Some ReactAst.NullLiteral, uiBuckets).
Proof.
  apply (malformed_slot_counts_as_empty (ReactAst.plainValueToNode anyIdentifier)
           anyIdentifier astCardConfig [] false 0 (VStr "oops") slotField uiBuckets).
  - reflexivity.
  - intros items. discriminate.
  - discriminate.
Defined.


(** X27 at a Button that imports Card from ui, over buckets that hold a
    default name and an alias for ui. *)
Lemma createComponent_never_replaces_imports_witness :
  exists n buckets',
    ReactAst.createComponent (ReactAst.plainValueToNode anyIdentifier) anyIdentifier
      astCardConfig [("Button", buttonWithCard)] false 2 (node "Button" []) false
      uiBuckets
    = Ok (n, buckets')
    /\ exists bucket',
         lookup "ui" buckets' = Some bucket'
         /\ (ReactAst.given (Some "A") = true ->
             ReactAst.defaultName bucket' = Some "A")
         /\ (forall imported alias,
                lookup imported [("Button", Some "A")] = Some alias ->
                exists alias',
                  lookup imported (ReactAst.named bucket') = Some alias'
                  /\ (ReactAst.given alias = true -> alias' = alias)).
Proof.
  eexists. eexists. split; [vm_compute; reflexivity|].
  eapply (createComponent_never_replaces_imports (ReactAst.plainValueToNode anyIdentifier)
           anyIdentifier astCardConfig [("Button", buttonWithCard)] false 2
           (node "Button" []) false uiBuckets _ _ "ui"
           {| ReactAst.named := [("Button", Some "A")];
              ReactAst.defaultName := Some "A" |}).
  - vm_compute. reflexivity.
  - reflexivity.
Defined.

(** X28 at a page of two Buttons that import Card from ui. *)
Lemma generateFile_imports_distinct_witness :
  exists file,
    ReactAst.generateFile (ReactAst.plainValueToNode anyIdentifier) anyIdentifier
      codeUnitCompare 3
      (astOptions (Some [node "Button" []; node "Button" []])
         (Some [("Button", buttonWithCard)]))
    = Ok file
    /\ exists declarations,
         fileImports file = ([reactDeclaration] ++ declarations)%list
         /\ NoDup (map declarationSource declarations)
         /\ Forall (fun declaration =>
                      NoDup (map importedName
                               (filter isImportSpecifier
                                  (declarationSpecifiers declaration))))
                   declarations.
Proof.
  eexists. split; [vm_compute; reflexivity|].
  apply (generateFile_imports_distinct (ReactAst.plainValueToNode anyIdentifier)
           anyIdentifier codeUnitCompare 3
           (astOptions (Some [node "Button" []; node "Button" []])
              (Some [("Button", buttonWithCard)]))).
  vm_compute. reflexivity.
Defined.

(** X29 at an object with an [undefined] member. *)
Lemma createObjectExpression_members_witness :
  exists n buckets',
    ReactAst.createObjectExpression (ReactAst.plainValueToNode anyIdentifier)
      anyIdentifier astCardConfig [] false 2
      (VObj [("a", VNum 1); ("b", VUndefined); ("c", VStr "x")]) None []
    = Ok (n, buckets')
    /\ exists properties,
         n = ReactAst.ObjectExpression properties
         /\ map propertyKey properties
            = [ReactAst.Identifier "a"; ReactAst.Identifier "c"].
Proof.
  eexists. eexists. split; [vm_compute; reflexivity|].
  apply (createObjectExpression_members (ReactAst.plainValueToNode anyIdentifier)
           anyIdentifier astCardConfig [] false 2
           [("a", VNum 1); ("b", VUndefined); ("c", VStr "x")] None [] []).
  vm_compute. reflexivity.
Defined.
(** X30 at a Button with an [id] and a label, as a slot child. *)
Lemma createComponent_omits_ids_witness :
  exists n buckets',
    ReactAst.createComponent (ReactAst.plainValueToNode anyIdentifier) anyIdentifier
      astCardConfig [] false 3
      (node "Button" [("id", VStr "Button-1"); ("label", VStr "Go")]) true []
    = Ok (n, buckets')
    /\ exists name attributes closing children selfClosing,
         n = ReactAst.JSXElement
               (ReactAst.JSXOpeningElement name attributes selfClosing)
               closing children selfClosing
         /\ Forall (fun attribute => attributeName attribute <> "id") attributes.
Proof.
  eexists. eexists. split; [vm_compute; reflexivity|].
  eapply (createComponent_omits_ids (ReactAst.plainValueToNode anyIdentifier)
            anyIdentifier astCardConfig [])
    with (fuel := 3) (addKey := true) (buckets := [])
         (component := node "Button" [("id", VStr "Button-1"); ("label", VStr "Go")]).
  - intros key transform H. discriminate.
  - vm_compute. reflexivity.
Defined.
(** X14 at the entry of the path ui in a registry with two paths. *)
Lemma formatImports_exact_witness :
  exists entry,
    In entry (Jsx.formatImports codeUnitCompare unsortedRegistry)
    /\ Jsx.path entry = "ui" /\ Jsx.default entry = Some "Ui"
    /\ Permutation [("Card", None); ("Button", Some "Btn")] (Jsx.named entry).
Proof.
  apply (proj1 (formatImports_exact codeUnitCompare unsortedRegistry) "ui"
           {| Jsx.entryDefault := Some "Ui";
              Jsx.entryNamed := [("Card", None); ("Button", Some "Btn")] |}).
  - left. reflexivity.
  - left. reflexivity.
Defined.

(** X8 at code of one line with white space around it. *)
Lemma codegenExpression_trimmed_witness :
  exists payload,
    Jsx.codegenExpression "  <Sparkles />  " = VObj [("__codegen", VStr payload)]
    /\ trimEnd payload = payload /\ trimStart payload = payload.
Proof.
  destruct (codegenExpression_trimmed "  <Sparkles />  ") as [payload [H1 [H2 [H3 _]]]].
  exists payload. split; [exact H1|]. split; [exact H2|]. apply H3. reflexivity.
Defined.
End Instances.
